(** * OpenPowerliftingDataManager: dataset cache, name index and lifter lookup

    A shallow embedding of [Command Line Program/data_manager.py].

    Conventions of the embedding:
    - a Python [str] is a [string] whose characters are the code points
      U+0000..U+00FF; [str.strip], [str.lower] and comparison are written
      out for that range;
    - a Python [float] is an exact rational ([Q]); the rounding of binary
      floating point is not part of the model;
    - a Python [dict] is an association list in insertion order with
      unique keys ([PyDict]);
    - an instant is a number of microseconds ([Z]); [datetime.now()] is
      read from the [World] the operation runs in;
    - the file system is the [Disk] record, the network and the outcome
      of each write are fields of the [World];
    - a method of the class is a function on the [Manager] state, in the
      monad [M] when it can raise. *)

From Stdlib Require Import String Ascii List Bool Arith ZArith QArith Qabs Qminmax.
From Stdlib Require Import Lia Lqa DecimalString Permutation Sorted.
Import ListNotations.

Set Implicit Arguments.
Set Default Proof Using "Type".

Local Close Scope Q_scope.
Local Open Scope string_scope.
Local Open Scope list_scope.
Local Open Scope nat_scope.

(** ** Strings *)

Module PyStr.

(** [c.isspace()] for a code point below 256. *)
Definition isspace (c : ascii) : bool :=
  let n := nat_of_ascii c in
  ((9 <=? n) && (n <=? 13)) || ((28 <=? n) && (n <=? 32))
  || (n =? 133) || (n =? 160).

(** [c.lower()] for a code point below 256: A-Z and the Latin-1 capitals
    U+00C0..U+00DE (without the multiplication sign U+00D7) move up by 32. *)
Definition lower_char (c : ascii) : ascii :=
  let n := nat_of_ascii c in
  if ((65 <=? n) && (n <=? 90))
     || ((192 <=? n) && (n <=? 222) && negb (n =? 215))
  then ascii_of_nat (n + 32) else c.

(** [s.lower()] *)
Fixpoint lower (s : string) : string :=
  match s with
  | EmptyString => EmptyString
  | String c s' => String (lower_char c) (lower s')
  end.

(** [s.replace(c, '')] for a one-character [c]. *)
Fixpoint remove (c : ascii) (s : string) : string :=
  match s with
  | EmptyString => EmptyString
  | String d s' =>
      if Ascii.eqb d c then remove c s' else String d (remove c s')
  end.

(** [s.lstrip(...)]: drop the leading characters that satisfy [p]. *)
Fixpoint lstrip_with (p : ascii -> bool) (s : string) : string :=
  match s with
  | EmptyString => EmptyString
  | String c s' => if p c then lstrip_with p s' else s
  end.

(** [s.rstrip(...)]: drop the trailing characters that satisfy [p]. *)
Fixpoint rstrip_with (p : ascii -> bool) (s : string) : string :=
  match s with
  | EmptyString => EmptyString
  | String c s' =>
      match rstrip_with p s' with
      | EmptyString => if p c then EmptyString else String c EmptyString
      | r => String c r
      end
  end.

Definition strip_with (p : ascii -> bool) (s : string) : string :=
  rstrip_with p (lstrip_with p s).

(** [s.strip()] *)
Definition strip (s : string) : string := strip_with isspace s.

(** [s.strip(' ')] *)
Definition strip_blanks (s : string) : string :=
  strip_with (fun c => Ascii.eqb c " ") s.

(** [s.startswith(p)] *)
Definition startswith (s p : string) : bool := String.prefix p s.

(** [c in s] for a one-character [c]. *)
Fixpoint contains (c : ascii) (s : string) : bool :=
  match s with
  | EmptyString => false
  | String d s' => Ascii.eqb d c || contains c s'
  end.

(** [bool(s)]: a string is true when it is not empty. *)
Definition truthy (s : string) : bool :=
  match s with EmptyString => false | _ => true end.

End PyStr.

(** ** Dictionaries *)

Module PyDict.

Section Dict.
Variable V : Type.

Definition t := list (string * V).

(** [d.get(k)], and [d[k]] where the key is known to be present. *)
Fixpoint get (d : t) (k : string) : option V :=
    match d with
    | [] => None
    | (k', v) :: d' => if String.eqb k' k then Some v else get d' k
    end.

(** [k in d] *)
Definition mem (d : t) (k : string) : bool :=
    match get d k with Some _ => true | None => false end.

(** [d[k] = v]: a present key keeps its place, a new key goes last. *)
Fixpoint set (d : t) (k : string) (v : V) : t :=
    match d with
    | [] => [(k, v)]
    | (k', v') :: d' =>
        if String.eqb k' k then (k', v) :: d' else (k', v') :: set d' k v
    end.

(** [d.keys()] *)
Definition keys (d : t) : list string := map fst d.

(** [bool(d)] *)
Definition truthy (d : t) : bool :=
    match d with [] => false | _ => true end.

End Dict.

End PyDict.

(** ** Normalizer *)

(** [_normalize_search_name] *)
Definition _normalize_search_name (name : string) : string :=
PyStr.lower (PyStr.remove "," (PyStr.remove " " name)).

(** The loop of [_try_multiple_normalizations] that removes duplicates
  while preserving order; [seen] is the set built so far. *)
Fixpoint unique_in_order (seen : list string) (normalizations : list string)
: list string :=
match normalizations with
| [] => []
| norm :: rest =>
    if existsb (String.eqb norm) seen
    then unique_in_order seen rest
    else norm :: unique_in_order (norm :: seen) rest
end.

(** [_try_multiple_normalizations] *)
Definition _try_multiple_normalizations (name : string) : list string :=
let normalizations :=
  [ PyStr.lower (PyStr.remove "," (PyStr.remove " " name));  (* strategy 1 *)
    PyStr.lower (PyStr.remove " " name);                     (* strategy 2 *)
    PyStr.lower (PyStr.remove "," name) ]                    (* strategy 3 *)
in unique_in_order [] normalizations.

(** The three strategies by name. *)
Definition variant1 (name : string) : string :=
PyStr.lower (PyStr.remove "," (PyStr.remove " " name)).
Definition variant2 (name : string) : string :=
PyStr.lower (PyStr.remove " " name).
Definition variant3 (name : string) : string :=
PyStr.lower (PyStr.remove "," name).

(** ** Data model *)

(** One row of the dataset table as [pd.read_parquet] returns it.  A text
    cell is [None] when the value is missing.  A numeric cell holds what
    [pd.to_numeric(..., errors='coerce')] makes of it: [None] is NaN. *)
Record Row := {
  Name : option string;
  MeetName : option string;
  Date : option string;
  Division : option string;
  Federation : option string;
  Country : option string;
  WeightClassKg : option Q;
  Best3SquatKg : option Q;
  Best3BenchKg : option Q;
  Best3DeadliftKg : option Q;
  TotalKg : option Q;
  Dots : option Q;
  BodyweightKg : option Q;
  Age : option Q
}.

(** The dataframe: its column names and its rows. *)
Record Table := {
  columns_of : list string;
  rows_of : list Row
}.

(** One entry of the lists held by the name index (the dict that
    [preprocess_data] appends to [records]). *)
Record LifterRecord := {
  index : nat;
  original_name : string;
  meet_name : option string;
  date : option string;
  division : option string;
  weight_class : Q;
  federation : option string;
  country : option string;
  squat : Q;
  bench : Q;
  deadlift : Q;
  total : Q;
  dotscore : Q;
  bodyweight : Q;
  age : Q;
  days_old : Z
}.

(** [self._name_index]: normalized name to the records filed under it. *)
Definition NameIndex := PyDict.t (list LifterRecord).

(** An element of the list returned by [find_lifter_candidates]. *)
Record Candidate := {
  record : LifterRecord;
  score : Q;
  name_similarity : Q;
  match_type : string
}.

(** The contents of [metadata.json]; [{}] is [empty_metadata]. *)
Record Metadata := {
  last_update : option Z;
  file_hash : option string;
  rows : option nat;
  columns : option (list string)
}.

Definition empty_metadata : Metadata :=
  {| last_update := None; file_hash := None; rows := None; columns := None |}.

(** What a reader finds in a file that exists: the value once written to
    it, or bytes that do not deserialize. *)
Inductive Stored (A : Type) : Type :=
| Intact (a : A)
| Corrupt.
Arguments Intact {A} a.
Arguments Corrupt {A}.

(** The cache directory: [None] is a file that does not exist. *)
Record Disk := {
  data_file : option (Stored Table);
  metadata_file : option (Stored Metadata);
  index_pkl : option (Stored NameIndex);
  index_json : option (Stored NameIndex)
}.

(** The instance attributes that the methods read and assign. *)
Record Manager := {
  _data : option Table;
  _name_index : option NameIndex;
  disk : Disk
}.

(** How an attempt to write a file ends: the file holds the new contents;
    or the write raises before the file is touched; or it raises after the
    file was opened for writing and leaves unreadable contents. *)
Inductive WriteOutcome := Written | WriteRefused | WriteTorn.

(** The response headers of [requests.head]. *)
Record Headers := {
  ETag : option string;
  Last_Modified : option string
}.

(** What [requests.get] and [zipfile.ZipFile] make of the archive URL: an
    exception from the request or from [raise_for_status]; a body that is
    no zip archive; or the members of the archive in [namelist()] order,
    each with what [pd.read_csv] returns on it ([None]: it raises). *)
Inductive Download :=
| RequestFailed
| NotAZip
| ZipMembers (members : list (string * option Table)).

(** Everything outside the process during one operation. *)
Record World := {
  clock : Z;
  head_reply : option Headers;
  get_reply : Download;
  parquet_write : WriteOutcome;
  metadata_write : WriteOutcome;
  pickle_write : WriteOutcome
}.

Inductive Exn :=
| FileNotFoundError
| RequestException
| BadZipFile
| ValueError
| ParserError
| ArrowInvalid
| UnpicklingError
| JSONDecodeError
| OSError.

(** ** Computations on the manager state that can raise *)

Definition M (A : Type) : Type := Manager -> (Exn + A) * Manager.

Definition ret {A} (a : A) : M A := fun st => (inr a, st).
Definition raise {A} (e : Exn) : M A := fun st => (inl e, st).
Definition bind {A B} (m : M A) (k : A -> M B) : M B :=
  fun st =>
    match m st with
    | (inl e, st') => (inl e, st')
    | (inr a, st') => k a st'
    end.
Definition get_state : M Manager := fun st => (inr st, st).
Definition put_state (st : Manager) : M unit := fun _ => (inr tt, st).

Declare Scope py_scope.
Delimit Scope py_scope with py.
Notation "x <- m ;; k" := (bind m (fun x => k))
  (at level 61, m at next level, right associativity) : py_scope.
Notation "m ;;; k" := (bind m (fun _ => k))
  (at level 61, right associativity) : py_scope.

(** The file after an attempt to write [new] over [old]. *)
Definition file_after {A} (o : WriteOutcome) (old : option (Stored A)) (new : A)
  : option (Stored A) :=
  match o with
  | Written => Some (Intact new)
  | WriteRefused => old
  | WriteTorn => Some Corrupt
  end.

(** Twenty-four hours and one day, in microseconds. *)
Definition HOURS_24 : Z := 86400000000.
Definition DAY : Z := 86400000000.

Definition with_data (d : option Table) (st : Manager) : Manager :=
  {| _data := d; _name_index := _name_index st; disk := disk st |}.
Definition with_name_index (i : option NameIndex) (st : Manager) : Manager :=
  {| _data := _data st; _name_index := i; disk := disk st |}.
Definition with_disk (d : Disk) (st : Manager) : Manager :=
  {| _data := _data st; _name_index := _name_index st; disk := d |}.

Definition with_data_file (f : option (Stored Table)) (d : Disk) : Disk :=
  {| data_file := f; metadata_file := metadata_file d;
     index_pkl := index_pkl d; index_json := index_json d |}.
Definition with_metadata_file (f : option (Stored Metadata)) (d : Disk) : Disk :=
  {| data_file := data_file d; metadata_file := f;
     index_pkl := index_pkl d; index_json := index_json d |}.
Definition with_index_pkl (f : option (Stored NameIndex)) (d : Disk) : Disk :=
  {| data_file := data_file d; metadata_file := metadata_file d;
     index_pkl := f; index_json := index_json d |}.

(** [d.get(key, '')] on an optional text value. *)
Definition get_or_empty (o : option string) : string :=
  match o with Some s => s | None => "" end.

(** [s.endswith(suffix)] *)
Definition endswith (s suffix : string) : bool :=
  let n := String.length s in
  let m := String.length suffix in
  (m <=? n) && String.eqb (substring (n - m) m s) suffix.

(** ** Dataset store *)

(** [_get_file_hash]: the ETag and Last-Modified headers joined by an
    underscore, the empty string when the request raises. *)
Definition _get_file_hash (w : World) : string :=
  match head_reply w with
  | Some response =>
      get_or_empty (ETag response) ++ "_" ++ get_or_empty (Last_Modified response)
  | None => ""
  end.

(** [_load_metadata] *)
Definition _load_metadata (st : Manager) : Metadata :=
  match metadata_file (disk st) with
  | Some (Intact metadata) => metadata
  | Some Corrupt => empty_metadata
  | None => empty_metadata
  end.

(** [_save_metadata]: a failed write is logged, never raised. *)
Definition _save_metadata (w : World) (metadata : Metadata) (st : Manager)
  : Manager :=
  with_disk
    (with_metadata_file
       (file_after (metadata_write w) (metadata_file (disk st)) metadata)
       (disk st))
    st.

(** [needs_update] *)
Definition needs_update (w : World) (st : Manager) : bool :=
  let metadata := _load_metadata st in
  match data_file (disk st) with
  | None => true
  | Some _ =>
      let stale :=
        match last_update metadata with
        | Some last_update_dt => (HOURS_24 <? clock w - last_update_dt)%Z
        | None => false
        end in
      if stale then true
      else
        let current_hash := _get_file_hash w in
        let cached_hash := get_or_empty (file_hash metadata) in
        negb (String.eqb current_hash cached_hash)
  end.

(** The [try] block of [download_data]. *)
Definition download_data_try (w : World) : M unit :=
  fun st =>
    match get_reply w with
    | RequestFailed => (inl RequestException, st)
    | NotAZip => (inl BadZipFile, st)
    | ZipMembers members =>
        match find (fun m => endswith (fst m) ".csv") members with
        | None => (inl ValueError, st)              (* no CSV file in the zip *)
        | Some (_, None) => (inl ParserError, st)   (* read_csv raises *)
        | Some (_, Some df) =>
            (* df.to_parquet(self.data_file, index=False) *)
            let st1 :=
              with_disk
                (with_data_file
                   (file_after (parquet_write w) (data_file (disk st)) df)
                   (disk st))
                st in
            match parquet_write w with
            | Written =>
                let metadata :=
                  {| last_update := Some (clock w);
                     file_hash := Some (_get_file_hash w);
                     rows := Some (length (rows_of df));
                     columns := Some (columns_of df) |} in
                (inr tt, _save_metadata w metadata st1)
            | _ => (inl OSError, st1)
            end
        end
    end.

(** [download_data]: [True] when the [try] block ends, [False] when it
    raises. *)
Definition download_data (w : World) (st : Manager) : bool * Manager :=
  match download_data_try w st with
  | (inr _, st') => (true, st')
  | (inl _, st') => (false, st')
  end.

(** ** Result envelopes *)

Module Alt.
(** An element of the ['alternatives'] list. *)
Record t := {
  name : string;
  meet : option string;
  date : option string;
  weight_class : Q;
  total : Q;
  score : Q
}.
End Alt.

Module Resp.
(** The keys that the high, medium and low confidence answers share. *)
Record Details := {
  meet_name : option string;
  date : option string;
  division : option string;
  weight_class : Q;
  federation : option string;
  country : option string
}.

(** The dict returned by a lookup; an optional key is [None] when the
    dict does not have it. *)
Record t := {
  found : bool;
  reason : option string;
  confidence : option string;
  squat_kg : string;
  bench_kg : string;
  deadlift_kg : string;
  total : string;
  dotscore : string;
  details : option Details;
  alternatives : option (list Alt.t);
  warning : option string
}.
End Resp.

(** ** Python built-ins used by the lookups *)

(** [a < b] on floats. *)
Definition Qltb (a b : Q) : bool := negb (Qle_bool b a).

(** [max(0, x)]: [x] when it is greater than the first argument. *)
Definition max0 (x : Q) : Q := if Qltb 0 x then x else 0%Q.

(** [l[:n]], also for a negative [n]. *)
Definition slice_to {A} (n : Z) (l : list A) : list A :=
  if (0 <=? n)%Z then firstn (Z.to_nat n) l
  else firstn (length l - Z.to_nat (- n)) l.

(** [l[1:4]] *)
Definition slice_1_4 {A} (l : list A) : list A := firstn 3 (skipn 1 l).

(** [len(a) / len(b)] *)
Definition len_ratio (a b : string) : Q :=
  (inject_Z (Z.of_nat (String.length a)) / inject_Z (Z.of_nat (String.length b)))%Q.

(** [str(n)] for a length. *)
Definition str_of_nat (n : nat) : string := NilEmpty.string_of_uint (Nat.to_uint n).

(** [bool(record['date'])] *)
Definition date_truthy (d : option string) : bool :=
  match d with Some s => PyStr.truthy s | None => false end.

(** [l.sort(key=lambda x: x['score'], reverse=True)]: a stable sort, equal
    scores keep their order. *)
Fixpoint insert_by_score (c : Candidate) (l : list Candidate) : list Candidate :=
  match l with
  | [] => [c]
  | d :: l' =>
      if Qltb (score c) (score d) then d :: insert_by_score c l' else c :: l
  end.

Definition sort_by_score_desc (l : list Candidate) : list Candidate :=
  fold_right insert_by_score [] l.

(** ** Index builder *)

(** [.fillna(0)] *)
Definition fillna0 (c : option Q) : Q :=
  match c with Some v => v | None => 0%Q end.

(** [df['Name'].str.strip().str.replace(' ', '').str.lower()] on one name. *)
Definition normalized_name (name : string) : string :=
  PyStr.lower (PyStr.remove " " (PyStr.strip name)).

(** The rows with their positions ([row.name]). *)
Definition enumerate {A} (l : list A) : list (nat * A) :=
  combine (seq 0 (length l)) l.

(** One step of [groupby]: the row joins the group of its key, at the end;
    a new key opens a group at its place in ascending key order. *)
Fixpoint group_add {A} (k : string) (x : A) (groups : list (string * list A))
  : list (string * list A) :=
  match groups with
  | [] => [(k, [x])]
  | (k', xs) :: rest =>
      match String.compare k k' with
      | Eq => (k', xs ++ [x]) :: rest
      | Lt => (k, [x]) :: groups
      | Gt => (k', xs) :: group_add k x rest
      end
  end.

(** [df.groupby('normalized_name')]: rows without a name are in no group. *)
Definition groupby_normalized_name (irows : list (nat * Row))
  : list (string * list (nat * Row)) :=
  fold_left
    (fun groups ir =>
       match Name (snd ir) with
       | Some n => group_add (normalized_name n) ir groups
       | None => groups
       end)
    irows [].

(** ** Construction *)

(** [OpenPowerliftingDataManager(cache_dir)] over the cache directory [d]:
    no table in memory and an empty name index. *)
Definition new_manager (d : Disk) : Manager :=
  {| _data := None; _name_index := Some []; disk := d |}.


(** ** Conversion of table cells *)

(** [s.split(c)[0]]: the text before the first [c]. *)
Fixpoint before_first (c : ascii) (s : string) : string :=
  match s with
  | EmptyString => EmptyString
  | String d s' => if Ascii.eqb d c then EmptyString else String d (before_first c s')
  end.

(** [_safe_float_conversion] on [None] or a string.  [py_float] is
    [float(s)], [None] when it raises [ValueError]; a float being a
    rational, the texts that [float] reads as an infinity or as NaN are
    outside the model. *)
Definition _safe_float_conversion (py_float : string -> option Q)
    (value : option string) (default : Q) : Q :=
  match value with
  | None => default
  | Some value =>
      if String.eqb value "" then default
      else
        (* Convert to string and clean up *)
        let value_str := PyStr.strip value in
        (* Handle special cases *)
        if String.eqb value_str ""
           || existsb (String.eqb (PyStr.lower value_str)) ["nan"; "none"; "null"]
        then default
        else
          (* Handle "100+" format (take the base number) *)
          let value_str :=
            if PyStr.contains "+" value_str
            then PyStr.remove "+" value_str else value_str in
          (* Handle ranges like "100-110" (take the lower bound) *)
          let value_str :=
            if PyStr.contains "-" value_str
               && negb (PyStr.startswith value_str "-")
            then before_first "-" value_str else value_str in
          match py_float value_str with
          | Some x => x
          | None => default
          end
  end.

(** ** Search endpoint of the API ([backend/main.py]) *)

(** [sub in s] on two strings. *)
Fixpoint str_in (sub s : string) : bool :=
  PyStr.startswith s sub
  || match s with
     | EmptyString => false
     | String _ rest => str_in sub rest
     end.

(** A bound [i] of a slice of a list of length [n]: a negative bound
    counts from the end, and both kinds are clamped to the list. *)
Definition slice_bound (n : nat) (i : Z) : nat :=
  if (i <? 0)%Z then Z.to_nat (Z.of_nat n + i) else Nat.min n (Z.to_nat i).

(** [l[a:b]] for any two integers. *)
Definition slice {A} (a b : Z) (l : list A) : list A :=
  let lo := slice_bound (length l) a in
  let hi := slice_bound (length l) b in
  firstn (hi - lo) (skipn lo l).

(** The dict that [search_lifters] makes of one index record. *)
Module Lifter.

Record t := {
  name : string;
  total : Q;
  squat_kg : Q;
  bench_kg : Q;
  deadlift_kg : Q;
  dotscore : Q;
  weight_class : string;
  age : Q;
  division : option string;
  meet_name : option string;
  date : option string
}.

End Lifter.

(** [matching_lifters.sort(key=lambda x: x['dotscore'], reverse=True)]: a
    stable sort, equal dot scores keep their order. *)
Fixpoint insert_by_dotscore (x : Lifter.t) (l : list Lifter.t) : list Lifter.t :=
  match l with
  | [] => [x]
  | y :: l' =>
      if Qltb (Lifter.dotscore x) (Lifter.dotscore y)
      then y :: insert_by_dotscore x l' else x :: l
  end.

Definition sort_by_dotscore_desc (l : list Lifter.t) : list Lifter.t :=
  fold_right insert_by_dotscore [] l.

(** [HTTPException(status_code=..., detail=...)] *)
Inductive HTTPException :=
| Http (status_code : Z) (detail : string).

(** The JSON object that [search_lifters] returns. *)
Module Search.

Record t := {
  lifters : list Lifter.t;
  total_count : nat;
  search_term : string;
  limit : Z;
  offset : Z;
  search_timestamp : Z
}.

End Search.


(** ** Roster processor ([Command Line Program/lifter_processor.py]) *)

(** *** Regular expressions

    The patterns of the processor are sequences of character classes,
    each taken once, optionally ([?]) or any number of times ([*]); [x+]
    is [x] followed by [x*].  [re] matches by backtracking: a repetition
    first takes as many characters as it can and gives them back one by
    one while the rest of the pattern fails. *)
Inductive Item :=
| One (p : ascii -> bool)
| Maybe (p : ascii -> bool)
| Many (p : ascii -> bool).

(** [\d] on a code point below 256. *)
Definition is_digit (c : ascii) : bool :=
  let n := nat_of_ascii c in (48 <=? n) && (n <=? 57).

(** [[-–]] on a code point below 256: the hyphen.  The en dash U+2013,
    the other character of the class, is no code point below 256: a text
    that holds one is not a string of this development, like every text
    with a character above U+00FF. *)
Definition is_dash (c : ascii) : bool := Ascii.eqb c "-".

(** [.] *)
Definition is_dot (c : ascii) : bool := negb (Ascii.eqb c (ascii_of_nat 10)).

(** The match of [p*] followed by the continuation [k], which receives
    the text taken by the repetition and the text after it. *)
Fixpoint many {R} (p : ascii -> bool) (s : string)
    (k : string -> string -> option R) : option R :=
  match s with
  | String c s' =>
      if p c then
        match many p s' (fun taken rest => k (String c taken) rest) with
        | Some r => Some r
        | None => k "" s
        end
      else k "" s
  | EmptyString => k "" s
  end.

(** The text [m] taken by an item, in front of the texts of the items
    after it. *)
Definition taking (m : string) (r : option (list string * string))
  : option (list string * string) :=
  match r with
  | Some (texts, rest) => Some (m :: texts, rest)
  | None => None
  end.

(** [re.match(pattern, s)]: the text taken by each item and the text
    after the match. *)
Fixpoint re_match (pattern : list Item) (s : string)
  : option (list string * string) :=
  match pattern with
  | [] => Some ([], s)
  | One p :: pattern' =>
      match s with
      | String c s' =>
          if p c then taking (String c "") (re_match pattern' s') else None
      | EmptyString => None
      end
  | Maybe p :: pattern' =>
      let with_it :=
        match s with
        | String c s' =>
            if p c then taking (String c "") (re_match pattern' s') else None
        | EmptyString => None
        end in
      match with_it with
      | Some r => Some r
      | None => taking "" (re_match pattern' s)
      end
  | Many p :: pattern' =>
      many p s (fun taken rest => taking taken (re_match pattern' rest))
  end.

(** [re.search(pattern, s)]: the match at the first position that has
    one. *)
Fixpoint re_search (pattern : list Item) (s : string)
  : option (list string * string) :=
  match re_match pattern s with
  | Some r => Some r
  | None =>
      match s with
      | String _ s' => re_search pattern s'
      | EmptyString => None
      end
  end.

(** [r'\d+'] *)
Definition number_pattern : list Item := [One is_digit; Many is_digit].

(** [r'\d+\s*[-–]\s*(.+)']; the group is made of the last two items. *)
Definition numbered_name_pattern : list Item :=
  [One is_digit; Many is_digit; Many PyStr.isspace; One is_dash;
   Many PyStr.isspace; One is_dot; Many is_dot].

(** [r'^\d+\s*[-–]?\s*'], matched at the start of the text. *)
Definition number_prefix_pattern : list Item :=
  [One is_digit; Many is_digit; Many PyStr.isspace; Maybe is_dash;
   Many PyStr.isspace].

(** [name_match.group(1)] of a match of [numbered_name_pattern]. *)
Definition group_1 (texts : list string) : string :=
  String.concat "" (skipn 5 texts).

(** [re.sub(r'^...', '', s)] for a pattern that takes at least one
    character: the only match that can be replaced is the one at the
    start. *)
Definition re_sub_at_start (pattern : list Item) (s : string) : string :=
  match re_match pattern s with
  | Some (_, rest) => rest
  | None => s
  end.

(** *** Links of the roster page *)

(** An [a] element with an [href]: its text and its [href]. *)
Record Link := {
  text : string;
  href : string
}.

(** A [div] of class [session-content]: the stripped text of the [h3]
    before it, or else of the [h2], and its links ([li a[href]]). *)
Record Session := {
  session_header : option string;
  lifter_links : list Link
}.

(** The tuple that [_parse_lifter_link_with_division] returns. *)
Record LifterData := {
  lifter_name_with_number : string;
  clean_lifter_name : string;
  lifter_name_for_url : string;
  lifter_profile_url : string;
  lifter_division : string
}.

(** [_is_valid_lifter_link], as a truth value. *)
Definition _is_valid_lifter_link (url name : string) : bool :=
  PyStr.truthy url && PyStr.truthy name
  && negb (PyStr.startswith url "#")
  && negb (str_in "javascript:" url)
  && match re_search number_pattern name with
     | Some _ => true
     | None => false
     end.

(** [_extract_clean_name] *)
Definition _extract_clean_name (name_with_number : string) : option string :=
  let clean_name :=
    match re_search numbered_name_pattern name_with_number with
    | Some (texts, _) => PyStr.strip (group_1 texts)
    | None =>
        PyStr.strip (re_sub_at_start number_prefix_pattern name_with_number)
    end in
  if 2 <=? String.length clean_name then Some clean_name else None.

(** [_parse_lifter_link_with_division]; [seen_links] is the set of the
    caller. *)
Definition _parse_lifter_link_with_division (lifter_link : Link)
    (seen_links : list string) (division : string) : option LifterData :=
  let lifter_name_with_number := PyStr.strip (text lifter_link) in
  let lifter_profile_url := href lifter_link in
  if negb (_is_valid_lifter_link lifter_profile_url lifter_name_with_number)
  then None
  else if existsb (String.eqb lifter_profile_url) seen_links then None
  else
    match _extract_clean_name lifter_name_with_number with
    | None => None
    | Some clean_lifter_name =>
        let lifter_name_for_url :=
          PyStr.remove "," (PyStr.remove " " clean_lifter_name) in
        Some {| lifter_name_with_number := lifter_name_with_number;
                clean_lifter_name := clean_lifter_name;
                lifter_name_for_url := lifter_name_for_url;
                lifter_profile_url := lifter_profile_url;
                lifter_division := division |}
    end.

(** The inner loop of [_parse_lifters_with_divisions] over the links of
    one session; the state is [lifter_data_list] and [seen_lifter_links]. *)
Fixpoint parse_links (session_division : string) (links : list Link)
    (state : list LifterData * list string) : list LifterData * list string :=
  match links with
  | [] => state
  | lifter_link :: links' =>
      let '(lifter_data_list, seen_lifter_links) := state in
      match _parse_lifter_link_with_division
              lifter_link seen_lifter_links session_division with
      | Some lifter_info =>
          parse_links session_division links'
            (lifter_data_list ++ [lifter_info],
             lifter_profile_url lifter_info :: seen_lifter_links)
      | None => parse_links session_division links' state
      end
  end.

(** The outer loop over the session containers. *)
Fixpoint parse_sessions (session_containers : list Session)
    (state : list LifterData * list string) : list LifterData * list string :=
  match session_containers with
  | [] => state
  | session_container :: rest =>
      let session_division :=
        match session_header session_container with
        | Some header => header
        | None => "Division not found"
        end in
      parse_sessions rest
        (parse_links session_division (lifter_links session_container) state)
  end.

(** [_parse_lifters_with_divisions] on the session containers of the
    page. *)
Definition _parse_lifters_with_divisions (session_containers : list Session)
  : list LifterData :=
  fst (parse_sessions session_containers ([], [])).


(** *** Processed lifters ([Command Line Program/LifterInfo.py]) *)

(** The attributes of a [LifterInfo] object. *)
Module LifterInfo.

Record t := {
  name : string;
  link : string;
  squat_kg : string;
  bench_kg : string;
  deadlift_kg : string;
  dotscore : string;
  total : string;
  division : string;
  squat_lbs : string;
  bench_lbs : string;
  deadlift_lbs : string
}.

End LifterInfo.

(** ** Reference data

    A small dataset, cache states and worlds on which the model is
    evaluated, with one parser and one float printer to stand for the
    library functions the lookups call. *)

Module Sample.

(** The value of an ASCII digit. *)
Definition digit (c : ascii) : option Z :=
  let n := nat_of_ascii c in
  if (48 <=? n) && (n <=? 57) then Some (Z.of_nat (n - 48)) else None.

(** Leap years of the proleptic Gregorian calendar. *)
Definition is_leap (y : Z) : bool :=
  ((y mod 4 =? 0) && (negb (y mod 100 =? 0) || (y mod 400 =? 0)))%Z.

(** The length of month [m] of year [y]. *)
Definition days_in_month (y m : Z) : Z :=
  (if m =? 2 then (if is_leap y then 29 else 28)
   else if (m =? 4) || (m =? 6) || (m =? 9) || (m =? 11) then 30
   else 31)%Z.

(** Days before the first of January of year [y], as [date.toordinal]
    counts them. *)
Definition days_before_year (y : Z) : Z :=
  (let p := y - 1 in p * 365 + p / 4 - p / 100 + p / 400)%Z.

(** Days of year [y] before the first of month [m]. *)
Definition days_before_month (y m : Z) : Z :=
  fold_right Z.add 0%Z
    (map (fun k => days_in_month y (Z.of_nat k)) (seq 1 (Z.to_nat m - 1))).

(** Midnight of a calendar day, as an instant. *)
Definition midnight (y m d : Z) : Z :=
  ((days_before_year y + days_before_month y m + d) * DAY)%Z.

(** Noon of a calendar day. *)
Definition noon (y m d : Z) : Z := (midnight y m d + 43200000000)%Z.

(** Dates written YYYY-MM-DD with ASCII digits, on which
    [strptime(s, '%Y-%m-%d')] and [pd.to_datetime] agree; anything else
    does not parse. *)
Definition iso_date (s : string) : option Z :=
  match s with
  | String y1 (String y2 (String y3 (String y4 (String "-"
      (String m1 (String m2 (String "-" (String d1 (String d2 EmptyString))))))))) =>
      match digit y1, digit y2, digit y3, digit y4,
            digit m1, digit m2, digit d1, digit d2 with
      | Some a, Some b, Some c, Some d, Some e, Some f, Some g, Some h =>
          let y := (a * 1000 + b * 100 + c * 10 + d)%Z in
          let m := (e * 10 + f)%Z in
          let dd := (g * 10 + h)%Z in
          if ((1 <=? y) && (1 <=? m) && (m <=? 12)
              && (1 <=? dd) && (dd <=? days_in_month y m))%Z
          then Some (midnight y m dd) else None
      | _, _, _, _, _, _, _, _ => None
      end
  | _ => None
  end.

(** [str(x)] for a float that holds a non-negative whole number. *)
Definition whole_float (x : Q) : string :=
  str_of_nat (Z.to_nat (Qnum x / Zpos (Qden x))) ++ ".0".

(** A row with the given name, date, weight class and total. *)
Definition row (name : option string) (day : option string)
    (weight_class total : option Q) : Row :=
  {| Name := name; MeetName := Some "Open"; Date := day;
     Division := Some "Open"; Federation := Some "USAPL"; Country := Some "USA";
     WeightClassKg := weight_class; Best3SquatKg := Some 200%Q;
     Best3BenchKg := Some 140%Q; Best3DeadliftKg := Some 250%Q;
     TotalKg := total; Dots := Some 400%Q;
     BodyweightKg := Some 89%Q; Age := Some 30%Q |}.

Definition john : Row :=
  row (Some "John Smith") (Some "2026-03-01") (Some 90%Q) (Some 590%Q).
Definition smith_john : Row :=
  row (Some "Smith, John") (Some "2020-05-05") (Some 82.5%Q) (Some 590%Q).
Definition john_again : Row :=
  row (Some "John  Smith") (Some "2024-06-01") None (Some 590%Q).
Definition smith_johnson : Row :=
  row (Some "Smith Johnson") None (Some 100%Q) None.
Definition nameless : Row :=
  row None (Some "2021-01-01") (Some 75%Q) (Some 500%Q).
Definition doe_jane : Row :=
  row (Some "Doe, Jane") (Some "2026-10-01") (Some 63%Q) (Some 400%Q).

(** A row dated four and a half years after the clock of the worlds
    below. *)
Definition postdated : Row :=
  row (Some "John Smith") (Some "2031-06-01") (Some 90%Q) (Some 590%Q).

Definition table : Table :=
  {| columns_of := ["Name"; "MeetName"; "Date"; "WeightClassKg"; "TotalKg"];
     rows_of := [john; smith_john; john_again; smith_johnson; nameless] |}.

Definition newer_table : Table :=
  {| columns_of := ["Name"; "MeetName"; "Date"; "WeightClassKg"; "TotalKg"];
     rows_of := [doe_jane] |}.

(** The record of the row [r] at position [i], [days] days old. *)
Definition entry (i : nat) (r : Row) (days : Z) : LifterRecord :=
  {| index := i;
     original_name := get_or_empty (Name r);
     meet_name := MeetName r;
     date := Date r;
     division := Division r;
     weight_class := fillna0 (WeightClassKg r);
     federation := Federation r;
     country := Country r;
     squat := fillna0 (Best3SquatKg r);
     bench := fillna0 (Best3BenchKg r);
     deadlift := fillna0 (Best3DeadliftKg r);
     total := fillna0 (TotalKg r);
     dotscore := fillna0 (Dots r);
     bodyweight := fillna0 (BodyweightKg r);
     age := fillna0 (Age r);
     days_old := days |}.

(** The index of [table] as built on 4 November 2026 at noon. *)
Definition name_index : NameIndex :=
  [ ("johnsmith", [entry 0 john 248; entry 2 john_again 886]);
    ("smith,john", [entry 1 smith_john 2374]);
    ("smithjohnson", [entry 3 smith_johnson 9999]) ].

(** The index of [newer_table] as built on the same day. *)
Definition newer_index : NameIndex :=
  [ ("doe,jane", [entry 0 doe_jane 34]) ].

(** A display name with a tab in front of it. *)
Definition tab_padded : string := String (ascii_of_nat 9) "Smith, John".

(** The metadata of a refresh on 3 November 2026 at noon. *)
Definition metadata : Metadata :=
  {| last_update := Some (noon 2026 11 3);
     file_hash := Some "abc_Tue";
     rows := Some 5;
     columns := Some (columns_of table) |}.

(** A cache with the dataset and its metadata and no persisted index. *)
Definition cache : Disk :=
  {| data_file := Some (Intact table);
     metadata_file := Some (Intact metadata);
     index_pkl := None;
     index_json := None |}.

(** The same cache with a binary index that does not deserialize. *)
Definition cache_with_bad_index : Disk :=
  {| data_file := Some (Intact table);
     metadata_file := Some (Intact metadata);
     index_pkl := Some Corrupt;
     index_json := None |}.

(** A manager that has loaded nothing yet. *)
Definition fresh (d : Disk) : Manager :=
  {| _data := None; _name_index := Some []; disk := d |}.

(** A manager with [table] and its index in memory. *)
Definition loaded : Manager :=
  {| _data := Some table; _name_index := Some name_index; disk := cache |}.

(** A manager with [newer_table] and its index in memory. *)
Definition newer_loaded : Manager :=
  {| _data := Some newer_table; _name_index := Some newer_index; disk := cache |}.

(** Headers that give the fingerprint kept in [metadata]. *)
Definition headers : Headers :=
  {| ETag := Some "abc"; Last_Modified := Some "Tue" |}.

(** A world in which every request and every write goes well. *)
Definition calm : World :=
  {| clock := noon 2026 11 4;
     head_reply := Some headers;
     get_reply := ZipMembers [("readme.txt", None);
                              ("openpowerlifting.csv", Some newer_table)];
     parquet_write := Written;
     metadata_write := Written;
     pickle_write := Written |}.

(** The same world without a network. *)
Definition offline : World :=
  {| clock := noon 2026 11 4;
     head_reply := None;
     get_reply := RequestFailed;
     parquet_write := Written;
     metadata_write := Written;
     pickle_write := Written |}.

(** The dataset file cannot be written to the end. *)
Definition disk_full : World :=
  {| clock := noon 2026 11 4;
     head_reply := Some headers;
     get_reply := get_reply calm;
     parquet_write := WriteTorn;
     metadata_write := Written;
     pickle_write := Written |}.

(** The metadata file cannot be opened for writing. *)
Definition metadata_locked : World :=
  {| clock := noon 2026 11 4;
     head_reply := Some headers;
     get_reply := get_reply calm;
     parquet_write := Written;
     metadata_write := WriteRefused;
     pickle_write := Written |}.

(** The binary index file cannot be opened for writing. *)
Definition index_locked : World :=
  {| clock := noon 2026 11 4;
     head_reply := Some headers;
     get_reply := get_reply calm;
     parquet_write := Written;
     metadata_write := Written;
     pickle_write := WriteRefused |}.

(** A later lookup in the same surroundings. *)
Definition later (now : Z) : World :=
  {| clock := now;
     head_reply := Some headers;
     get_reply := RequestFailed;
     parquet_write := Written;
     metadata_write := Written;
     pickle_write := Written |}.

(** A cache directory with nothing in it. *)
Definition empty_cache : Disk :=
  {| data_file := None;
     metadata_file := None;
     index_pkl := None;
     index_json := None |}.

(** The decimal digits of [r / d] after the point, at most [fuel] of
    them. *)
Fixpoint fraction_digits (fuel : nat) (r d : Z) : string :=
  match fuel with
  | O => ""
  | S fuel' =>
      if (r =? 0)%Z then ""
      else String (ascii_of_nat (48 + Z.to_nat (r * 10 / d)))
                  (fraction_digits fuel' (r * 10 mod d) d)
  end.

(** [str(x)] for a float that is not negative and has a short decimal
    expansion. *)
Definition decimal_float (x : Q) : string :=
  let n := Qnum x in
  let d := Zpos (Qden x) in
  str_of_nat (Z.to_nat (n / d)) ++ "."
  ++ match fraction_digits 17 (n mod d) d with
     | EmptyString => "0"
     | digits => digits
     end.

(** The number written by a text of ASCII digits after [acc]. *)
Fixpoint digits_value (s : string) (acc : Z) : option Z :=
  match s with
  | EmptyString => Some acc
  | String c s' =>
      match digit c with
      | Some d => digits_value s' (acc * 10 + d)%Z
      | None => None
      end
  end.

(** The text before the first point and the text after it. *)
Fixpoint split_at_point (s : string) : string * option string :=
  match s with
  | EmptyString => (EmptyString, None)
  | String c s' =>
      if Ascii.eqb c "." then (EmptyString, Some s')
      else let '(whole, fraction) := split_at_point s' in
           (String c whole, fraction)
  end.

(** [float(s)] on the texts written with ASCII digits, with or without
    a point between them, which are the ones the reference data holds;
    any other text stands for one that does not parse.  The value is a
    fraction in lowest terms. *)
Definition float_of_decimal (s : string) : option Q :=
  match split_at_point s with
  | (EmptyString, _) => None
  | (whole, None) => option_map inject_Z (digits_value whole 0)
  | (_, Some EmptyString) => None
  | (whole, Some fraction) =>
      match digits_value whole 0, digits_value fraction 0 with
      | Some a, Some b =>
          let scale := (10 ^ Z.of_nat (String.length fraction))%Z in
          Some (Qred (Qmake (a * scale + b) (Z.to_pos scale)))
      | _, _ => None
      end
  end.

(** A roster page with two sessions; the second link of the first
    session repeats the profile of the first one. *)
Definition roster : list Session :=
  [ {| session_header := Some "Open";
       lifter_links :=
         [ {| text := " 1 - John Smith "; href := "/lifter/1" |};
           {| text := "2 - Smith, John"; href := "/lifter/1" |};
           {| text := "Results"; href := "/results" |} ] |};
    {| session_header := None;
       lifter_links :=
         [ {| text := "3 Doe, Jane"; href := "/lifter/3" |};
           {| text := "4 - Nobody"; href := "#top" |} ] |} ].

(** The first entry of the roster. *)
Definition first_entry : LifterData :=
  {| lifter_name_with_number := "1 - John Smith";
     clean_lifter_name := "John Smith";
     lifter_name_for_url := "JohnSmith";
     lifter_profile_url := "/lifter/1";
     lifter_division := "Open" |}.

(** An entry for a lifter that the dataset does not have. *)
Definition unknown_entry : LifterData :=
  {| lifter_name_with_number := "9 - Nobody Here";
     clean_lifter_name := "Nobody Here";
     lifter_name_for_url := "NobodyHere";
     lifter_profile_url := "/lifter/9";
     lifter_division := "Open" |}.

End Sample.

Section Lookups.

(** [str(x)] on a float. *)
Variable str_of_float : Q -> string.
(** [datetime.strptime(s, '%Y-%m-%d')] as an instant; [None] when it raises. *)
Variable strptime : string -> option Z.
(** [pd.to_datetime(s, errors='coerce')] as an instant; [None] is NaT. *)
Variable to_datetime : string -> option Z.


(** [df['days_old']] of a row: whole days from its date to [now], 9999
    when the date is missing or does not parse. *)
Definition days_old_at (now : Z) (row : Row) : Z :=
  match Date row with
  | Some d =>
      match to_datetime d with
      | Some t => ((now - t) / DAY)%Z
      | None => 9999%Z
      end
  | None => 9999%Z
  end.

(** The dict appended to [records] for one row of a group. *)
Definition make_record (now : Z) (ir : nat * Row) : LifterRecord :=
  let row := snd ir in
  {| index := fst ir;
     original_name := get_or_empty (Name row);
     meet_name := MeetName row;
     date := Date row;
     division := Division row;
     weight_class := fillna0 (WeightClassKg row);
     federation := Federation row;
     country := Country row;
     squat := fillna0 (Best3SquatKg row);
     bench := fillna0 (Best3BenchKg row);
     deadlift := fillna0 (Best3DeadliftKg row);
     total := fillna0 (TotalKg row);
     dotscore := fillna0 (Dots row);
     bodyweight := fillna0 (BodyweightKg row);
     age := fillna0 (Age row);
     days_old := days_old_at now row |}.

(** The index that [preprocess_data] builds from the dataframe at [now]. *)
Definition build_index (now : Z) (df : Table) : NameIndex :=
  fold_left
    (fun idx group =>
       PyDict.set idx (fst group) (map (make_record now) (snd group)))
    (groupby_normalized_name (enumerate (rows_of df)))
    [].

(** [_save_index_fast] *)
Definition _save_index_fast (w : World) : M unit :=
  fun st =>
    let idx := match _name_index st with Some i => i | None => [] end in
    let st' :=
      with_disk
        (with_index_pkl
           (file_after (pickle_write w) (index_pkl (disk st)) idx) (disk st))
        st in
    match pickle_write w with
    | Written => (inr tt, st')
    | _ => (inl OSError, st')
    end.

(** [_load_index_fast] *)
Definition _load_index_fast : M (option NameIndex) :=
  fun st =>
    match index_pkl (disk st) with
    | Some (Intact idx) => (inr (Some idx), st)
    | Some Corrupt => (inl UnpicklingError, st)
    | None => (inr None, st)
    end.

(** [pd.read_parquet(self.data_file)] assigned to [self._data]. *)
Definition read_data_file : M unit :=
  fun st =>
    match data_file (disk st) with
    | Some (Intact df) => (inr tt, with_data (Some df) st)
    | Some Corrupt => (inl ArrowInvalid, st)
    | None => (inl FileNotFoundError, st)
    end.

(** [preprocess_data] *)
Definition preprocess_data (w : World) : M unit :=
  (st <- get_state ;;
   match _data st with
   | None =>
       match data_file (disk st) with
       | Some _ => read_data_file
       | None => raise FileNotFoundError
       end
   | Some _ => ret tt
   end ;;;
   st <- get_state ;;
   match _data st with
   | Some df =>
       put_state (with_name_index (Some (build_index (clock w) df)) st) ;;;
       _save_index_fast w
   | None => raise FileNotFoundError
   end)%py.

(** [load_data] *)
Definition load_data (w : World) : M unit :=
  (st <- get_state ;;
   match data_file (disk st) with
   | None => raise FileNotFoundError
   | Some _ =>
       read_data_file ;;;
       loaded <- _load_index_fast ;;
       st <- get_state ;;
       put_state (with_name_index loaded st) ;;;
       match loaded with
       | Some _ => ret tt
       | None =>
           match index_json (disk st) with
           | Some (Intact idx) => put_state (with_name_index (Some idx) st)
           | Some Corrupt => raise JSONDecodeError
           | None => preprocess_data w
           end
       end
   end)%py.

(** ** Scorer *)

(** [_calculate_comprehensive_match_score], with [datetime.now()] read from
    the world.  Each [let score] is one [score += ...] of the source. *)
Definition _calculate_comprehensive_match_score (w : World)
    (record : LifterRecord) (name_similarity : Q)
    (current_weight_class : Q) (meet_name : string) : Q :=
  let score := 0%Q in
  (* Name similarity (50% weight) *)
  let score := (score + name_similarity * 0.5)%Q in
  (* Weight class proximity (30% weight) *)
  let score :=
    if Qltb 0 (weight_class record) && Qltb 0 current_weight_class then
      let weight_diff := Qabs (weight_class record - current_weight_class) in
      let weight_score := max0 (1 - weight_diff / 20)%Q in
      (score + weight_score * 0.3)%Q
    else score in
  (* Recency (10% weight) *)
  let score :=
    if date_truthy (date record) then
      match strptime (get_or_empty (date record)) with
      | Some date =>
          let days_old := ((clock w - date) / DAY)%Z in
          if (days_old <? 365)%Z then (score + 0.1)%Q
          else if (days_old <? 1095)%Z then (score + 0.05)%Q
          else score
      | None => score
      end
    else score in
  (* Data completeness (10% weight) *)
  let completeness_score := 0%Q in
  let completeness_score :=
    if Qltb 0 (total record) then (completeness_score + 0.5)%Q
    else completeness_score in
  let completeness_score :=
    if Qltb 0 (weight_class record) then (completeness_score + 0.3)%Q
    else completeness_score in
  let completeness_score :=
    if date_truthy (date record) then (completeness_score + 0.2)%Q
    else completeness_score in
  (score + completeness_score * 0.1)%Q.

(** ** Candidate finder *)

(** [self._name_index[k]] for a key taken from the index. *)
Definition records_at (idx : NameIndex) (k : string) : list LifterRecord :=
  match PyDict.get idx k with Some records => records | None => [] end.

(** The candidates appended in the exact-key branch when the key holds
    several records. *)
Definition exact_duplicates (w : World) (current_weight_class : Q)
    (meet_name : string) (exact_records : list LifterRecord) : list Candidate :=
  map (fun record =>
         {| record := record;
            score := _calculate_comprehensive_match_score
                       w record 1 current_weight_class meet_name;
            name_similarity := 1%Q;
            match_type := "exact_duplicate" |})
      exact_records.

(** The candidates appended in the prefix branch, key by key. *)
Definition prefix_matches (w : World) (idx : NameIndex) (search_name : string)
    (current_weight_class : Q) (meet_name : string)
    (matching_names : list string) : list Candidate :=
  flat_map
    (fun indexed_name =>
       map (fun record =>
              let name_similarity := len_ratio search_name indexed_name in
              {| record := record;
                 score := _calculate_comprehensive_match_score
                            w record name_similarity current_weight_class meet_name;
                 name_similarity := name_similarity;
                 match_type := "prefix_match" |})
           (records_at idx indexed_name))
    matching_names.

(** The [for search_name in search_names] loop of [find_lifter_candidates];
    [candidates] is the list built so far. *)
Fixpoint search_loop (w : World) (idx : NameIndex) (current_weight_class : Q)
    (meet_name : string) (max_candidates : Z)
    (search_names : list string) (candidates : list Candidate)
  : list Candidate :=
  match search_names with
  | [] => []
  | search_name :: rest =>
      match PyDict.get idx search_name with
      | Some exact_records =>
          match exact_records with
          | [record] =>
              [ {| record := record; score := 1%Q;
                   name_similarity := 1%Q; match_type := "exact" |} ]
          | _ =>
              let candidates :=
                candidates
                ++ exact_duplicates w current_weight_class meet_name exact_records in
              slice_to max_candidates (sort_by_score_desc candidates)
          end
      | None =>
          let matching_names :=
            filter (fun indexed_name => PyStr.startswith indexed_name search_name)
                   (PyDict.keys idx) in
          match matching_names with
          | _ :: _ =>
              let candidates :=
                candidates
                ++ prefix_matches w idx search_name current_weight_class
                     meet_name matching_names in
              slice_to max_candidates (sort_by_score_desc candidates)
          | [] =>
              search_loop w idx current_weight_class meet_name max_candidates
                          rest candidates
          end
      end
  end.

(** [bool(self._name_index)] *)
Definition index_truthy (i : option NameIndex) : bool :=
  match i with Some idx => PyDict.truthy idx | None => false end.

(** [self._name_index] read as a dict. *)
Definition index_of (st : Manager) : NameIndex :=
  match _name_index st with Some idx => idx | None => [] end.

(** [if not self._name_index: self.load_data()] *)
Definition ensure_loaded (w : World) : M unit :=
  (st <- get_state ;;
   if index_truthy (_name_index st) then ret tt else load_data w)%py.

(** [find_lifter_candidates] *)
Definition find_lifter_candidates (w : World) (name : string)
    (current_weight_class : Q) (meet_name : string) (max_candidates : Z)
  : M (list Candidate) :=
  (ensure_loaded w ;;;
   st <- get_state ;;
   let search_names := _try_multiple_normalizations name in
   ret (search_loop w (index_of st) current_weight_class meet_name
                    max_candidates search_names []))%py.

(** ** Resolver *)

Definition details_of (record : LifterRecord) : Resp.Details :=
  {| Resp.meet_name := meet_name record;
     Resp.date := date record;
     Resp.division := division record;
     Resp.weight_class := weight_class record;
     Resp.federation := federation record;
     Resp.country := country record |}.

Definition alternative_of (candidate : Candidate) : Alt.t :=
  {| Alt.name := original_name (record candidate);
     Alt.meet := meet_name (record candidate);
     Alt.date := date (record candidate);
     Alt.weight_class := weight_class (record candidate);
     Alt.total := total (record candidate);
     Alt.score := score candidate |}.

(** The part of [get_lifter_stats_robust] after the candidates are found. *)
Definition resolve (candidates : list Candidate) : Resp.t :=
  match candidates with
  | [] =>
      {| Resp.found := false;
         Resp.reason := Some "no_matches";
         Resp.confidence := None;
         Resp.squat_kg := "0";
         Resp.bench_kg := "0";
         Resp.deadlift_kg := "0";
         Resp.total := "0";
         Resp.dotscore := "0";
         Resp.details := None;
         Resp.alternatives := None;
         Resp.warning := None |}
  | first :: _ =>
      if (length candidates =? 1) && Qltb 0.9 (score first) then
        let record := record first in
        {| Resp.found := true;
           Resp.reason := None;
           Resp.confidence := Some "high";
           Resp.squat_kg := str_of_float (squat record);
           Resp.bench_kg := str_of_float (bench record);
           Resp.deadlift_kg := str_of_float (deadlift record);
           Resp.total := str_of_float (total record);
           Resp.dotscore := str_of_float (dotscore record);
           Resp.details := Some (details_of record);
           Resp.alternatives := None;
           Resp.warning := None |}
      else if (length candidates =? 1) && Qltb 0.7 (score first) then
        let record := record first in
        {| Resp.found := true;
           Resp.reason := None;
           Resp.confidence := Some "medium";
           Resp.squat_kg := str_of_float (squat record);
           Resp.bench_kg := str_of_float (bench record);
           Resp.deadlift_kg := str_of_float (deadlift record);
           Resp.total := str_of_float (total record);
           Resp.dotscore := str_of_float (dotscore record);
           Resp.details := Some (details_of record);
           Resp.alternatives := None;
           Resp.warning := Some "Possible match, verify accuracy" |}
      else
        let best_record := record first in
        let alternatives := map alternative_of (slice_1_4 candidates) in
        {| Resp.found := true;
           Resp.reason := None;
           Resp.confidence := Some "low";
           Resp.squat_kg := str_of_float (squat best_record);
           Resp.bench_kg := str_of_float (bench best_record);
           Resp.deadlift_kg := str_of_float (deadlift best_record);
           Resp.total := str_of_float (total best_record);
           Resp.dotscore := str_of_float (dotscore best_record);
           Resp.details := Some (details_of best_record);
           Resp.alternatives := Some alternatives;
           Resp.warning :=
             Some ("Multiple matches found ("
                   ++ str_of_nat (length candidates) ++ " candidates)")%string |}
  end.

(** [get_lifter_stats_robust] *)
Definition get_lifter_stats_robust (w : World) (name : string)
    (current_weight_class : Q) (meet_name : string) : M Resp.t :=
  (candidates <- find_lifter_candidates w name current_weight_class meet_name 10 ;;
   ret (resolve candidates))%py.

(** [get_lifter_stats] *)
Definition get_lifter_stats (w : World) (name : string) : M Resp.t :=
  get_lifter_stats_robust w name 0 "".

(** [_get_default_response] *)
Definition _get_default_response : Resp.t :=
  {| Resp.found := false;
     Resp.reason := None;
     Resp.confidence := None;
     Resp.squat_kg := "0";
     Resp.bench_kg := "0";
     Resp.deadlift_kg := "0";
     Resp.total := "0";
     Resp.dotscore := "0";
     Resp.details := None;
     Resp.alternatives := None;
     Resp.warning := None |}.

(** The inner [for search_name in search_names] loop of
    [get_lifter_stats_batch]: the answer at the first variant that is a
    key with a non-empty list, [None] when the loop ends with
    [found = False]. *)
Fixpoint batch_search (idx : NameIndex) (search_names : list string)
  : option Resp.t :=
  match search_names with
  | [] => None
  | search_name :: rest =>
      match PyDict.get idx search_name with
      | Some (record :: _) =>
          Some {| Resp.found := true;
                  Resp.reason := None;
                  Resp.confidence := Some "exact";
                  Resp.squat_kg := str_of_float (squat record);
                  Resp.bench_kg := str_of_float (bench record);
                  Resp.deadlift_kg := str_of_float (deadlift record);
                  Resp.total := str_of_float (total record);
                  Resp.dotscore := str_of_float (dotscore record);
                  Resp.details := None;
                  Resp.alternatives := None;
                  Resp.warning := None |}
      | Some [] => batch_search idx rest
      | None => batch_search idx rest
      end
  end.

(** The outer [for name in names] loop; [results] is the dict so far. *)
Fixpoint batch_loop (idx : NameIndex) (names : list string)
    (results : PyDict.t Resp.t) : PyDict.t Resp.t :=
  match names with
  | [] => results
  | name :: rest =>
      let search_names := _try_multiple_normalizations name in
      let answer :=
        match batch_search idx search_names with
        | Some r => r
        | None => _get_default_response
        end in
      batch_loop idx rest (PyDict.set results name answer)
  end.

(** [get_lifter_stats_batch] *)
Definition get_lifter_stats_batch (w : World) (names : list string)
  : M (PyDict.t Resp.t) :=
  (ensure_loaded w ;;;
   st <- get_state ;;
   ret (batch_loop (index_of st) names []))%py.

(** [update_if_needed] *)
Definition update_if_needed (w : World) : M bool :=
  fun st =>
    if needs_update w st then
      match download_data w st with
      | (true, st1) =>
          match preprocess_data w st1 with
          | (inr _, st2) => (inr true, st2)
          | (inl e, st2) => (inl e, st2)
          end
      | (false, st1) => (inr false, st1)
      end
    else (inr false, st).

(** ** Start of the API

    [lifespan] in [backend/main.py]: the manager is created, then
    [update_if_needed()] and [load_data()] run; an exception of either
    one ends the start. *)
Definition startup (w : World) (d : Disk) : (Exn + unit) * Manager :=
  (update_if_needed w ;;; load_data w)%py (new_manager d).


(** ** Search endpoint of the API

    [search_lifters] in [backend/main.py].  [data_manager] is the global
    of the module, [None] before the start has set it.  The records of
    the model always have their fields, so the [except Exception] branch
    (status 500) is never taken and is not part of the function. *)

(** The [lifter] dict made of one record. *)
Definition lifter_of (record : LifterRecord) : Lifter.t :=
  {| Lifter.name := original_name record;
     Lifter.total := total record;
     Lifter.squat_kg := squat record;
     Lifter.bench_kg := bench record;
     Lifter.deadlift_kg := deadlift record;
     Lifter.dotscore := dotscore record;
     Lifter.weight_class := str_of_float (weight_class record);
     Lifter.age := age record;
     Lifter.division := division record;
     Lifter.meet_name := meet_name record;
     Lifter.date := date record |}.

Definition search_lifters (w : World) (data_manager : option Manager)
    (name : string) (limit offset : Z) : HTTPException + Search.t :=
  match data_manager with
  | None => inl (Http 503 "Data manager not initialized")
  | Some data_manager =>
      if negb (PyStr.truthy name) || (String.length (PyStr.strip name) <? 2)
      then inl (Http 400 "Name must be at least 2 characters long")
      else
        match _name_index data_manager with
        | None => inl (Http 503 "Data not loaded")
        | Some name_index =>
            let search_term := PyStr.lower (PyStr.strip name) in
            let normalized_search :=
              PyStr.remove "," (PyStr.remove " " search_term) in
            (* Find all matching names in the index *)
            let matching_names :=
              filter (fun indexed_name =>
                        str_in normalized_search indexed_name
                        || PyStr.startswith indexed_name normalized_search)
                     (PyDict.keys name_index) in
            (* Get all records for matching names *)
            let matching_lifters :=
              flat_map (fun indexed_name =>
                          map lifter_of (records_at name_index indexed_name))
                       matching_names in
            (* Sort by dot score (best performance first) *)
            let matching_lifters := sort_by_dotscore_desc matching_lifters in
            (* Apply pagination *)
            let total_count := length matching_lifters in
            let max_results := Z.min limit 100 in
            let paginated_lifters :=
              slice offset (offset + max_results) matching_lifters in
            inr {| Search.lifters := paginated_lifters;
                   Search.total_count := total_count;
                   Search.search_term := name;
                   Search.limit := limit;
                   Search.offset := offset;
                   Search.search_timestamp := clock w |}
        end
  end.


(** ** Roster processor: one lifter

    [LifterInfo.__init__] and [_process_single_lifter] of
    [lifter_processor.py]. *)

(** [str(float(kg) * 2.2046)], and ['0'] when the conversion raises;
    [py_float] is [float(s)] on a string, [None] when it raises
    [ValueError]. *)
Definition to_lbs (py_float : string -> option Q) (kg : string) : string :=
  match py_float kg with
  | Some x => str_of_float (x * 2.2046)%Q
  | None => "0"
  end.

(** [LifterInfo(name, link, squat_kg, bench_kg, deadlift_kg, total,
    dotscore, division)] *)
Definition LifterInfo__init__ (py_float : string -> option Q)
    (name link squat_kg bench_kg deadlift_kg total dotscore division : string)
  : LifterInfo.t :=
  {| LifterInfo.name := name;
     LifterInfo.link := link;
     LifterInfo.squat_kg := squat_kg;
     LifterInfo.bench_kg := bench_kg;
     LifterInfo.deadlift_kg := deadlift_kg;
     LifterInfo.dotscore := dotscore;
     LifterInfo.total := total;
     LifterInfo.division := division;
     LifterInfo.squat_lbs := to_lbs py_float squat_kg;
     LifterInfo.bench_lbs := to_lbs py_float bench_kg;
     LifterInfo.deadlift_lbs := to_lbs py_float deadlift_kg |}.

(** [_process_single_lifter]: the lookup runs with the default weight
    class and meet name. *)
Definition _process_single_lifter (py_float : string -> option Q) (w : World)
    (lifter_data : LifterData) : M LifterInfo.t :=
  (powerlifting_data <-
     get_lifter_stats_robust w (lifter_name_for_url lifter_data) 0 "" ;;
   ret (LifterInfo__init__ py_float
          (lifter_name_for_url lifter_data)
          (lifter_profile_url lifter_data)
          (Resp.squat_kg powerlifting_data)
          (Resp.bench_kg powerlifting_data)
          (Resp.deadlift_kg powerlifting_data)
          (Resp.total powerlifting_data)
          (Resp.dotscore powerlifting_data)
          (lifter_division lifter_data)))%py.

(** * Vocabulary of the properties *)

Unset Implicit Arguments.

(** ** Key order and grouping *)

(** The order of the index keys: [str] comparison by code point. *)
Definition key_lt (a b : string) : Prop := String.compare a b = Lt.

(** The normalized name of an enumerated row, [None] without a name. *)
Definition row_key (ir : nat * Row) : option string :=
  option_map normalized_name (Name (snd ir)).

(** The row belongs to the group of [k]. *)
Definition has_key (k : string) (ir : nat * Row) : bool :=
  match row_key ir with
  | Some k' => String.eqb k' k
  | None => false
  end.

(** The number of characters of [s] other than the space character. *)
Definition non_blanks (s : string) : nat :=
  String.length (PyStr.remove " " s).

(** The keys of a grouping are in strictly ascending order. *)
Definition keys_sorted {A} (groups : list (string * list A)) : Prop :=
  StronglySorted key_lt (map fst groups).

(** What [groupby] has built after the rows [done]. *)
Record grouped (done : list (nat * Row)) (groups : list (string * list (nat * Row)))
  : Prop := {
  grouped_sorted : keys_sorted groups;
  grouped_rows : forall k xs, In (k, xs) groups ->
                              xs = filter (has_key k) done /\ xs <> [];
  grouped_keys : forall ir k, In ir done -> row_key ir = Some k ->
                              In k (map fst groups)
}.

(** The index entry made of a group. *)
Definition records_of_group (now : Z) (group : string * list (nat * Row))
  : string * list LifterRecord :=
  (fst group, map (make_record now) (snd group)).

(** ** Scores

    The terms of the composite score in the words of the specification. *)

(** Whole days from the instant [t] to [now]; a date is within [n] days
    of now when this is below [n]. *)
Definition age_in_days (now t : Z) : Z := ((now - t) / DAY)%Z.

(** Weight-class proximity, already weighted by 0.3. *)
Definition weight_class_term (record_weight_class hint : Q) : Q :=
  if Qltb 0 record_weight_class && Qltb 0 hint
  then (Qmax 0 (1 - Qabs (record_weight_class - hint) / 20) * 0.3)%Q
  else 0%Q.

(** Recency: 0.1 for a date that parses and is less than 365 days old,
    0.05 for one less than 1095 days old, 0 otherwise. *)
Definition recency_term (w : World) (record : LifterRecord) : Q :=
  match date record with
  | Some d =>
      if PyStr.truthy d then
        match strptime d with
        | Some t =>
            if (age_in_days (clock w) t <? 365)%Z then 0.1%Q
            else if (age_in_days (clock w) t <? 1095)%Z then 0.05%Q
            else 0%Q
        | None => 0%Q
        end
      else 0%Q
  | None => 0%Q
  end.

(** The completeness sub-score. *)
Definition completeness (record : LifterRecord) : Q :=
  ((if Qltb 0 (total record) then 0.5 else 0)
   + (if Qltb 0 (weight_class record) then 0.3 else 0)
   + (if date_truthy (date record) then 0.2 else 0))%Q.


(** The record with another stored [days_old]. *)
Definition with_days_old (d : Z) (r : LifterRecord) : LifterRecord :=
  {| index := index r;
     original_name := original_name r;
     meet_name := meet_name r;
     date := date r;
     division := division r;
     weight_class := weight_class r;
     federation := federation r;
     country := country r;
     squat := squat r;
     bench := bench r;
     deadlift := deadlift r;
     total := total r;
     dotscore := dotscore r;
     bodyweight := bodyweight r;
     age := age r;
     days_old := d |}.

(** ** Cache *)

(** The fingerprint kept in the metadata. *)
Definition cached_hash (st : Manager) : string :=
  get_or_empty (file_hash (_load_metadata st)).

(** ** Answers *)

(** The answer carries [record]: it is marked found and its lift fields
    and details are those of the record. *)
Definition carries (response : Resp.t) (record : LifterRecord) : Prop :=
  Resp.found response = true
  /\ Resp.squat_kg response = str_of_float (squat record)
  /\ Resp.bench_kg response = str_of_float (bench record)
  /\ Resp.deadlift_kg response = str_of_float (deadlift record)
  /\ Resp.total response = str_of_float (total record)
  /\ Resp.dotscore response = str_of_float (dotscore record)
  /\ Resp.details response = Some (details_of record).

(** All numeric lift fields hold the zero value. *)
Definition zero_lifts (response : Resp.t) : Prop :=
  Resp.squat_kg response = "0"
  /\ Resp.bench_kg response = "0"
  /\ Resp.deadlift_kg response = "0"
  /\ Resp.total response = "0"
  /\ Resp.dotscore response = "0".





(** The variant [u] hits nothing: it is no key and no prefix of a key. *)
Definition no_hit (idx : NameIndex) (u : string) : Prop :=
  PyDict.get idx u = None
  /\ forall k, In k (PyDict.keys idx) -> PyStr.startswith k u = false.

(** The candidate returned for a key that holds one record. *)
Definition exact_candidate (r : LifterRecord) : Candidate :=
  {| record := r; score := 1%Q; name_similarity := 1%Q; match_type := "exact" |}.

(** The first normalization variant of [name] that is a key of the index. *)
Definition first_exact_variant (idx : NameIndex) (name : string)
  : option string :=
  find (PyDict.mem idx) (_try_multiple_normalizations name).

(** The answer marked found with confidence exact for [record]: lift
    fields only, no details, no alternatives, no warning. *)
Definition exact_answer (record : LifterRecord) : Resp.t :=
  {| Resp.found := true;
     Resp.reason := None;
     Resp.confidence := Some "exact";
     Resp.squat_kg := str_of_float (squat record);
     Resp.bench_kg := str_of_float (bench record);
     Resp.deadlift_kg := str_of_float (deadlift record);
     Resp.total := str_of_float (total record);
     Resp.dotscore := str_of_float (dotscore record);
     Resp.details := None;
     Resp.alternatives := None;
     Resp.warning := None |}.

(** What the batch stores for one name. *)
Definition batch_answer (idx : NameIndex) (name : string) : Resp.t :=
  match batch_search idx (_try_multiple_normalizations name) with
  | Some r => r
  | None => _get_default_response
  end.

(** ** Vocabulary of the further properties *)

(** The row has a name. *)
Definition named (row : Row) : bool :=
  match Name row with Some _ => true | None => false end.

(** The number of records that a grouping or an index holds. *)
Definition record_count {A} (groups : list (string * list A)) : nat :=
  length (concat (map snd groups)).

(** The metadata that a refresh in the world [w] writes for the table
    [df]. *)
Definition refresh_metadata (w : World) (df : Table) : Metadata :=
  {| last_update := Some (clock w);
     file_hash := Some (_get_file_hash w);
     rows := Some (length (rows_of df));
     columns := Some (columns_of df) |}.

(** No key of the index holds an empty list. *)
Definition no_empty_entry (idx : NameIndex) : Prop :=
  forall k recs, In (k, recs) idx -> recs <> [].

(** The keys of the index that start with the search name [v]. *)
Definition keys_starting_with (idx : NameIndex) (v : string) : list string :=
  filter (fun indexed_name => PyStr.startswith indexed_name v) (PyDict.keys idx).


(** The string that [search_lifters] looks for in the keys. *)
Definition search_key (name : string) : string :=
  PyStr.remove "," (PyStr.remove " " (PyStr.lower (PyStr.strip name))).

(** The records that the index holds under the keys containing [key]. *)
Definition records_matching (idx : NameIndex) (key : string) : list LifterRecord :=
  flat_map (records_at idx) (filter (str_in key) (PyDict.keys idx)).

(** Best dot score first. *)
Definition by_dotscore_desc (a b : Lifter.t) : Prop :=
  (Lifter.dotscore b <= Lifter.dotscore a)%Q.


(** Every character of the text is in the class [p]. *)
Fixpoint all_chars (p : ascii -> bool) (s : string) : bool :=
  match s with
  | EmptyString => true
  | String c s' => p c && all_chars p s'
  end.

(** The character is one of ASCII. *)
Definition is_ascii (c : ascii) : bool := nat_of_ascii c <? 128.

(** The text begins with a character of the class [p]. *)
Definition begins_with (p : ascii -> bool) (s : string) : bool :=
  match s with
  | EmptyString => false
  | String c _ => p c
  end.

(** The text [m] is one that the item can take. *)
Definition takes (item : Item) (m : string) : Prop :=
  match item with
  | One p => exists c, m = String c "" /\ p c = true
  | Maybe p => m = "" \/ exists c, m = String c "" /\ p c = true
  | Many p => all_chars p m = true
  end.

(** [session_division] of a session container. *)
Definition division_of (session_container : Session) : string :=
  match session_header session_container with
  | Some header => header
  | None => "Division not found"
  end.

(** The roster entry [d] is the one made of the link in a session of the
    given division. *)
Definition entry_of (division : string) (link : Link) (d : LifterData) : Prop :=
  _is_valid_lifter_link (href link) (PyStr.strip (text link)) = true
  /\ _extract_clean_name (PyStr.strip (text link)) = Some (clean_lifter_name d)
  /\ lifter_name_with_number d = PyStr.strip (text link)
  /\ lifter_name_for_url d
     = PyStr.remove "," (PyStr.remove " " (clean_lifter_name d))
  /\ lifter_profile_url d = href link
  /\ lifter_division d = division.

(** The link is a valid lifter link with a clean name. *)
Definition listable (link : Link) : Prop :=
  _is_valid_lifter_link (href link) (PyStr.strip (text link)) = true
  /\ _extract_clean_name (PyStr.strip (text link)) <> None.

(** The loop state of the roster parser is coherent: no profile twice,
    and the set of seen links holds the profiles listed so far. *)
Definition coherent (state : list LifterData * list string) : Prop :=
  NoDup (map lifter_profile_url (fst state))
  /\ forall u, In u (snd state) <-> In u (map lifter_profile_url (fst state)).

(** ** Tactics *)

(** Linear arithmetic over the rationals after rewriting the division by
    twenty as a multiplication. *)
Ltac qlra :=
  unfold Qdiv in *; change (/ 20)%Q with (1 # 20)%Q in *;
  first [lra | split; lra].

(** Runs the steps of a computation on the state, rewriting with the
    equations at hand whenever a test on the disk or the world shows. *)
Ltac run_with tac :=
  unfold load_data, preprocess_data, ensure_loaded, bind, get_state,
    put_state, read_data_file, _load_index_fast, _save_index_fast, ret, raise,
    with_data, with_name_index, with_disk, with_index_pkl;
  repeat (progress (simpl; tac)).

(** Drops the library functions that a statement does not mention. *)
Ltac lib_free :=
  try clear str_of_float; try clear strptime; try clear to_datetime.

(** * Properties *)

(** ** Key order *)

Lemma ascii_compare_refl (c : ascii) : Ascii.compare c c = Eq.
Proof. unfold Ascii.compare. apply N.compare_refl. Qed.

Lemma string_compare_refl (s : string) : String.compare s s = Eq.
Proof.
  induction s as [|c s IH]; simpl; [reflexivity|].
  now rewrite ascii_compare_refl.
Qed.

Lemma string_compare_eq (a b : string) : String.compare a b = Eq <-> a = b.
Proof.
  split; [apply String.compare_eq_iff|].
  intros ->. apply string_compare_refl.
Qed.

Lemma key_lt_trans (a b c : string) : key_lt a b -> key_lt b c -> key_lt a c.
Proof.
  unfold key_lt. revert b c.
  induction a as [|x a IH]; intros [|y b] [|z c]; simpl; try congruence.
  unfold Ascii.compare.
  destruct (N.compare_spec (N_of_ascii x) (N_of_ascii y)) as [Exy|Lxy|Gxy];
    destruct (N.compare_spec (N_of_ascii y) (N_of_ascii z)) as [Eyz|Lyz|Gyz];
    try congruence; intros H1 H2.
  - rewrite Exy, Eyz, N.compare_refl. eauto.
  - rewrite Exy. now apply N.compare_lt_iff in Lyz as ->.
  - rewrite <- Eyz. now apply N.compare_lt_iff in Lxy as ->.
  - assert (L : (N_of_ascii x < N_of_ascii z)%N) by lia.
    now apply N.compare_lt_iff in L as ->.
Qed.

Lemma key_lt_irrefl (a : string) : ~ key_lt a a.
Proof. unfold key_lt. rewrite string_compare_refl. discriminate. Qed.

Lemma key_gt_lt (a b : string) : String.compare a b = Gt -> key_lt b a.
Proof.
  unfold key_lt. intros H. rewrite String.compare_antisym, H. reflexivity.
Qed.

(** ** Dictionaries *)

Lemma get_set_same {V} (d : PyDict.t V) k v :
  PyDict.get (PyDict.set d k v) k = Some v.
Proof.
  induction d as [|[k' v'] d IH]; simpl.
  - now rewrite String.eqb_refl.
  - destruct (String.eqb k' k) eqn:E; simpl; rewrite E; auto.
Qed.

Lemma get_set_other {V} (d : PyDict.t V) k k' v :
  k' <> k -> PyDict.get (PyDict.set d k v) k' = PyDict.get d k'.
Proof.
  intros N. induction d as [|[k0 v0] d IH]; simpl.
  - destruct (String.eqb_spec k k'); congruence.
  - destruct (String.eqb_spec k0 k) as [->|N0]; simpl.
    + destruct (String.eqb_spec k k'); congruence.
    + now rewrite IH.
Qed.

Lemma get_In {V} (d : PyDict.t V) k v : PyDict.get d k = Some v -> In (k, v) d.
Proof.
  induction d as [|[k' v'] d IH]; simpl; [discriminate|].
  destruct (String.eqb_spec k' k) as [->|N]; intros H.
  - inversion H. now left.
  - right. auto.
Qed.

Lemma In_get {V} (d : PyDict.t V) k v :
  NoDup (PyDict.keys d) -> In (k, v) d -> PyDict.get d k = Some v.
Proof. lib_free.
  induction d as [|[k' v'] d IH]; simpl; [tauto|].
  intros ND [E|I].
  - inversion E; subst. now rewrite String.eqb_refl.
  - inversion ND as [|? ? NI ND']; subst.
    destruct (String.eqb_spec k' k) as [->|N].
    + exfalso. apply NI. change k with (fst (k, v)). now apply in_map.
    + auto.
Qed.

Lemma get_None_keys {V} (d : PyDict.t V) k :
  PyDict.get d k = None <-> ~ In k (PyDict.keys d).
Proof. lib_free.
  induction d as [|[k' v'] d IH]; simpl; [tauto|].
  destruct (String.eqb_spec k' k) as [->|N].
  - split; [discriminate|]. intros H. exfalso. apply H. now left.
  - rewrite IH. split; intros H; [intros [E|I]; [congruence|tauto]|tauto].
Qed.

Lemma set_fresh {V} (d : PyDict.t V) k v :
  ~ In k (PyDict.keys d) -> PyDict.set d k v = d ++ [(k, v)].
Proof. lib_free.
  induction d as [|[k' v'] d IH]; simpl; [reflexivity|].
  intros H. destruct (String.eqb_spec k' k) as [->|N]; [tauto|].
  rewrite IH; tauto.
Qed.

(** ** Grouping *)

Lemma sorted_keys_NoDup (l : list string) : StronglySorted key_lt l -> NoDup l.
Proof.
  induction 1 as [|k l S IH F]; constructor; auto.
  intros I. rewrite Forall_forall in F. apply (key_lt_irrefl _ (F _ I)).
Qed.

Lemma group_add_keys {A} (k : string) (x : A) groups k' :
  In k' (map fst (group_add k x groups)) <-> k' = k \/ In k' (map fst groups).
Proof. lib_free.
  induction groups as [|[k0 xs] rest IH]; simpl.
  - intuition.
  - destruct (String.compare k k0) eqn:C; simpl.
    + apply string_compare_eq in C. subst. intuition.
    + intuition.
    + rewrite IH. intuition.
Qed.

Lemma group_add_sorted {A} (k : string) (x : A) groups :
  keys_sorted groups -> keys_sorted (group_add k x groups).
Proof.
  unfold keys_sorted.
  induction groups as [|[k0 xs] rest IH]; simpl; intros S.
  - repeat constructor.
  - inversion S as [|? ? S' F]; subst.
    destruct (String.compare k k0) eqn:C; simpl.
    + constructor; auto.
    + constructor; [exact S|]. constructor; [exact C|].
      eapply Forall_impl; [|exact F]. intros b. now apply key_lt_trans.
    + constructor; [auto|]. apply Forall_forall. intros b I.
      apply group_add_keys in I as [->|I].
      * now apply key_gt_lt.
      * rewrite Forall_forall in F. auto.
Qed.

(** Where an entry of the grown grouping comes from. *)
Lemma group_add_entry {A} (k : string) (x : A) groups k' xs' :
  keys_sorted groups ->
  In (k', xs') (group_add k x groups) ->
  (k' <> k /\ In (k', xs') groups)
  \/ (k' = k /\ exists xs, In (k, xs) groups /\ xs' = xs ++ [x])
  \/ (k' = k /\ ~ In k (map fst groups) /\ xs' = [x]).
Proof. lib_free.
  unfold keys_sorted.
  induction groups as [|[k0 xs] rest IH]; simpl; intros S I.
  - destruct I as [E|[]]. injection E as E1 E2. right; right. auto.
  - inversion S as [|? ? S' F]; subst. rewrite Forall_forall in F.
    assert (Frest : forall ys, In (k', ys) rest -> key_lt k0 k').
    { intros ys Iy. apply F. change k' with (fst (k', ys)). now apply in_map. }
    destruct (String.compare k k0) eqn:C; simpl in I.
    + apply string_compare_eq in C. subst k0.
      destruct I as [E|I].
      * injection E as E1 E2. right; left. split; [auto|].
        exists xs. auto.
      * left. split; [|tauto]. intros Ek. subst k'.
        exact (key_lt_irrefl _ (Frest _ I)).
    + destruct I as [E|I].
      * injection E as E1 E2. right; right. repeat split; auto.
        intros [E'|I'].
        -- subst k0. exact (key_lt_irrefl _ C).
        -- exact (key_lt_irrefl _ (key_lt_trans _ _ _ C (F _ I'))).
      * left. split; [|exact I]. intros Ek. subst k'.
        destruct I as [E|I].
        -- injection E as E1 E2. subst k0. exact (key_lt_irrefl _ C).
        -- exact (key_lt_irrefl _ (key_lt_trans _ _ _ C (Frest _ I))).
    + apply key_gt_lt in C. destruct I as [E|I].
      * injection E as E1 E2. left. split; [|left; congruence].
        intros Ek. subst. exact (key_lt_irrefl _ C).
      * destruct (IH S' I) as [[N I']|[[Ek [ys [I' E]]]|[Ek [N E]]]].
        -- left. tauto.
        -- right; left. split; [exact Ek|]. exists ys. tauto.
        -- right; right. repeat split; [exact Ek| |exact E].
           intros [E'|I']; [|tauto]. subst k0. exact (key_lt_irrefl _ C).
Qed.

Lemma has_key_iff k ir : has_key k ir = true <-> row_key ir = Some k.
Proof.
  unfold has_key. destruct (row_key ir) as [k'|]; [|split; discriminate].
  destruct (String.eqb_spec k' k); split; congruence.
Qed.

Lemma grouped_step done groups ir :
  grouped done groups ->
  grouped (done ++ [ir])
          (match Name (snd ir) with
           | Some n => group_add (normalized_name n) ir groups
           | None => groups
           end).
Proof. lib_free.
  intros [S R K].
  destruct (Name (snd ir)) as [n|] eqn:EN.
  - assert (RK : row_key ir = Some (normalized_name n))
      by (unfold row_key; now rewrite EN).
    set (k := normalized_name n) in *.
    constructor.
    + now apply group_add_sorted.
    + intros k' xs' I. rewrite filter_app. simpl.
      destruct (group_add_entry _ _ _ _ _ S I)
        as [[N I']|[[-> [ys [I' E]]]|[-> [N E]]]].
      * destruct (R _ _ I') as [E NE].
        assert (HK : has_key k' ir = false).
        { destruct (has_key k' ir) eqn:H; [|reflexivity].
          apply has_key_iff in H. congruence. }
        rewrite HK, app_nil_r. tauto.
      * destruct (R _ _ I') as [E' NE]. subst.
        assert (HK : has_key k ir = true) by now apply has_key_iff.
        rewrite HK. split; [reflexivity|]. now destruct (filter _ done).
      * assert (HK : has_key k ir = true) by now apply has_key_iff.
        rewrite HK. subst xs'. split; [|discriminate].
        assert (F : filter (has_key k) done = []).
        { destruct (filter (has_key k) done) as [|j js] eqn:F; [reflexivity|].
          assert (I' : In j (filter (has_key k) done)) by (rewrite F; now left).
          apply filter_In in I' as [I' H]. apply has_key_iff in H.
          exfalso. apply N. eapply K; eauto. }
        now rewrite F.
    + intros jr k' I RK'. apply group_add_keys.
      apply in_app_or in I as [I|[<-|[]]].
      * right. eapply K; eauto.
      * left. congruence.
  - assert (RK : row_key ir = None) by (unfold row_key; now rewrite EN).
    constructor; [exact S| |].
    + intros k xs I. rewrite filter_app. simpl.
      unfold has_key at 2. rewrite RK, app_nil_r. auto.
    + intros jr k I RK'. apply in_app_or in I as [I|[<-|[]]].
      * eapply K; eauto.
      * congruence.
Qed.

Lemma grouped_fold irows : forall done groups,
  grouped done groups ->
  grouped (done ++ irows)
          (fold_left
             (fun groups ir =>
                match Name (snd ir) with
                | Some n => group_add (normalized_name n) ir groups
                | None => groups
                end)
             irows groups).
Proof.
  induction irows as [|ir irows IH]; intros done groups G; simpl.
  - now rewrite app_nil_r.
  - replace (done ++ ir :: irows) with ((done ++ [ir]) ++ irows)
      by (rewrite <- app_assoc; reflexivity).
    apply IH. now apply grouped_step.
Qed.

Lemma groupby_grouped irows : grouped irows (groupby_normalized_name irows).
Proof. lib_free.
  unfold groupby_normalized_name.
  apply (grouped_fold irows [] []).
  constructor; [constructor| |]; simpl; tauto.
Qed.

(** ** The built index *)

Lemma fold_set_fresh now (groups : list (string * list (nat * Row))) :
  forall acc : NameIndex,
  NoDup (PyDict.keys acc ++ map fst groups) ->
  fold_left
    (fun idx group =>
       PyDict.set idx (fst group) (map (make_record now) (snd group)))
    groups acc
  = acc ++ map (records_of_group now) groups.
Proof.
  induction groups as [|g groups IH]; intros acc ND; simpl.
  - now rewrite app_nil_r.
  - assert (NI : ~ In (fst g) (PyDict.keys acc)).
    { intros I. apply NoDup_remove_2 in ND. apply ND.
      apply in_or_app. now left. }
    rewrite set_fresh by exact NI.
    rewrite IH.
    + rewrite <- app_assoc. reflexivity.
    + unfold PyDict.keys in *. rewrite map_app, <- app_assoc. exact ND.
Qed.

Lemma build_index_groups now df :
  build_index now df
  = map (records_of_group now)
        (groupby_normalized_name (enumerate (rows_of df))).
Proof.
  unfold build_index. rewrite fold_set_fresh; [reflexivity|].
  simpl. apply sorted_keys_NoDup.
  apply (grouped_sorted _ _ (groupby_grouped _)).
Qed.

Lemma build_index_keys now df :
  PyDict.keys (build_index now df)
  = map fst (groupby_normalized_name (enumerate (rows_of df))).
Proof.
  rewrite build_index_groups. unfold PyDict.keys. rewrite map_map.
  reflexivity.
Qed.

Lemma build_index_NoDup now df : NoDup (PyDict.keys (build_index now df)).
Proof.
  rewrite build_index_keys. apply sorted_keys_NoDup.
  apply (grouped_sorted _ _ (groupby_grouped _)).
Qed.

Lemma build_index_entry now df K recs :
  In (K, recs) (build_index now df) ->
  recs = map (make_record now) (filter (has_key K) (enumerate (rows_of df)))
  /\ recs <> [].
Proof.
  rewrite build_index_groups. intros I.
  apply in_map_iff in I as [[k xs] [E I]].
  unfold records_of_group in E. simpl in E. injection E as E1 E2. subst K recs.
  destruct (grouped_rows _ _ (groupby_grouped _) _ _ I) as [E NE].
  split; [now rewrite <- E|]. now destruct xs.
Qed.

Lemma build_index_files_row now df ir k :
  In ir (enumerate (rows_of df)) ->
  row_key ir = Some k ->
  exists recs, PyDict.get (build_index now df) k = Some recs
               /\ In (make_record now ir) recs.
Proof.
  intros I RK.
  pose proof (grouped_keys _ _ (groupby_grouped _) _ _ I RK) as IK.
  apply in_map_iff in IK as [[k' xs] [E IG]]. simpl in E. subst k'.
  exists (map (make_record now) xs). split.
  - apply In_get; [apply build_index_NoDup|].
    rewrite build_index_groups.
    apply in_map_iff. exists (k, xs). auto.
  - apply in_map.
    destruct (grouped_rows _ _ (groupby_grouped _) _ _ IG) as [E _].
    rewrite E. apply filter_In. split; [exact I|]. now apply has_key_iff.
Qed.

(** ** Positions of the rows *)

Lemma enumerate_from_In {A} (l : list A) : forall a i x,
  In (i, x) (combine (seq a (length l)) l) <->
  a <= i /\ nth_error l (i - a) = Some x.
Proof.
  induction l as [|y l IH]; intros a i x; simpl.
  - split; [tauto|]. intros [_ H]. now destruct (i - a).
  - rewrite IH. split.
    + intros [E|[L N]].
      * injection E as -> ->. rewrite Nat.sub_diag. auto.
      * split; [lia|]. replace (i - a) with (S (i - S a)) by lia. exact N.
    + intros [L N]. destruct (i - a) as [|j] eqn:D.
      * left. simpl in N. injection N as ->. f_equal. lia.
      * right. split; [lia|]. simpl in N.
        replace (i - S a) with j by lia. exact N.
Qed.

Lemma enumerate_In {A} (l : list A) i x :
  In (i, x) (enumerate l) <-> nth_error l i = Some x.
Proof.
  unfold enumerate. rewrite enumerate_from_In, Nat.sub_0_r.
  split; [tauto|]. split; [lia|assumption].
Qed.

Lemma filter_enumerate_sorted {A} (f : nat * A -> bool) (l : list A) :
  forall a,
  StronglySorted lt (map fst (filter f (combine (seq a (length l)) l))).
Proof.
  induction l as [|y l IH]; intros a; simpl; [constructor|].
  destruct (f (a, y)); simpl; [|apply IH].
  constructor; [apply IH|].
  apply Forall_forall. intros i I.
  apply in_map_iff in I as [[j x] [E I]]. simpl in E. subst j.
  apply filter_In in I as [I _]. apply enumerate_from_In in I. lia.
Qed.

(** ** Strings *)

Lemma lower_char_comma (c : ascii) :
  Ascii.eqb (PyStr.lower_char c) "," = Ascii.eqb c ",".
Proof.
  destruct c as [[] [] [] [] [] [] [] []]; vm_compute; reflexivity.
Qed.

Lemma contains_lower_comma (s : string) :
  PyStr.contains "," (PyStr.lower s) = PyStr.contains "," s.
Proof.
  induction s as [|c s IH]; simpl; [reflexivity|].
  now rewrite lower_char_comma, IH.
Qed.

Lemma contains_remove_same (c : ascii) (s : string) :
  PyStr.contains c (PyStr.remove c s) = false.
Proof.
  induction s as [|d s IH]; simpl; [reflexivity|].
  destruct (Ascii.eqb d c) eqn:E; simpl; [exact IH|].
  now rewrite E, IH.
Qed.

Lemma contains_remove_other (c d : ascii) (s : string) :
  c <> d -> PyStr.contains c (PyStr.remove d s) = PyStr.contains c s.
Proof.
  intros N. induction s as [|e s IH]; simpl; [reflexivity|].
  destruct (Ascii.eqb_spec e d) as [->|Ned]; simpl.
  - destruct (Ascii.eqb_spec d c); [congruence|exact IH].
  - now rewrite IH.
Qed.

Lemma contains_lstrip (p : ascii -> bool) (c : ascii) (s : string) :
  p c = false ->
  PyStr.contains c (PyStr.lstrip_with p s) = PyStr.contains c s.
Proof.
  intros P. induction s as [|d s IH]; simpl; [reflexivity|].
  destruct (p d) eqn:D; simpl; [|reflexivity].
  destruct (Ascii.eqb_spec d c) as [->|N]; [congruence|exact IH].
Qed.

Lemma contains_rstrip (p : ascii -> bool) (c : ascii) (s : string) :
  p c = false ->
  PyStr.contains c (PyStr.rstrip_with p s) = PyStr.contains c s.
Proof.
  intros P. induction s as [|d s IH]; simpl; [reflexivity|].
  destruct (PyStr.rstrip_with p s) as [|e r] eqn:R.
  - simpl in IH. rewrite <- IH.
    destruct (p d) eqn:D; simpl.
    + destruct (Ascii.eqb_spec d c) as [->|N]; [congruence|reflexivity].
    + reflexivity.
  - change (PyStr.contains c (String d (String e r)))
      with (Ascii.eqb d c || PyStr.contains c (String e r)).
    now rewrite IH.
Qed.

Lemma contains_strip_comma (s : string) :
  PyStr.contains "," (PyStr.strip s) = PyStr.contains "," s.
Proof.
  unfold PyStr.strip, PyStr.strip_with.
  rewrite contains_rstrip by reflexivity.
  now rewrite contains_lstrip by reflexivity.
Qed.

Lemma normalized_name_keeps_comma (name : string) :
  PyStr.contains "," (normalized_name name) = PyStr.contains "," name.
Proof.
  unfold normalized_name.
  rewrite contains_lower_comma, contains_remove_other by discriminate.
  apply contains_strip_comma.
Qed.

Lemma variant1_has_no_comma (name : string) :
  PyStr.contains "," (variant1 name) = false.
Proof.
  unfold variant1. rewrite contains_lower_comma. apply contains_remove_same.
Qed.

Lemma remove_lstrip_same (c : ascii) (s : string) :
  PyStr.remove c (PyStr.lstrip_with (fun d => Ascii.eqb d c) s)
  = PyStr.remove c s.
Proof.
  induction s as [|d s IH]; simpl; [reflexivity|].
  destruct (Ascii.eqb d c) eqn:E; simpl; [exact IH|].
  now rewrite E.
Qed.

Lemma remove_rstrip_same (c : ascii) (s : string) :
  PyStr.remove c (PyStr.rstrip_with (fun d => Ascii.eqb d c) s)
  = PyStr.remove c s.
Proof.
  induction s as [|d s IH]; simpl; [reflexivity|].
  destruct (PyStr.rstrip_with (fun d => Ascii.eqb d c) s) as [|e r] eqn:R.
  - simpl in IH. rewrite <- IH.
    destruct (Ascii.eqb d c) eqn:E; simpl; [reflexivity|].
    now rewrite E.
  - change (PyStr.remove c (String d (String e r)))
      with (if Ascii.eqb d c then PyStr.remove c (String e r)
            else String d (PyStr.remove c (String e r))).
    now rewrite IH.
Qed.

Lemma remove_strip_blanks (s : string) :
  PyStr.remove " " (PyStr.strip_blanks s) = PyStr.remove " " s.
Proof.
  unfold PyStr.strip_blanks, PyStr.strip_with.
  now rewrite remove_rstrip_same, remove_lstrip_same.
Qed.

Lemma lower_length (s : string) :
  String.length (PyStr.lower s) = String.length s.
Proof. induction s as [|c s IH]; simpl; congruence. Qed.

Lemma blank_isspace (c : ascii) :
  Ascii.eqb c " " = true -> PyStr.isspace c = true.
Proof. intros E. apply Ascii.eqb_eq in E. now subst c. Qed.

Lemma non_blank_step (c : ascii) (s : string) :
  non_blanks (String c s)
  = (if Ascii.eqb c " " then 0 else 1) + non_blanks s.
Proof. unfold non_blanks. simpl. now destruct (Ascii.eqb c " "). Qed.

Lemma lstrip_non_blanks (s : string) :
  non_blanks (PyStr.lstrip_with PyStr.isspace s) <= non_blanks s.
Proof.
  induction s as [|c s IH]; simpl; [lia|].
  destruct (PyStr.isspace c); [|lia].
  rewrite non_blank_step. lia.
Qed.

Lemma lstrip_only_blanks (s : string) :
  non_blanks (PyStr.lstrip_with PyStr.isspace s) = non_blanks s ->
  PyStr.lstrip_with PyStr.isspace s
  = PyStr.lstrip_with (fun c => Ascii.eqb c " ") s.
Proof.
  induction s as [|c s IH]; simpl; [reflexivity|].
  destruct (Ascii.eqb c " ") eqn:B.
  - rewrite (blank_isspace _ B), non_blank_step, B. simpl. exact IH.
  - destruct (PyStr.isspace c); [|reflexivity].
    rewrite non_blank_step, B. pose proof (lstrip_non_blanks s). lia.
Qed.

Lemma rstrip_non_blanks (s : string) :
  non_blanks (PyStr.rstrip_with PyStr.isspace s) <= non_blanks s.
Proof.
  induction s as [|c s IH]; [simpl; lia|].
  rewrite non_blank_step. simpl.
  destruct (PyStr.rstrip_with PyStr.isspace s) as [|e r].
  - destruct (PyStr.isspace c) eqn:W.
    + unfold non_blanks at 1. simpl. lia.
    + rewrite non_blank_step. unfold non_blanks at 1. simpl. lia.
  - rewrite non_blank_step. lia.
Qed.

Lemma rstrip_only_blanks (s : string) :
  non_blanks (PyStr.rstrip_with PyStr.isspace s) = non_blanks s ->
  PyStr.rstrip_with PyStr.isspace s
  = PyStr.rstrip_with (fun c => Ascii.eqb c " ") s.
Proof.
  induction s as [|c s IH]; [reflexivity|].
  rewrite (non_blank_step c s). simpl.
  pose proof (rstrip_non_blanks s) as LE.
  destruct (PyStr.rstrip_with PyStr.isspace s) as [|e r] eqn:R.
  - destruct (PyStr.isspace c) eqn:W.
    + unfold non_blanks at 1. simpl. intros E.
      destruct (Ascii.eqb c " ") eqn:B; [|lia].
      rewrite <- IH by (unfold non_blanks at 1; simpl; lia).
      reflexivity.
    + rewrite non_blank_step. unfold non_blanks at 1. simpl. intros E.
      destruct (Ascii.eqb c " ") eqn:B.
      * rewrite (blank_isspace _ B) in W. discriminate.
      * rewrite <- IH by (unfold non_blanks at 1; simpl; lia).
        reflexivity.
  - rewrite non_blank_step. intros E.
    rewrite <- IH by lia. reflexivity.
Qed.

Lemma strip_only_blanks (s : string) :
  non_blanks (PyStr.strip s) = non_blanks s ->
  PyStr.strip s = PyStr.strip_blanks s.
Proof.
  unfold PyStr.strip, PyStr.strip_blanks, PyStr.strip_with. intros E.
  pose proof (lstrip_non_blanks s) as L.
  pose proof (rstrip_non_blanks (PyStr.lstrip_with PyStr.isspace s)) as R.
  rewrite rstrip_only_blanks by lia.
  rewrite lstrip_only_blanks by lia. reflexivity.
Qed.

(** ** Index builder: the invariant of the name index *)

Lemma make_record_original_name now ir K :
  has_key K ir = true -> normalized_name (original_name (make_record now ir)) = K.
Proof.
  intros H. apply has_key_iff in H. unfold row_key in H. simpl.
  destruct (Name (snd ir)) as [n|]; simpl in *; congruence.
Qed.

(** C8.  In the index built from any table, every record stored under a
    key [K] has normalized name exactly [K], and the records under [K] are
    the rows of the table with that normalized name, in the order of the
    table: their row positions increase. *)
Theorem index_records_have_key_in_source_order now df K recs :
  In (K, recs) (build_index now df) ->
  (forall r, In r recs -> normalized_name (original_name r) = K)
  /\ recs = map (make_record now) (filter (has_key K) (enumerate (rows_of df)))
  /\ StronglySorted lt (map index recs).
Proof.
  intros I. destruct (build_index_entry _ _ _ _ I) as [E _].
  split; [|split; [exact E|]].
  - intros r Ir. rewrite E in Ir.
    apply in_map_iff in Ir as [ir [<- Iir]].
    apply filter_In in Iir as [_ H]. now apply make_record_original_name.
  - rewrite E, map_map. simpl.
    apply (filter_enumerate_sorted (has_key K) (rows_of df) 0).
Qed.

(** ** Index keys and the normalizer variants *)

(** The variants tried are the three strategies in their order, each
    kept unless an earlier one gave the same string; the first is always
    tried first. *)
Lemma variants_in_order (name : string) :
  _try_multiple_normalizations name
  = unique_in_order [] [variant1 name; variant2 name; variant3 name]
  /\ exists rest, _try_multiple_normalizations name = variant1 name :: rest.
Proof.
  split; [reflexivity|].
  unfold _try_multiple_normalizations. simpl. eauto.
Qed.

Lemma make_record_index now ir : index (make_record now ir) = fst ir.
Proof. reflexivity. Qed.

Lemma build_index_key_of_row now df i row name K recs :
  nth_error (rows_of df) i = Some row ->
  Name row = Some name ->
  In (K, recs) (build_index now df) ->
  In (make_record now (i, row)) recs ->
  K = normalized_name name.
Proof.
  intros N EN I Ir.
  destruct (build_index_entry _ _ _ _ I) as [E _]. rewrite E in Ir.
  apply in_map_iff in Ir as [[j row'] [Emk Ij]].
  apply filter_In in Ij as [Ij H].
  assert (j = i) by (apply (f_equal index) in Emk; exact Emk). subst j.
  apply enumerate_In in Ij. rewrite N in Ij. injection Ij as <-.
  apply has_key_iff in H. unfold row_key in H. simpl in H.
  rewrite EN in H. simpl in H. congruence.
Qed.

(** C10, as amended.  The records of a row named [name] are filed under
    the key [normalized_name name] (surrounding whitespace stripped, spaces
    removed, lowercased) and under no other key.  When [name] contains a
    comma, the key contains a comma, variant 1 of [name] differs from the
    key, and variant 2 equals the key exactly when the whitespace around
    [name] consists of space characters only, that is when [name.strip()]
    and [name.strip(' ')] agree. *)
Theorem index_key_keeps_commas now df i row name :
  nth_error (rows_of df) i = Some row ->
  Name row = Some name ->
  (exists recs,
      PyDict.get (build_index now df) (normalized_name name) = Some recs
      /\ In (make_record now (i, row)) recs)
  /\ (forall K recs,
        In (K, recs) (build_index now df) ->
        In (make_record now (i, row)) recs -> K = normalized_name name)
  /\ (PyStr.contains "," name = true ->
      PyStr.contains "," (normalized_name name) = true
      /\ variant1 name <> normalized_name name
      /\ (variant2 name = normalized_name name <->
          PyStr.strip name = PyStr.strip_blanks name)).
Proof.
  intros N EN. split; [|split].
  - apply build_index_files_row.
    + now apply enumerate_In.
    + unfold row_key. simpl. now rewrite EN.
  - intros K recs. now apply build_index_key_of_row.
  - intros C. split; [|split].
    + now rewrite normalized_name_keeps_comma.
    + intros E. apply (f_equal (PyStr.contains ",")) in E.
      rewrite variant1_has_no_comma, normalized_name_keeps_comma, C in E.
      discriminate.
    + unfold variant2, normalized_name. split.
      * intros E. apply strip_only_blanks.
        apply (f_equal String.length) in E.
        rewrite !lower_length in E. unfold non_blanks. congruence.
      * intros S. now rewrite S, remove_strip_blanks.
Qed.

(** ** Scorer *)

Lemma Qltb_true (a b : Q) : Qltb a b = true <-> (a < b)%Q.
Proof.
  unfold Qltb. rewrite negb_true_iff.
  destruct (Qle_bool b a) eqn:E.
  - apply Qle_bool_iff in E. split; [discriminate|]. intros L.
    exfalso. apply (Qlt_irrefl a). eapply Qlt_le_trans; eauto.
  - split; [|reflexivity]. intros _. apply Qnot_le_lt.
    intros L. apply Qle_bool_iff in L. congruence.
Qed.

Lemma Qltb_false (a b : Q) : Qltb a b = false <-> (b <= a)%Q.
Proof.
  unfold Qltb. rewrite negb_false_iff. apply Qle_bool_iff.
Qed.

Lemma max0_Qmax (x : Q) : (max0 x == Qmax 0 x)%Q.
Proof.
  unfold max0. destruct (Qltb 0 x) eqn:E.
  - apply Qltb_true in E. symmetry. apply Q.max_r. now apply Qlt_le_weak.
  - apply Qltb_false in E. symmetry. now apply Q.max_l.
Qed.

Lemma max0_bounds (d : Q) : (0 <= max0 (1 - Qabs d / 20) <= 1)%Q.
Proof.
  pose proof (Qabs_nonneg d) as A. revert A.
  generalize (Qabs d). intros a A.
  unfold max0. destruct (Qltb 0 (1 - a / 20)) eqn:E.
  - apply Qltb_true in E. qlra.
  - qlra.
Qed.

Lemma weight_class_term_bounds (a b : Q) : (0 <= weight_class_term a b <= 0.3)%Q.
Proof.
  unfold weight_class_term. destruct (Qltb 0 a && Qltb 0 b); [|qlra].
  rewrite <- max0_Qmax. pose proof (max0_bounds (a - b)). qlra.
Qed.

Lemma recency_term_bounds w r : (0 <= recency_term w r <= 0.1)%Q.
Proof.
  unfold recency_term.
  destruct (date r) as [d|]; [|qlra].
  destruct (PyStr.truthy d); [|qlra].
  destruct (strptime d) as [t|]; [|qlra].
  destruct (age_in_days (clock w) t <? 365)%Z; [qlra|].
  destruct (age_in_days (clock w) t <? 1095)%Z; qlra.
Qed.

Lemma completeness_bounds r : (0 <= completeness r <= 1)%Q.
Proof.
  unfold completeness.
  destruct (Qltb 0 (total r)), (Qltb 0 (weight_class r)),
    (date_truthy (date r)); qlra.
Qed.

Lemma score_decomposition w r s hint meet :
  (_calculate_comprehensive_match_score w r s hint meet
   == 0.5 * s + weight_class_term (weight_class r) hint
      + recency_term w r + 0.1 * completeness r)%Q.
Proof.
  unfold _calculate_comprehensive_match_score, weight_class_term,
    recency_term, completeness, age_in_days, date_truthy.
  pose proof (max0_Qmax (1 - Qabs (weight_class r - hint) / 20)) as M.
  destruct (Qltb 0 (weight_class r)), (Qltb 0 hint), (Qltb 0 (total r));
    simpl andb; cbv iota;
    (destruct (date r) as [d|]; simpl get_or_empty;
     [destruct (PyStr.truthy d);
      [destruct (strptime d) as [t|];
       [destruct ((clock w - t) / DAY <? 365)%Z;
        [|destruct ((clock w - t) / DAY <? 1095)%Z]|]|]|]);
    qlra.
Qed.

(** The composite score as the code computes it: the sum of 0.5 times the
    name similarity, the weight-class term, the recency term and 0.1 times
    the completeness sub-score.  The weight-class term is 0.3 at zero
    difference between two positive weight classes and 0 at a difference
    of 20 or more; for a name similarity in [0, 1] the score lies in
    [0, 1].  The recency term is the one of the code, which asks that the
    age in whole days be below 365 or 1095 and so takes a date after now
    for a recent one. *)
Theorem composite_score_is_weighted_sum w r s hint meet :
  (_calculate_comprehensive_match_score w r s hint meet
   == 0.5 * s + weight_class_term (weight_class r) hint
      + recency_term w r + 0.1 * completeness r)%Q
  /\ ((0 < weight_class r)%Q -> (0 < hint)%Q ->
      (weight_class r == hint)%Q ->
      (weight_class_term (weight_class r) hint == 0.3)%Q)
  /\ ((20 <= Qabs (weight_class r - hint))%Q ->
      (weight_class_term (weight_class r) hint == 0)%Q)
  /\ ((0 <= s <= 1)%Q ->
      (0 <= _calculate_comprehensive_match_score w r s hint meet <= 1)%Q).
Proof.
  split; [apply score_decomposition|]. split; [|split].
  - intros P1 P2 E. unfold weight_class_term.
    apply Qltb_true in P1, P2. rewrite P1, P2. simpl.
    assert (D : (Qabs (weight_class r - hint) == 0)%Q).
    { assert (Z0 : (weight_class r - hint == 0)%Q) by qlra.
      rewrite Z0. reflexivity. }
    rewrite D. rewrite Q.max_r by qlra. qlra.
  - intros Far. unfold weight_class_term.
    destruct (Qltb 0 (weight_class r) && Qltb 0 hint); [|reflexivity].
    rewrite Q.max_l by qlra. qlra.
  - intros B. rewrite score_decomposition.
    pose proof (weight_class_term_bounds (weight_class r) hint).
    pose proof (recency_term_bounds w r).
    pose proof (completeness_bounds r).
    qlra.
Qed.

(** ** Dataset store: staleness *)

Lemma needs_update_iff w st :
  needs_update w st = true <->
  data_file (disk st) = None
  \/ (exists t, last_update (_load_metadata st) = Some t
                /\ (HOURS_24 < clock w - t)%Z)
  \/ _get_file_hash w <> cached_hash st.
Proof.
  unfold needs_update, cached_hash.
  destruct (data_file (disk st)) as [f|]; [|tauto].
  destruct (last_update (_load_metadata st)) as [t|].
  - destruct (Z.ltb_spec HOURS_24 (clock w - t)) as [L|L].
    + split; [|reflexivity]. intros _. right; left. eauto.
    + rewrite negb_true_iff.
      destruct (String.eqb_spec (_get_file_hash w)
                  (get_or_empty (file_hash (_load_metadata st)))) as [E|N].
      * split; [discriminate|].
        intros [H|[[t' [Et Lt]]|H]]; [discriminate| |congruence].
        injection Et as <-. lia.
      * split; [|reflexivity]. intros _. right; right. exact N.
  - rewrite negb_true_iff.
    destruct (String.eqb_spec (_get_file_hash w)
                (get_or_empty (file_hash (_load_metadata st)))) as [E|N].
    + split; [discriminate|].
      intros [H|[[t' [Et Lt]]|H]]; [discriminate|discriminate|congruence].
    + split; [|reflexivity]. intros _. right; right. exact N.
Qed.

(** C7.  The staleness check answers true when no cached dataset file
    exists, when more than 24 hours separate the clock from the last
    refresh recorded in the metadata, and when the remote fingerprint
    differs from the one stored in the metadata; it answers false when the
    dataset file exists, the recorded refresh is at most 24 hours old and
    the fingerprints agree. *)
Theorem needs_update_decides_staleness w st :
  (data_file (disk st) = None -> needs_update w st = true)
  /\ (forall t, last_update (_load_metadata st) = Some t ->
                (HOURS_24 < clock w - t)%Z -> needs_update w st = true)
  /\ (_get_file_hash w <> cached_hash st -> needs_update w st = true)
  /\ (forall t, data_file (disk st) <> None ->
                last_update (_load_metadata st) = Some t ->
                (clock w - t <= HOURS_24)%Z ->
                _get_file_hash w = cached_hash st ->
                needs_update w st = false).
Proof.
  split; [|split; [|split]].
  - intros H. apply needs_update_iff. tauto.
  - intros t E L. apply needs_update_iff. right; left. eauto.
  - intros N. apply needs_update_iff. tauto.
  - intros t D E L H.
    destruct (needs_update w st) eqn:U; [|reflexivity].
    apply needs_update_iff in U as [U|[[t' [Et Lt]]|U]].
    + contradiction.
    + rewrite E in Et. injection Et as <-. lia.
    + contradiction.
Qed.

(** ** Dataset store: refresh *)

Lemma download_data_failure w st :
  fst (download_data w st) = false ->
  metadata_file (disk (snd (download_data w st))) = metadata_file (disk st)
  /\ index_pkl (disk (snd (download_data w st))) = index_pkl (disk st)
  /\ index_json (disk (snd (download_data w st))) = index_json (disk st)
  /\ _data (snd (download_data w st)) = _data st
  /\ _name_index (snd (download_data w st)) = _name_index st
  /\ (parquet_write w <> WriteTorn ->
      data_file (disk (snd (download_data w st))) = data_file (disk st)).
Proof. lib_free.
  unfold download_data, download_data_try.
  destruct (get_reply w) as [| |members]; simpl; try tauto.
  destruct (find _ members) as [[nm [df|]]|]; simpl; try tauto.
  destruct (parquet_write w); simpl; try discriminate; intros _;
    repeat split; auto; congruence.
Qed.

(** C6, as amended.  When a refresh returns false, the metadata file, the
    persisted index files and the attributes in memory are as before; the
    dataset file is as before as well, and with it the whole state, unless
    the write of that file broke off midway. *)
Theorem failed_refresh_keeps_metadata w st :
  fst (download_data w st) = false ->
  (metadata_file (disk (snd (download_data w st))) = metadata_file (disk st)
   /\ _data (snd (download_data w st)) = _data st
   /\ _name_index (snd (download_data w st)) = _name_index st
   /\ index_pkl (disk (snd (download_data w st))) = index_pkl (disk st)
   /\ index_json (disk (snd (download_data w st))) = index_json (disk st))
  /\ (parquet_write w <> WriteTorn -> snd (download_data w st) = st).
Proof.
  intros F. destruct (download_data_failure w st F) as (M & P & J & D & I & T).
  split; [tauto|]. intros NT. specialize (T NT).
  destruct (snd (download_data w st)) as [d i k], st as [d0 i0 k0].
  simpl in *. subst. f_equal.
  destruct k, k0. simpl in *. congruence.
Qed.

(** ** Loading the dataset and the index *)

Lemma load_data_with_index w st df idx :
  data_file (disk st) = Some (Intact df) ->
  index_pkl (disk st) = Some (Intact idx) ->
  load_data w st = (inr tt, with_name_index (Some idx) (with_data (Some df) st)).
Proof.
  intros D P. run_with ltac:(rewrite ?D, ?P). reflexivity.
Qed.

(** C5, as amended.  With a readable dataset cache: when no persisted
    index exists, neither binary nor text, loading rebuilds the index from
    the raw dataset, whatever becomes of the write of the binary index
    file: the table and the rebuilt index are in memory and the dataset
    file is as before.  Loading then succeeds exactly when that write
    succeeds, with the rebuilt index in the binary index file, and raises
    [OSError] when it does not.  When the binary index exists but does not
    deserialize, loading raises that error and builds nothing; likewise
    for a text index that does not deserialize. *)
Theorem load_data_rebuilds_only_without_index w st df :
  data_file (disk st) = Some (Intact df) ->
  (index_pkl (disk st) = None -> index_json (disk st) = None ->
   exists st',
     snd (load_data w st) = st'
     /\ _data st' = Some df
     /\ _name_index st' = Some (build_index (clock w) df)
     /\ data_file (disk st') = data_file (disk st)
     /\ (pickle_write w = Written ->
         load_data w st = (inr tt, st')
         /\ index_pkl (disk st') = Some (Intact (build_index (clock w) df)))
     /\ (pickle_write w <> Written ->
         load_data w st = (inl OSError, st')
         /\ index_pkl (disk st') <> Some (Intact (build_index (clock w) df))))
  /\ (index_pkl (disk st) = Some Corrupt ->
      load_data w st = (inl UnpicklingError, with_data (Some df) st))
  /\ (index_pkl (disk st) = None -> index_json (disk st) = Some Corrupt ->
      load_data w st
      = (inl JSONDecodeError, with_name_index None (with_data (Some df) st))).
Proof.
  intros D. split; [|split].
  - intros P J. eexists. split; [reflexivity|].
    run_with ltac:(rewrite ?D, ?P, ?J).
    destruct (pickle_write w) eqn:W; simpl;
      (split; [reflexivity|]); (split; [reflexivity|]);
      (split; [reflexivity|]); split; intros X;
      try discriminate; try congruence; split; try reflexivity;
      rewrite ?P; discriminate.
  - intros P. run_with ltac:(rewrite ?D, ?P). reflexivity.
  - intros P J. run_with ltac:(rewrite ?D, ?P, ?J). reflexivity.
Qed.

(** ** Candidate order *)

Lemma insert_by_score_In c l x :
  In x (insert_by_score c l) <-> x = c \/ In x l.
Proof.
  induction l as [|d l IH]; simpl; [intuition|].
  destruct (Qltb (score c) (score d)); simpl; [rewrite IH|]; intuition.
Qed.



Lemma insert_by_score_perm c l : Permutation (insert_by_score c l) (c :: l).
Proof.
  induction l as [|d l IH]; simpl; [reflexivity|].
  destruct (Qltb (score c) (score d)); [|reflexivity].
  rewrite IH. apply perm_swap.
Qed.

(** Sorting keeps the candidates, each as often as before. *)
Lemma sort_by_score_desc_perm l : Permutation (sort_by_score_desc l) l.
Proof.
  induction l as [|c l IH]; simpl; [reflexivity|].
  rewrite insert_by_score_perm. now constructor.
Qed.

Lemma sort_by_score_desc_In l x : In x (sort_by_score_desc l) <-> In x l.
Proof.
  induction l as [|c l IH]; simpl; [tauto|].
  rewrite insert_by_score_In, IH. intuition.
Qed.

Lemma firstn_sorted {A} (R : A -> A -> Prop) n (l : list A) :
  StronglySorted R l -> StronglySorted R (firstn n l).
Proof.
  revert l. induction n as [|n IH]; intros l S; simpl; [constructor|].
  destruct l as [|x l]; [constructor|].
  inversion S as [|? ? S' F]; subst. constructor; [auto|].
  rewrite Forall_forall in *. intros y I. apply F.
  eapply (In_nth_error) in I as [k I].
  apply nth_error_In with (n := k).
  rewrite nth_error_firstn in I.
  destruct (k <? n); [exact I|discriminate].
Qed.




(** ** Running a lookup *)

Lemma ensure_loaded_ready w st :
  index_truthy (_name_index st) = true -> ensure_loaded w st = (inr tt, st).
Proof.
  intros T. unfold ensure_loaded, bind, get_state, ret. simpl. now rewrite T.
Qed.

Lemma find_lifter_candidates_run w name hint meet max st st1 :
  ensure_loaded w st = (inr tt, st1) ->
  find_lifter_candidates w name hint meet max st
  = (inr (search_loop w (index_of st1) hint meet max
                      (_try_multiple_normalizations name) []), st1).
Proof.
  intros E. unfold find_lifter_candidates, bind at 1. rewrite E.
  reflexivity.
Qed.

Lemma get_lifter_stats_robust_run w name hint meet st st1 :
  ensure_loaded w st = (inr tt, st1) ->
  get_lifter_stats_robust w name hint meet st
  = (inr (resolve (search_loop w (index_of st1) hint meet 10
                               (_try_multiple_normalizations name) [])), st1).
Proof.
  intros E. unfold get_lifter_stats_robust, bind at 1.
  rewrite (find_lifter_candidates_run w name hint meet 10 st st1 E).
  reflexivity.
Qed.

Lemma get_lifter_stats_batch_run w names st st1 :
  ensure_loaded w st = (inr tt, st1) ->
  get_lifter_stats_batch w names st
  = (inr (batch_loop (index_of st1) names []), st1).
Proof.
  intros E. unfold get_lifter_stats_batch, bind at 1. rewrite E.
  reflexivity.
Qed.

(** ** Resolver: confidence tiers *)




(** ** Candidate finder: the single exact hit *)

Lemma filter_none {A} (f : A -> bool) (l : list A) :
  (forall x, In x l -> f x = false) -> filter f l = [].
Proof.
  induction l as [|x l IH]; simpl; intros H; [reflexivity|].
  rewrite (H x) by now left. apply IH. intros y I. apply H. now right.
Qed.

Lemma search_loop_single_exact w idx hint meet max earlier v later r :
  (forall u, In u earlier -> no_hit idx u) ->
  PyDict.get idx v = Some [r] ->
  forall candidates,
  search_loop w idx hint meet max (earlier ++ v :: later) candidates
  = [exact_candidate r].
Proof.
  intros N G. induction earlier as [|u earlier IH]; intros candidates; simpl.
  - rewrite G. reflexivity.
  - destruct (N u (or_introl eq_refl)) as [GN P].
    rewrite GN, (filter_none _ _ P).
    apply IH. intros u' I. apply N. now right.
Qed.

(** The ratio [len(search_name) / len(indexed_name)] of the prefix branch
    never divides by zero: a key that starts with a variant which is not
    itself a key is not empty. *)
Lemma prefix_key_not_empty (idx : NameIndex) u k :
  PyDict.get idx u = None ->
  In k (PyDict.keys idx) ->
  PyStr.startswith k u = true ->
  k <> "".
Proof.
  intros G I P ->. unfold PyStr.startswith in P.
  destruct u as [|c u]; simpl in P; [|discriminate].
  now apply get_None_keys in G.
Qed.

(** C2, as amended.  If a normalization variant of the name is an index
    key holding exactly one record, and every variant tried before it is
    neither an index key nor a prefix of an index key, then candidate
    finding returns that record as its only candidate, with match type
    exact, score 1 and name similarity 1, whatever the clock and the hints
    are. *)
Theorem single_exact_hit_short_circuits w st name hint meet max
    earlier v later r :
  _try_multiple_normalizations name = earlier ++ v :: later ->
  (forall u, In u earlier -> no_hit (index_of st) u) ->
  PyDict.get (index_of st) v = Some [r] ->
  find_lifter_candidates w name hint meet max st
  = (inr [exact_candidate r], st).
Proof.
  intros V N G.
  assert (T : index_truthy (_name_index st) = true).
  { unfold index_of in G. destruct (_name_index st) as [[|e idx]|];
      simpl in *; congruence. }
  rewrite (find_lifter_candidates_run w name hint meet max st st
             (ensure_loaded_ready w st T)).
  rewrite V, (search_loop_single_exact w _ hint meet max earlier v later r N G).
  reflexivity.
Qed.

(** ** Batch lookup *)

Lemma mem_false_get {V} (d : PyDict.t V) k :
  PyDict.mem d k = false -> PyDict.get d k = None.
Proof. unfold PyDict.mem. now destruct (PyDict.get d k). Qed.

Lemma batch_search_first_key idx variants v record rest :
  find (PyDict.mem idx) variants = Some v ->
  PyDict.get idx v = Some (record :: rest) ->
  batch_search idx variants = Some (exact_answer record).
Proof.
  induction variants as [|u variants IH]; simpl; [discriminate|].
  destruct (PyDict.mem idx u) eqn:M.
  - intros E G. injection E as ->. rewrite G. reflexivity.
  - intros E G. rewrite (mem_false_get _ _ M). auto.
Qed.

Lemma batch_search_no_key idx variants :
  find (PyDict.mem idx) variants = None ->
  batch_search idx variants = None.
Proof.
  induction variants as [|u variants IH]; simpl; [reflexivity|].
  destruct (PyDict.mem idx u) eqn:M; [discriminate|].
  intros E. rewrite (mem_false_get _ _ M). auto.
Qed.

Lemma batch_loop_other idx names : forall results name,
  ~ In name names ->
  PyDict.get (batch_loop idx names results) name = PyDict.get results name.
Proof.
  induction names as [|n names IH]; intros results name NI; simpl.
  - reflexivity.
  - rewrite IH by (intros I; apply NI; now right).
    apply get_set_other. intros ->. apply NI. now left.
Qed.

Lemma batch_loop_get idx names : forall results name,
  In name names ->
  PyDict.get (batch_loop idx names results) name
  = Some (batch_answer idx name).
Proof.
  induction names as [|n names IH]; intros results name I; simpl.
  - destruct I.
  - destruct (in_dec string_dec name names) as [I'|NI].
    + now apply IH.
    + destruct I as [->|I]; [|contradiction].
      rewrite batch_loop_other by exact NI.
      apply get_set_same.
Qed.

(** C4.  Once the index is in memory, the batch lookup returns a dict
    that, for each requested name, holds the answer marked found with
    confidence exact for the first record stored under the first
    normalization variant that is an index key, and otherwise, when no
    variant is an index key, the answer with [found] false and every
    numeric lift field at the zero value; keys that merely start with a
    variant play no part. *)
Theorem batch_lookup_exact_or_zero w st st1 names :
  ensure_loaded w st = (inr tt, st1) ->
  exists results,
    get_lifter_stats_batch w names st = (inr results, st1)
    /\ forall name, In name names ->
         (forall v record rest,
             first_exact_variant (index_of st1) name = Some v ->
             PyDict.get (index_of st1) v = Some (record :: rest) ->
             PyDict.get results name = Some (exact_answer record))
         /\ (first_exact_variant (index_of st1) name = None ->
             exists response,
               PyDict.get results name = Some response
               /\ Resp.found response = false
               /\ zero_lifts response
               /\ response = _get_default_response).
Proof. lib_free.
  intros E. exists (batch_loop (index_of st1) names []).
  split; [now apply get_lifter_stats_batch_run|].
  intros name I. rewrite (batch_loop_get _ _ _ _ I). unfold batch_answer.
  split.
  - intros v record rest F G.
    now rewrite (batch_search_first_key _ _ v record rest F G).
  - intros F. rewrite (batch_search_no_key _ _ F).
    exists _get_default_response. unfold zero_lifts. simpl. tauto.
Qed.

(** ** Staleness of a record *)

Lemma build_index_record_row now df K recs r :
  In (K, recs) (build_index now df) -> In r recs ->
  exists row,
    nth_error (rows_of df) (index r) = Some row
    /\ r = make_record now (index r, row).
Proof.
  intros I Ir. destruct (build_index_entry _ _ _ _ I) as [E _].
  rewrite E in Ir. apply in_map_iff in Ir as [[i row] [<- Ii]].
  apply filter_In in Ii as [Ii _]. apply enumerate_In in Ii.
  exists row. simpl. auto.
Qed.

(** C9, as amended.  For every record of the built index, [days_old] was
    computed when the index was built: it is the age in whole days, at
    build time, of the date of the record's row, and 9999 when that date
    is missing or does not parse.  The score does not read the stored
    value: its recency term is computed from the date of the record and
    the clock of the lookup, so the score is the same whatever [days_old]
    holds. *)
Theorem days_old_is_stored_and_scoring_reads_the_clock now df K recs r :
  In (K, recs) (build_index now df) -> In r recs ->
  (exists row,
      nth_error (rows_of df) (index r) = Some row
      /\ date r = Date row
      /\ days_old r
         = match Date row with
           | Some d =>
               match to_datetime d with
               | Some t => age_in_days now t
               | None => 9999%Z
               end
           | None => 9999%Z
           end)
  /\ (forall w s hint meet,
        (_calculate_comprehensive_match_score w r s hint meet
         == 0.5 * s + weight_class_term (weight_class r) hint
            + recency_term w r + 0.1 * completeness r)%Q)
  /\ (forall w s hint meet d,
        _calculate_comprehensive_match_score w (with_days_old d r) s hint meet
        = _calculate_comprehensive_match_score w r s hint meet).
Proof.
  intros I Ir. split; [|split].
  - destruct (build_index_record_row _ _ _ _ _ I Ir) as [row [N E]].
    exists row. split; [exact N|]. rewrite E. simpl. auto.
  - intros. apply score_decomposition.
  - reflexivity.
Qed.

(** * Further properties *)

(** ** Normalizer *)

Lemma existsb_eqb_In (s : string) (l : list string) :
  existsb (String.eqb s) l = true <-> In s l.
Proof. lib_free.
  rewrite existsb_exists. split.
  - intros [x [I E]]. apply String.eqb_eq in E. now subst.
  - intros I. exists s. split; [exact I|apply String.eqb_refl].
Qed.

Lemma unique_in_order_In (l : list string) : forall seen v,
  In v (unique_in_order seen l) <-> In v l /\ ~ In v seen.
Proof. lib_free.
  induction l as [|n l IH]; intros seen v; simpl; [tauto|].
  destruct (existsb (String.eqb n) seen) eqn:E.
  - apply existsb_eqb_In in E. rewrite IH. split.
    + tauto.
    + intros [[->|I] N]; tauto.
  - assert (N : ~ In n seen).
    { intros I. apply existsb_eqb_In in I. congruence. }
    simpl. rewrite IH. simpl. split.
    + intros [->|[I NI]]; [tauto|]. split; [tauto|]. tauto.
    + intros [[->|I] NI]; [tauto|].
      destruct (string_dec n v) as [->|D]; [tauto|]. right. tauto.
Qed.

Lemma unique_in_order_NoDup (l : list string) : forall seen,
  NoDup (unique_in_order seen l).
Proof. lib_free.
  induction l as [|n l IH]; intros seen; simpl; [constructor|].
  destruct (existsb (String.eqb n) seen); [apply IH|].
  constructor; [|apply IH].
  rewrite unique_in_order_In. simpl. tauto.
Qed.

Lemma unique_in_order_length (l : list string) : forall seen,
  length (unique_in_order seen l) <= length l.
Proof. lib_free.
  induction l as [|n l IH]; intros seen; simpl; [lia|].
  destruct (existsb (String.eqb n) seen); simpl.
  - specialize (IH seen). lia.
  - specialize (IH (n :: seen)). lia.
Qed.

(** X1.  The search names of a name are one to three strings without
    repetition; they are exactly the three strategies, and the first one
    is [_normalize_search_name name]. *)
Theorem search_names_are_distinct_strategies (name : string) :
  NoDup (_try_multiple_normalizations name)
  /\ 1 <= length (_try_multiple_normalizations name) <= 3
  /\ hd_error (_try_multiple_normalizations name)
     = Some (_normalize_search_name name)
  /\ forall v, In v (_try_multiple_normalizations name)
               <-> v = variant1 name \/ v = variant2 name \/ v = variant3 name.
Proof. lib_free.
  unfold _try_multiple_normalizations.
  split; [apply unique_in_order_NoDup|].
  split; [|split].
  - split; [simpl; lia|].
    apply (unique_in_order_length
             [variant1 name; variant2 name; variant3 name] []).
  - reflexivity.
  - intros v. rewrite unique_in_order_In. simpl.
    unfold variant1, variant2, variant3. intuition.
Qed.

Lemma lower_char_idem (c : ascii) :
  PyStr.lower_char (PyStr.lower_char c) = PyStr.lower_char c.
Proof. lib_free.
  destruct c as [[] [] [] [] [] [] [] []]; vm_compute; reflexivity.
Qed.

Lemma lower_idem (s : string) : PyStr.lower (PyStr.lower s) = PyStr.lower s.
Proof. lib_free.
  induction s as [|c s IH]; simpl; [reflexivity|].
  now rewrite lower_char_idem, IH.
Qed.

Lemma lower_char_space (c : ascii) :
  Ascii.eqb (PyStr.lower_char c) " " = Ascii.eqb c " ".
Proof. lib_free.
  destruct c as [[] [] [] [] [] [] [] []]; vm_compute; reflexivity.
Qed.

Lemma remove_lower_space (s : string) :
  PyStr.remove " " (PyStr.lower s) = PyStr.lower (PyStr.remove " " s).
Proof. lib_free.
  induction s as [|c s IH]; simpl; [reflexivity|].
  rewrite lower_char_space. destruct (Ascii.eqb c " "); simpl; congruence.
Qed.

Lemma remove_lower_comma (s : string) :
  PyStr.remove "," (PyStr.lower s) = PyStr.lower (PyStr.remove "," s).
Proof. lib_free.
  induction s as [|c s IH]; simpl; [reflexivity|].
  rewrite lower_char_comma. destruct (Ascii.eqb c ","); simpl; congruence.
Qed.

Lemma remove_absent (c : ascii) (s : string) :
  PyStr.contains c s = false -> PyStr.remove c s = s.
Proof. lib_free.
  induction s as [|d s IH]; simpl; [reflexivity|].
  destruct (Ascii.eqb d c); simpl; [discriminate|].
  intros H. now rewrite IH.
Qed.

Lemma remove_idem (c : ascii) (s : string) :
  PyStr.remove c (PyStr.remove c s) = PyStr.remove c s.
Proof. lib_free. apply remove_absent, contains_remove_same. Qed.

Lemma remove_comm (c d : ascii) (s : string) :
  PyStr.remove c (PyStr.remove d s) = PyStr.remove d (PyStr.remove c s).
Proof. lib_free.
  induction s as [|e s IH]; simpl; [reflexivity|].
  destruct (Ascii.eqb e d) eqn:D, (Ascii.eqb e c) eqn:C; simpl;
    rewrite ?D, ?C; congruence.
Qed.

(** X2.  Every normalization strategy is idempotent: applied to its own
    result it changes nothing. *)
Theorem normalization_is_idempotent (name : string) :
  _normalize_search_name (_normalize_search_name name)
  = _normalize_search_name name
  /\ variant1 (variant1 name) = variant1 name
  /\ variant2 (variant2 name) = variant2 name
  /\ variant3 (variant3 name) = variant3 name.
Proof.
  assert (V1 : variant1 (variant1 name) = variant1 name).
  { unfold variant1.
    rewrite remove_lower_space, remove_lower_comma, lower_idem.
    rewrite (remove_comm " " ","), !remove_idem. reflexivity. }
  split; [exact V1|]. split; [exact V1|]. split.
  - unfold variant2. now rewrite remove_lower_space, lower_idem, remove_idem.
  - unfold variant3. now rewrite remove_lower_comma, lower_idem, remove_idem.
Qed.

(** X3.  A name without a comma has at most two search names, and a name
    with neither a space nor a comma has one: the name in lower case. *)
Theorem search_names_of_plain_name (name : string) :
  PyStr.contains "," name = false ->
  length (_try_multiple_normalizations name) <= 2
  /\ (PyStr.contains " " name = false ->
      _try_multiple_normalizations name = [PyStr.lower name]).
Proof.
  intros C. unfold _try_multiple_normalizations.
  assert (E : PyStr.remove "," (PyStr.remove " " name) = PyStr.remove " " name).
  { apply remove_absent. now rewrite contains_remove_other by discriminate. }
  rewrite E, (remove_absent "," name C). split.
  - simpl. rewrite String.eqb_refl. simpl.
    destruct (String.eqb _ _); simpl; lia.
  - intros S. rewrite (remove_absent " " name S).
    simpl. repeat (rewrite String.eqb_refl; simpl). reflexivity.
Qed.

(** ** Index builder: shape of the index *)

Lemma group_add_count {A} (k : string) (x : A) (groups : list (string * list A)) :
  record_count (group_add k x groups) = S (record_count groups).
Proof.
  unfold record_count.
  induction groups as [|[k' xs] rest IH]; simpl; [reflexivity|].
  destruct (String.compare k k'); simpl.
  - rewrite !length_app. simpl. lia.
  - reflexivity.
  - rewrite !length_app in *. simpl in IH. lia.
Qed.

Lemma groupby_fold_count (irows : list (nat * Row)) : forall groups,
  record_count
    (fold_left
       (fun groups ir =>
          match Name (snd ir) with
          | Some n => group_add (normalized_name n) ir groups
          | None => groups
          end)
       irows groups)
  = record_count groups + length (filter (fun ir => named (snd ir)) irows).
Proof.
  induction irows as [|ir irows IH]; intros groups; simpl; [lia|].
  rewrite IH. unfold named at 2.
  destruct (Name (snd ir)); simpl; [rewrite group_add_count|]; lia.
Qed.

Lemma filter_enumerate_length {A} (f : A -> bool) (l : list A) : forall a,
  length (filter (fun ir => f (snd ir)) (combine (seq a (length l)) l))
  = length (filter f l).
Proof.
  induction l as [|x l IH]; intros a; simpl; [reflexivity|].
  destruct (f x); simpl; now rewrite IH.
Qed.

Lemma records_of_group_count now (groups : list (string * list (nat * Row))) :
  record_count (map (records_of_group now) groups) = record_count groups.
Proof.
  unfold record_count.
  induction groups as [|g groups IH]; simpl; [reflexivity|].
  rewrite !length_app, length_map. simpl in IH. now rewrite IH.
Qed.

(** X4.  The index built from any table has its keys in strictly
    ascending order, hence no key twice; no key holds an empty list; and
    the index holds one record for each row that has a name: no such row
    is lost and none is filed twice. *)
Theorem built_index_is_well_formed now df :
  StronglySorted key_lt (PyDict.keys (build_index now df))
  /\ NoDup (PyDict.keys (build_index now df))
  /\ (forall k recs, In (k, recs) (build_index now df) -> recs <> [])
  /\ record_count (build_index now df) = length (filter named (rows_of df)).
Proof.
  split; [|split; [|split]].
  - rewrite build_index_keys.
    apply (grouped_sorted _ _ (groupby_grouped _)).
  - apply build_index_NoDup.
  - intros k recs I. now destruct (build_index_entry _ _ _ _ I).
  - rewrite build_index_groups, records_of_group_count.
    unfold groupby_normalized_name. rewrite groupby_fold_count.
    unfold enumerate. now rewrite filter_enumerate_length.
Qed.

(** X5.  Looking up a key in the built index gives the records of the
    rows whose normalized name is that key, in table order, and gives
    nothing when no row has it; so a string is a key exactly when it is
    the normalized name of some row. *)
Theorem built_index_lookup now df k :
  PyDict.get (build_index now df) k
  = match filter (has_key k) (enumerate (rows_of df)) with
    | [] => None
    | irows => Some (map (make_record now) irows)
    end
  /\ (PyDict.mem (build_index now df) k = true <->
      exists i row n,
        nth_error (rows_of df) i = Some row
        /\ Name row = Some n /\ normalized_name n = k).
Proof.
  assert (G : PyDict.get (build_index now df) k
              = match filter (has_key k) (enumerate (rows_of df)) with
                | [] => None
                | irows => Some (map (make_record now) irows)
                end).
  { destruct (filter (has_key k) (enumerate (rows_of df))) as [|ir irs] eqn:F.
    - destruct (PyDict.get (build_index now df) k) as [recs|] eqn:E;
        [|reflexivity].
      apply get_In in E. destruct (build_index_entry _ _ _ _ E) as [R N].
      rewrite F in R. now subst recs.
    - assert (I : In ir (filter (has_key k) (enumerate (rows_of df))))
        by (rewrite F; now left).
      apply filter_In in I as [I H]. apply has_key_iff in H.
      destruct (build_index_files_row now df ir k I H) as [recs [E _]].
      rewrite E. f_equal. apply get_In in E.
      destruct (build_index_entry _ _ _ _ E) as [R _]. now rewrite <- F. }
  split; [exact G|].
  unfold PyDict.mem. rewrite G. split.
  - destruct (filter (has_key k) (enumerate (rows_of df))) as [|[i row] irs] eqn:F;
      [discriminate|]. intros _.
    assert (I : In (i, row) (filter (has_key k) (enumerate (rows_of df))))
      by (rewrite F; now left).
    apply filter_In in I as [I H]. apply enumerate_In in I.
    apply has_key_iff in H. unfold row_key in H. simpl in H.
    destruct (Name row) as [n|] eqn:EN; [|discriminate].
    exists i, row, n. simpl in H. repeat split; congruence.
  - intros (i & row & n & N & EN & K).
    assert (I : In (i, row) (filter (has_key k) (enumerate (rows_of df)))).
    { apply filter_In. split; [now apply enumerate_In|].
      apply has_key_iff. unfold row_key. simpl. rewrite EN. simpl. congruence. }
    destruct (filter (has_key k) (enumerate (rows_of df))); [destruct I|reflexivity].
Qed.

(** ** Persisting and reloading the index *)

Lemma preprocess_data_success w st st' :
  preprocess_data w st = (inr tt, st') ->
  exists df,
    (_data st = Some df
     \/ (_data st = None /\ data_file (disk st) = Some (Intact df)))
    /\ pickle_write w = Written
    /\ st' = {| _data := Some df;
                _name_index := Some (build_index (clock w) df);
                disk := with_index_pkl
                          (Some (Intact (build_index (clock w) df))) (disk st) |}.
Proof.
  intros E.
  unfold preprocess_data, bind, get_state, put_state, ret, raise,
    read_data_file, _save_index_fast, with_data, with_name_index, with_disk
    in E.
  simpl in E.
  destruct (_data st) as [df|] eqn:D.
  - repeat (simpl in E; rewrite ?D in E).
    destruct (pickle_write w) eqn:W; simpl in E; try discriminate.
    injection E as <-. exists df. auto.
  - destruct (data_file (disk st)) as [[df|]|] eqn:F;
      repeat (simpl in E; rewrite ?F in E); try discriminate.
    destruct (pickle_write w) eqn:W; simpl in E; try discriminate.
    injection E as <-. exists df. auto.
Qed.

Lemma load_data_from_pickle w st df idx :
  data_file (disk st) = Some (Intact df) ->
  index_pkl (disk st) = Some (Intact idx) ->
  load_data w st
  = (inr tt, {| _data := Some df; _name_index := Some idx; disk := disk st |}).
Proof.
  intros D P. run_with ltac:(rewrite ?D, ?P). reflexivity.
Qed.

(** X6.  When [preprocess_data] succeeds, the index it leaves in memory
    is the one in the binary index file, and [load_data] on any manager
    over the resulting cache directory brings back that index, with the
    table of the dataset file, and writes nothing.  A lookup gives the
    same candidates before and after the reload. *)
Theorem persisted_index_reloads w st st' :
  preprocess_data w st = (inr tt, st') ->
  exists idx,
    _name_index st' = Some idx
    /\ index_pkl (disk st') = Some (Intact idx)
    /\ forall df, data_file (disk st') = Some (Intact df) ->
         (forall w2 st2, disk st2 = disk st' ->
            load_data w2 st2
            = (inr tt, {| _data := Some df; _name_index := Some idx;
                          disk := disk st' |}))
         /\ (forall w3 name hint meet max,
               fst (find_lifter_candidates w3 name hint meet max
                      {| _data := Some df; _name_index := Some idx;
                         disk := disk st' |})
               = fst (find_lifter_candidates w3 name hint meet max st')).
Proof.
  intros E. destruct (preprocess_data_success w st st' E) as (df0 & _ & _ & ->).
  eexists. split; [reflexivity|]. split; [reflexivity|].
  set (idx := build_index (clock w) df0).
  set (d := with_index_pkl (Some (Intact idx)) (disk st)).
  intros df F.
  assert (L : forall w2 st2, disk st2 = d ->
              load_data w2 st2
              = (inr tt, {| _data := Some df; _name_index := Some idx; disk := d |})).
  { intros w2 st2 D. rewrite <- D.
    apply load_data_from_pickle; rewrite D; [exact F|reflexivity]. }
  split; [exact L|]. intros w3 name hint meet max.
  unfold find_lifter_candidates, bind at 1 3, ensure_loaded, bind, get_state, ret.
  simpl. destruct idx as [|e idx'] eqn:EI.
  - simpl. rewrite !L by reflexivity. reflexivity.
  - reflexivity.
Qed.

Lemma load_data_success w st st' :
  load_data w st = (inr tt, st') ->
  exists idx, _name_index st' = Some idx.
Proof.
  intros E.
  unfold load_data, bind, get_state, put_state, ret, raise, read_data_file,
    _load_index_fast, with_data, with_name_index in E.
  simpl in E.
  destruct (data_file (disk st)) as [[df|]|] eqn:D;
    repeat (simpl in E; rewrite ?D in E); try discriminate.
  destruct (index_pkl (disk st)) as [[idx|]|] eqn:P;
    repeat (simpl in E; rewrite ?P in E); try discriminate.
  - injection E as <-. now exists idx.
  - destruct (index_json (disk st)) as [[idx|]|] eqn:J;
      repeat (simpl in E; rewrite ?J in E); try discriminate.
    + injection E as <-. now exists idx.
    + apply preprocess_data_success in E as (df' & _ & _ & ->).
      now eexists.
Qed.

(** X7.  When [load_data] succeeds, the dataset file was readable, the
    table in memory is the one of that file, and the index in memory is
    the one persisted in the cache directory: in the binary file, or in
    the text file when there is no binary file.  The dataset, metadata and
    text index files are never written, and the whole directory is as
    before whenever an index file existed. *)
Theorem load_data_leaves_memory_and_disk_coherent w st st' :
  load_data w st = (inr tt, st') ->
  exists df idx,
    data_file (disk st) = Some (Intact df)
    /\ _data st' = Some df
    /\ _name_index st' = Some idx
    /\ (index_pkl (disk st') = Some (Intact idx)
        \/ (index_pkl (disk st') = None
            /\ index_json (disk st') = Some (Intact idx)))
    /\ data_file (disk st') = data_file (disk st)
    /\ metadata_file (disk st') = metadata_file (disk st)
    /\ index_json (disk st') = index_json (disk st)
    /\ (index_pkl (disk st) <> None \/ index_json (disk st) <> None ->
        disk st' = disk st).
Proof.
  intros E.
  unfold load_data, bind, get_state, put_state, ret, raise, read_data_file,
    _load_index_fast, with_data, with_name_index in E.
  simpl in E.
  destruct (data_file (disk st)) as [[df|]|] eqn:D;
    repeat (simpl in E; rewrite ?D in E); try discriminate.
  destruct (index_pkl (disk st)) as [[idx|]|] eqn:P;
    repeat (simpl in E; rewrite ?P in E); try discriminate.
  - injection E as <-. exists df, idx. simpl.
    repeat split; auto.
  - destruct (index_json (disk st)) as [[idx|]|] eqn:J;
      repeat (simpl in E; rewrite ?J in E); try discriminate.
    + injection E as <-. exists df, idx. simpl.
      repeat split; auto.
    + apply preprocess_data_success in E as (df' & S & W & ->).
      simpl in S. destruct S as [S|[S _]]; [|discriminate].
      injection S as <-. exists df, (build_index (clock w) df). simpl.
      repeat split; auto. intros [N|N]; congruence.
Qed.

(** ** Refresh and update *)

Lemma download_data_success w st st' :
  download_data w st = (true, st') ->
  exists df,
    parquet_write w = Written
    /\ _data st' = _data st
    /\ _name_index st' = _name_index st
    /\ data_file (disk st') = Some (Intact df)
    /\ metadata_file (disk st')
       = file_after (metadata_write w) (metadata_file (disk st))
           (refresh_metadata w df)
    /\ index_pkl (disk st') = index_pkl (disk st)
    /\ index_json (disk st') = index_json (disk st).
Proof.
  unfold download_data, download_data_try.
  destruct (get_reply w) as [| |members]; simpl; try discriminate.
  destruct (find _ members) as [[nm [df|]]|]; simpl; try discriminate.
  destruct (parquet_write w); simpl; try discriminate.
  intros E. injection E as <-. exists df. simpl. repeat split.
Qed.

(** X8.  After a refresh that returned true and whose metadata was
    written, the metadata describes the new table (its row count and
    columns, the time of the refresh, the fingerprint read then), and the
    staleness check answers false for the next 24 hours as long as the
    remote headers stay the same. *)
Theorem refreshed_cache_is_up_to_date w st st' w2 :
  download_data w st = (true, st') ->
  metadata_write w = Written ->
  head_reply w2 = head_reply w ->
  (clock w2 - clock w <= HOURS_24)%Z ->
  (exists df,
      data_file (disk st') = Some (Intact df)
      /\ _load_metadata st'
         = {| last_update := Some (clock w);
              file_hash := Some (_get_file_hash w);
              rows := Some (length (rows_of df));
              columns := Some (columns_of df) |})
  /\ needs_update w2 st' = false.
Proof.
  intros E W H T.
  destruct (download_data_success w st st' E) as (df & _ & _ & _ & D & M & _).
  rewrite W in M. simpl in M.
  assert (L : _load_metadata st' = refresh_metadata w df)
    by (unfold _load_metadata; now rewrite M).
  split; [exists df; split; [exact D|exact L]|].
  unfold needs_update. rewrite D, L. simpl.
  destruct (Z.ltb_spec HOURS_24 (clock w2 - clock w)) as [B|_]; [lia|].
  unfold _get_file_hash. rewrite H, String.eqb_refl. reflexivity.
Qed.

Lemma update_if_needed_true w st st' :
  update_if_needed w st = (inr true, st') ->
  exists st1, needs_update w st = true
              /\ download_data w st = (true, st1)
              /\ preprocess_data w st1 = (inr tt, st').
Proof.
  unfold update_if_needed.
  destruct (needs_update w st); [|discriminate].
  destruct (download_data w st) as [[|] st1]; [|discriminate].
  destruct (preprocess_data w st1) as [[e|[]] st2] eqn:P; [discriminate|].
  intros E. injection E as <-. exists st1. auto.
Qed.

Lemma update_if_needed_skip w st :
  needs_update w st = false -> update_if_needed w st = (inr false, st).
Proof. intros N. unfold update_if_needed. now rewrite N. Qed.

Lemma update_if_needed_rebuilds w st st' :
  update_if_needed w st = (inr true, st') ->
  exists df,
    data_file (disk st') = Some (Intact df)
    /\ _data st'
       = Some (match _data st with Some old => old | None => df end)
    /\ _name_index st'
       = Some (build_index (clock w)
                 (match _data st with Some old => old | None => df end))
    /\ index_pkl (disk st')
       = Some (Intact (build_index (clock w)
                         (match _data st with Some old => old | None => df end))).
Proof.
  intros E.
  destruct (update_if_needed_true w st st' E) as (st1 & _ & D & P).
  destruct (download_data_success w st st1 D)
    as (df & _ & M & _ & F & _ & _ & _).
  destruct (preprocess_data_success w st1 st' P) as (src & S & _ & ->).
  exists df. simpl. rewrite F. rewrite M in S.
  destruct (_data st) as [old|].
  + destruct S as [S|[S _]]; [|discriminate]. injection S as <-. auto.
  + destruct S as [S|[_ S]]; [discriminate|].
    rewrite F in S. injection S as <-. auto.
Qed.

(** X9.  [update_if_needed] answers false and changes nothing when no
    update is needed; it answers false when the download fails, and then
    the index is not rebuilt; and when it answers true the dataset file
    holds the downloaded table and the index, in memory and in the binary
    index file, was rebuilt from the table that was in memory before the
    call if there was one, and from the downloaded table otherwise. *)
Theorem update_if_needed_outcomes w st :
  (needs_update w st = false -> update_if_needed w st = (inr false, st))
  /\ (needs_update w st = true -> fst (download_data w st) = false ->
      update_if_needed w st = (inr false, snd (download_data w st))
      /\ _name_index (snd (download_data w st)) = _name_index st
      /\ index_pkl (disk (snd (download_data w st))) = index_pkl (disk st))
  /\ (forall st', update_if_needed w st = (inr true, st') ->
      exists df,
        data_file (disk st') = Some (Intact df)
        /\ _data st'
           = Some (match _data st with Some old => old | None => df end)
        /\ _name_index st'
           = Some (build_index (clock w)
                     (match _data st with Some old => old | None => df end))
        /\ index_pkl (disk st')
           = Some (Intact (build_index (clock w)
                             (match _data st with Some old => old | None => df end)))).
Proof.
  split; [|split].
  - apply update_if_needed_skip.
  - intros N F. unfold update_if_needed. rewrite N.
    destruct (download_data_failure w st F) as (_ & P & _ & _ & I & _).
    destruct (download_data w st) as [[|] st1]; simpl in *; [discriminate|].
    auto.
  - apply update_if_needed_rebuilds.
Qed.

(** ** Start of the API *)

(** X10.  On a start, when [update_if_needed] refreshed the cache, the
    following [load_data] succeeds and changes nothing more: the manager
    ends with the downloaded table in memory and the index built from it.
    When no update was needed the start is the plain [load_data]. *)
Theorem startup_after_refresh w d :
  (forall st1, update_if_needed w (new_manager d) = (inr true, st1) ->
     startup w d = (inr tt, st1)
     /\ exists df,
          data_file (disk st1) = Some (Intact df)
          /\ _data st1 = Some df
          /\ _name_index st1 = Some (build_index (clock w) df))
  /\ (needs_update w (new_manager d) = false ->
      startup w d = load_data w (new_manager d)).
Proof.
  split.
  - intros st1 E.
    destruct (update_if_needed_rebuilds w (new_manager d) st1 E)
      as (df & F & D & I & P).
    simpl in D, I, P.
    assert (L : load_data w st1 = (inr tt, st1)).
    { rewrite (load_data_from_pickle w st1 df _ F P).
      destruct st1 as [a b c]. simpl in *. now subst. }
    split.
    + unfold startup, bind. rewrite E. exact L.
    + exists df. auto.
  - intros N. unfold startup, bind.
    now rewrite (update_if_needed_skip w (new_manager d) N).
Qed.

(** X11.  A first start, with no dataset file in the cache directory and
    a download that fails before anything is written, ends in
    [FileNotFoundError] from [load_data]. *)
Theorem first_start_without_download_fails w d :
  data_file d = None ->
  download_data w (new_manager d) = (false, new_manager d) ->
  startup w d = (inl FileNotFoundError, new_manager d).
Proof.
  intros F D. unfold startup, bind, update_if_needed.
  assert (N : needs_update w (new_manager d) = true).
  { unfold needs_update. simpl. now rewrite F. }
  rewrite N, D. unfold load_data, bind, get_state, raise. simpl.
  now rewrite F.
Qed.

(** ** Candidate finder: where the candidates come from *)

Lemma filter_nil {A} (f : A -> bool) (l : list A) :
  filter f l = [] -> forall x, In x l -> f x = false.
Proof.
  induction l as [|y l IH]; simpl; [tauto|].
  destruct (f y) eqn:F; [discriminate|].
  intros E x [<-|I]; auto.
Qed.

(** The loop returns at the first search name that hits the index: with
    the single record of a key, with the scored records of a key that
    holds another number of records, or with the scored records of the
    keys that start with the search name. *)
Lemma search_loop_shape w idx hint meet max names : forall acc,
  (search_loop w idx hint meet max names acc = []
   /\ forall v, In v names -> no_hit idx v)
  \/ exists earlier v later,
       names = earlier ++ v :: later
       /\ (forall u, In u earlier -> no_hit idx u)
       /\ ((exists r,
              PyDict.get idx v = Some [r]
              /\ search_loop w idx hint meet max names acc = [exact_candidate r])
           \/ (exists recs,
                 PyDict.get idx v = Some recs /\ length recs <> 1
                 /\ search_loop w idx hint meet max names acc
                    = slice_to max
                        (sort_by_score_desc
                           (acc ++ exact_duplicates w hint meet recs)))
           \/ (PyDict.get idx v = None
               /\ keys_starting_with idx v <> []
               /\ search_loop w idx hint meet max names acc
                  = slice_to max
                      (sort_by_score_desc
                         (acc ++ prefix_matches w idx v hint meet
                                   (keys_starting_with idx v))))).
Proof. lib_free.
  induction names as [|v names IH]; intros acc.
  - left. simpl. tauto.
  - simpl. destruct (PyDict.get idx v) as [recs|] eqn:G.
    + right. exists [], v, names. split; [reflexivity|]. split; [simpl; tauto|].
      destruct recs as [|r [|r' rs]].
      * right; left. exists []. simpl. auto.
      * left. exists r. auto.
      * right; left. exists (r :: r' :: rs). simpl. repeat split; auto.
    + fold (keys_starting_with idx v).
      destruct (keys_starting_with idx v) as [|k ks] eqn:F.
      * destruct (IH acc) as [[E N]|(earlier & u & later & -> & N & H)].
        -- left. split; [exact E|]. intros u [<-|I]; [|auto].
           split; [exact G|]. now apply filter_nil.
        -- right. exists (v :: earlier), u, later.
           split; [reflexivity|]. split; [|exact H].
           intros x [<-|I]; [|auto]. split; [exact G|]. now apply filter_nil.
      * right. exists [], v, names. split; [reflexivity|].
        split; [simpl; tauto|]. right; right. rewrite F.
        repeat split; auto. discriminate.
Qed.

Lemma In_firstn {A} (n : nat) (l : list A) x : In x (firstn n l) -> In x l.
Proof.
  intros I. rewrite <- (firstn_skipn n l). apply in_or_app. now left.
Qed.

Lemma slice_to_In {A} (n : Z) (l : list A) x : In x (slice_to n l) -> In x l.
Proof.
  unfold slice_to. destruct (0 <=? n)%Z; apply In_firstn.
Qed.

Lemma slice_to_length {A} (n : Z) (l : list A) :
  (0 <= n)%Z -> length (slice_to n l) <= Z.to_nat n.
Proof.
  intros N. unfold slice_to.
  destruct (Z.leb_spec 0 n); [|lia]. rewrite length_firstn. lia.
Qed.

Lemma prefix_length (p s : string) :
  String.prefix p s = true -> String.length p <= String.length s.
Proof.
  revert s. induction p as [|c p IH]; intros s; [simpl; lia|].
  destruct s as [|d s]; simpl; [discriminate|].
  destruct (Ascii.ascii_dec c d); [|discriminate].
  intros H. specialize (IH s H). lia.
Qed.

Lemma len_ratio_bounds (a b : string) :
  String.length a <= String.length b -> b <> "" ->
  (0 <= len_ratio a b <= 1)%Q.
Proof.
  intros L N. unfold len_ratio.
  assert (P : (0 < inject_Z (Z.of_nat (String.length b)))%Q).
  { destruct b; [congruence|]. unfold Qlt. simpl. lia. }
  split.
  - apply Qle_shift_div_l; [exact P|]. rewrite Qmult_0_l.
    change 0%Q with (inject_Z 0). rewrite <- Zle_Qle. lia.
  - apply Qle_shift_div_r; [exact P|]. rewrite Qmult_1_l.
    rewrite <- Zle_Qle. lia.
Qed.

Lemma score_in_unit_interval w r s hint meet :
  (0 <= s <= 1)%Q ->
  (0 <= _calculate_comprehensive_match_score w r s hint meet <= 1)%Q.
Proof.
  intros B. rewrite score_decomposition.
  pose proof (weight_class_term_bounds (weight_class r) hint).
  pose proof (recency_term_bounds w r).
  pose proof (completeness_bounds r).
  split; qlra.
Qed.

Lemma In_prefix_matches w idx v hint meet names c :
  In c (prefix_matches w idx v hint meet names) ->
  exists k, In k names
            /\ In (record c) (records_at idx k)
            /\ name_similarity c = len_ratio v k
            /\ score c = _calculate_comprehensive_match_score
                           w (record c) (len_ratio v k) hint meet
            /\ match_type c = "prefix_match".
Proof.
  unfold prefix_matches. intros I.
  apply in_flat_map in I as [k [Ik I]].
  apply in_map_iff in I as [r [<- Ir]].
  exists k. simpl. auto.
Qed.

Lemma In_exact_duplicates w hint meet recs c :
  In c (exact_duplicates w hint meet recs) ->
  In (record c) recs
  /\ name_similarity c = 1%Q
  /\ score c = _calculate_comprehensive_match_score w (record c) 1 hint meet
  /\ match_type c = "exact_duplicate".
Proof.
  unfold exact_duplicates. intros I.
  apply in_map_iff in I as [r [<- Ir]]. simpl. auto.
Qed.

Lemma keys_starting_with_In idx v k :
  In k (keys_starting_with idx v) <->
  In k (PyDict.keys idx) /\ PyStr.startswith k v = true.
Proof. lib_free. unfold keys_starting_with. rewrite filter_In. tauto. Qed.

Lemma records_at_get (idx : NameIndex) k recs :
  PyDict.get idx k = Some recs -> records_at idx k = recs.
Proof. unfold records_at. now intros ->. Qed.

Lemma get_Some_key {V} (d : PyDict.t V) k v :
  PyDict.get d k = Some v -> In k (PyDict.keys d).
Proof.
  intros G. apply get_In in G. unfold PyDict.keys.
  change k with (fst (k, v)). now apply in_map.
Qed.

Lemma In_ranked (max : Z) (l : list Candidate) c :
  In c (slice_to max (sort_by_score_desc ([] ++ l))) -> In c l.
Proof.
  intros I. apply slice_to_In in I. now apply (sort_by_score_desc_In l c).
Qed.

(** X12.  The candidates of a lookup all carry one match type; each has
    a name similarity and a score between 0 and 1; and for a bound
    [max_candidates] that is not negative there are at most that many of
    them, except that the single record of an exact key is returned
    whatever the bound is. *)
Theorem candidates_are_bounded w st st1 name hint meet max :
  ensure_loaded w st = (inr tt, st1) ->
  (0 <= max)%Z ->
  exists candidates,
    find_lifter_candidates w name hint meet max st = (inr candidates, st1)
    /\ (length candidates <= Z.to_nat max
        \/ exists r, candidates = [exact_candidate r])
    /\ (forall c, In c candidates ->
          (0 <= name_similarity c <= 1)%Q /\ (0 <= score c <= 1)%Q)
    /\ exists tag,
         (tag = "exact" \/ tag = "exact_duplicate" \/ tag = "prefix_match")
         /\ forall c, In c candidates -> match_type c = tag.
Proof. lib_free.
  intros E M.
  rewrite (find_lifter_candidates_run w name hint meet max st st1 E).
  eexists. split; [reflexivity|].
  set (idx := index_of st1).
  destruct (search_loop_shape w idx hint meet max
              (_try_multiple_normalizations name) [])
    as [[R _]|(earlier & v & later & _ & _ & [(r & G & R)|[(recs & G & L & R)|(G & F & R)]])];
    rewrite R; clear R.
  - split; [left; simpl; lia|]. split; [intros c []|].
    exists "exact". split; [tauto|]. intros c [].
  - split; [right; eauto|]. split.
    + intros c [<-|[]]. simpl. split; split; discriminate.
    + exists "exact". split; [tauto|]. intros c [<-|[]]. reflexivity.
  - split; [left; now apply slice_to_length|]. split.
    + intros c I. apply In_ranked in I.
      apply In_exact_duplicates in I as (_ & -> & -> & _).
      split; [split; discriminate|].
      apply score_in_unit_interval. split; discriminate.
    + exists "exact_duplicate". split; [tauto|]. intros c I.
      apply In_ranked in I.
      now apply In_exact_duplicates in I.
  - split; [left; now apply slice_to_length|]. split.
    + intros c I. apply In_ranked in I.
      apply In_prefix_matches in I as (k & Ik & _ & -> & -> & _).
      apply keys_starting_with_In in Ik as [Ik P].
      assert (B : (0 <= len_ratio v k <= 1)%Q).
      { apply len_ratio_bounds.
        - now apply prefix_length.
        - now apply (prefix_key_not_empty idx v k). }
      split; [exact B|]. now apply score_in_unit_interval.
    + exists "prefix_match". split; [tauto|]. intros c I.
      apply In_ranked in I.
      now apply In_prefix_matches in I as (k & _ & _ & _ & _ & T).
Qed.

(** X13.  All candidates of a lookup come from one search name of the
    searched name: each candidate holds a record that the index keeps
    under a key which is that search name, with name similarity 1, or,
    for a prefix match, a longer key that starts with it, with the ratio
    of the two lengths as name similarity. *)
Theorem candidates_come_from_the_index w st st1 name hint meet max :
  ensure_loaded w st = (inr tt, st1) ->
  exists candidates,
    find_lifter_candidates w name hint meet max st = (inr candidates, st1)
    /\ (candidates = []
        \/ exists v,
             In v (_try_multiple_normalizations name)
             /\ forall c, In c candidates ->
                  exists k,
                    In k (PyDict.keys (index_of st1))
                    /\ In (record c) (records_at (index_of st1) k)
                    /\ ((match_type c <> "prefix_match"
                         /\ k = v /\ name_similarity c = 1%Q)
                        \/ (match_type c = "prefix_match"
                            /\ PyStr.startswith k v = true
                            /\ String.length v < String.length k
                            /\ name_similarity c = len_ratio v k))).
Proof.
  intros E.
  rewrite (find_lifter_candidates_run w name hint meet max st st1 E).
  eexists. split; [reflexivity|].
  set (idx := index_of st1).
  destruct (search_loop_shape w idx hint meet max
              (_try_multiple_normalizations name) [])
    as [[R _]|(earlier & v & later & V & _ & H)]; [now left|].
  right. exists v. split; [rewrite V; apply in_or_app; right; now left|].
  destruct H as [(r & G & R)|[(recs & G & L & R)|(G & F & R)]];
    rewrite R; clear R; intros c I.
  - destruct I as [<-|[]]. exists v. split; [now apply (get_Some_key idx v [r])|].
    split; [rewrite (records_at_get idx v _ G); now left|].
    left. simpl. repeat split. discriminate.
  - apply In_ranked in I.
    apply In_exact_duplicates in I as (Ir & S & _ & T).
    exists v. split; [now apply (get_Some_key idx v recs)|].
    split; [now rewrite (records_at_get idx v _ G)|].
    left. rewrite T. repeat split; [discriminate|exact S].
  - apply In_ranked in I.
    apply In_prefix_matches in I as (k & Ik & Ir & S & _ & T).
    apply keys_starting_with_In in Ik as [Ik P].
    exists k. split; [exact Ik|]. split; [exact Ir|]. right.
    repeat split; auto.
    assert (L : String.length v <= String.length k) by now apply prefix_length.
    destruct (Nat.eq_dec (String.length v) (String.length k)) as [EQ|]; [|lia].
    exfalso. unfold PyStr.startswith in P. apply prefix_correct in P.
    rewrite EQ in P.
    assert (K : substring 0 (String.length k) k = k).
    { clear. induction k as [|c k IH]; simpl; [reflexivity|]. now rewrite IH. }
    rewrite K in P. subst k. apply get_None_keys in G. contradiction.
Qed.

(** ** Lookups without a weight-class hint *)

Lemma score_without_hint w r s hint meet :
  (hint <= 0)%Q -> (s <= 1)%Q ->
  (_calculate_comprehensive_match_score w r s hint meet <= 0.7)%Q.
Proof.
  intros H S. rewrite score_decomposition.
  assert (W : weight_class_term (weight_class r) hint = 0%Q).
  { unfold weight_class_term.
    apply Qltb_false in H. rewrite H, andb_false_r. reflexivity. }
  rewrite W.
  pose proof (recency_term_bounds w r).
  pose proof (completeness_bounds r).
  qlra.
Qed.

Lemma resolve_confidence candidates :
  Resp.confidence (resolve candidates)
  = match candidates with
    | [] => None
    | [c] =>
        if Qltb 0.9 (score c) then Some "high"
        else if Qltb 0.7 (score c) then Some "medium"
        else Some "low"
    | _ => Some "low"
    end.
Proof.
  destruct candidates as [|c [|d l]]; simpl; [reflexivity| |reflexivity].
  destruct (Qltb 0.9 (score c)); [reflexivity|].
  destruct (Qltb 0.7 (score c)); reflexivity.
Qed.

Lemma low_score_is_low_confidence (l : list Candidate) :
  (forall c, In c l -> (score c <= 0.7)%Q) ->
  Resp.confidence (resolve l) <> Some "medium"
  /\ Resp.confidence (resolve l) <> Some "high"
  /\ forall r, l <> [exact_candidate r].
Proof.
  intros S. rewrite resolve_confidence. split; [|split].
  - destruct l as [|c [|d l]]; try discriminate.
    assert (L : (score c <= 0.7)%Q) by (apply S; now left).
    assert (L7 : Qltb 0.7 (score c) = false) by now apply Qltb_false.
    assert (L9 : Qltb 0.9 (score c) = false) by (apply Qltb_false; lra).
    rewrite L9, L7. discriminate.
  - destruct l as [|c [|d l]]; try discriminate.
    assert (L : (score c <= 0.7)%Q) by (apply S; now left).
    assert (L7 : Qltb 0.7 (score c) = false) by now apply Qltb_false.
    assert (L9 : Qltb 0.9 (score c) = false) by (apply Qltb_false; lra).
    rewrite L9, L7. discriminate.
  - intros r ->.
    assert (L : (score (exact_candidate r) <= 0.7)%Q) by (apply S; now left).
    simpl in L. revert L. unfold Qle. simpl. lia.
Qed.

(** Without a positive hint no score is above 0.7, except that of the
    single record of an exact key. *)
Lemma search_without_hint w idx hint meet names :
  (hint <= 0)%Q ->
  Resp.confidence (resolve (search_loop w idx hint meet 10 names []))
  <> Some "medium"
  /\ (Resp.confidence (resolve (search_loop w idx hint meet 10 names []))
      = Some "high"
      <-> exists r, search_loop w idx hint meet 10 names [] = [exact_candidate r]).
Proof.
  intros H.
  assert (Low : forall l : list Candidate,
             (forall c, In c l -> (score c <= 0.7)%Q) ->
             Resp.confidence (resolve l) <> Some "medium"
             /\ (Resp.confidence (resolve l) = Some "high"
                 <-> exists r, l = [exact_candidate r])).
  { intros l S. destruct (low_score_is_low_confidence l S) as (M & Hi & X).
    split; [exact M|]. split; [contradiction|].
    intros [r R]. now apply X in R. }
  destruct (search_loop_shape w idx hint meet 10 names [])
    as [[R _]|(earlier & v & later & _ & _ & [(r & G & R)|[(recs & G & L & R)|(G & F & R)]])];
    rewrite R; clear R.
  - apply Low. intros c [].
  - rewrite resolve_confidence. simpl. split; [discriminate|].
    split; [eauto|reflexivity].
  - apply Low. intros c I. apply In_ranked in I.
    apply In_exact_duplicates in I as (_ & _ & -> & _).
    apply score_without_hint; [exact H|discriminate].
  - apply Low. intros c I. apply In_ranked in I.
    apply In_prefix_matches in I as (k & Ik & _ & _ & -> & _).
    apply keys_starting_with_In in Ik as [Ik P].
    apply score_without_hint; [exact H|].
    apply len_ratio_bounds.
    + now apply prefix_length.
    + now apply (prefix_key_not_empty idx v k).
Qed.

(** X14.  A lookup without a positive weight-class hint, which is how
    [get_lifter_stats] and the roster processor call it, never answers
    with confidence medium, and answers with confidence high exactly when
    the candidates are the single record of an exact key. *)
Theorem lookup_without_hint_is_never_medium w st st1 name hint meet :
  ensure_loaded w st = (inr tt, st1) ->
  (hint <= 0)%Q ->
  exists candidates response,
    find_lifter_candidates w name hint meet 10 st = (inr candidates, st1)
    /\ get_lifter_stats_robust w name hint meet st = (inr response, st1)
    /\ Resp.confidence response <> Some "medium"
    /\ (Resp.confidence response = Some "high"
        <-> exists r, candidates = [exact_candidate r]).
Proof.
  intros E H.
  rewrite (find_lifter_candidates_run w name hint meet 10 st st1 E).
  rewrite (get_lifter_stats_robust_run w name hint meet st st1 E).
  eexists. eexists. split; [reflexivity|]. split; [reflexivity|].
  now apply search_without_hint.
Qed.

(** ** Lookups that find nothing *)

Lemma ranked_nil (max : Z) (l : list Candidate) :
  (0 < max)%Z -> slice_to max (sort_by_score_desc ([] ++ l)) = [] -> l = [].
Proof.
  intros M E. simpl in E. unfold slice_to in E.
  destruct (Z.leb_spec 0 max); [|lia].
  destruct (sort_by_score_desc l) as [|c s] eqn:S.
  - destruct l as [|x l]; [reflexivity|].
    assert (I : In x (sort_by_score_desc (x :: l)))
      by (apply sort_by_score_desc_In; now left).
    rewrite S in I. destruct I.
  - destruct (Z.to_nat max) eqn:N; [lia|]. discriminate.
Qed.

Lemma search_loop_nil_iff w idx hint meet max names :
  (0 < max)%Z -> no_empty_entry idx ->
  (search_loop w idx hint meet max names [] = []
   <-> forall v, In v names -> no_hit idx v).
Proof. lib_free.
  intros M W.
  destruct (search_loop_shape w idx hint meet max names [])
    as [[R N]|(earlier & v & later & V & _ & H)]; [tauto|].
  assert (Iv : In v names) by (rewrite V; apply in_or_app; right; now left).
  destruct H as [(r & G & R)|[(recs & G & L & R)|(G & F & R)]]; rewrite R.
  - split; [discriminate|]. intros N. destruct (N v Iv). congruence.
  - split.
    + intros E. apply ranked_nil in E; [|exact M].
      destruct recs; [|discriminate].
      apply get_In in G. now apply W in G.
    + intros N. destruct (N v Iv). congruence.
  - split.
    + intros E. apply ranked_nil in E; [|exact M].
      destruct (keys_starting_with idx v) as [|k ks] eqn:K; [congruence|].
      assert (Ik : In k (keys_starting_with idx v)) by (rewrite K; now left).
      apply keys_starting_with_In in Ik as [Ik _].
      destruct (PyDict.get idx k) as [recs|] eqn:Gk;
        [|apply get_None_keys in Gk; contradiction].
      unfold prefix_matches in E. simpl in E.
      rewrite (records_at_get idx k recs Gk) in E.
      destruct recs; [|discriminate].
      apply get_In in Gk. now apply W in Gk.
    + intros N. destruct (N v Iv) as [_ P]. exfalso. apply F.
      unfold keys_starting_with. now apply filter_none.
Qed.

(** X15.  Over an index without empty entries, such as a built index,
    a lookup answers with [found] false exactly when no search name of
    the name is a key of the index or the beginning of one. *)
Theorem not_found_iff_no_search_name_hits w st st1 name hint meet :
  ensure_loaded w st = (inr tt, st1) ->
  no_empty_entry (index_of st1) ->
  exists response,
    get_lifter_stats_robust w name hint meet st = (inr response, st1)
    /\ (Resp.found response = false
        <-> forall v, In v (_try_multiple_normalizations name) ->
                      no_hit (index_of st1) v).
Proof.
  intros E W.
  rewrite (get_lifter_stats_robust_run w name hint meet st st1 E).
  eexists. split; [reflexivity|].
  rewrite <- (search_loop_nil_iff w (index_of st1) hint meet 10
                (_try_multiple_normalizations name)); [|lia|exact W].
  destruct (search_loop w (index_of st1) hint meet 10
              (_try_multiple_normalizations name) []) as [|c l].
  - simpl. tauto.
  - split; [|discriminate]. unfold resolve.
    destruct ((length (c :: l) =? 1) && Qltb 0.9 (score c));
      [discriminate|].
    destruct ((length (c :: l) =? 1) && Qltb 0.7 (score c)); discriminate.
Qed.

(** ** Batch lookup and single lookup *)

(** X16.  The batch lookup and the single lookup agree on exact hits:
    when the single lookup returns one candidate of match type exact, the
    batch holds the exact answer for the same record; and over an index
    without empty entries, a name that the batch marks found is never
    reported as not found by the single lookup. *)
Theorem batch_agrees_with_single_lookup w st st1 name hint meet :
  ensure_loaded w st = (inr tt, st1) ->
  exists candidates response results answer,
    find_lifter_candidates w name hint meet 10 st = (inr candidates, st1)
    /\ get_lifter_stats_robust w name hint meet st = (inr response, st1)
    /\ get_lifter_stats_batch w [name] st = (inr results, st1)
    /\ PyDict.get results name = Some answer
    /\ (forall c, candidates = [c] -> match_type c = "exact" ->
                  answer = exact_answer (record c))
    /\ (no_empty_entry (index_of st1) ->
        Resp.found answer = true -> Resp.found response = true).
Proof.
  intros E.
  rewrite (find_lifter_candidates_run w name hint meet 10 st st1 E).
  rewrite (get_lifter_stats_robust_run w name hint meet st st1 E).
  rewrite (get_lifter_stats_batch_run w [name] st st1 E).
  set (idx := index_of st1).
  eexists. eexists. eexists. exists (batch_answer idx name).
  split; [reflexivity|]. split; [reflexivity|]. split; [reflexivity|].
  split; [apply batch_loop_get; now left|].
  split.
  - intros c R T.
    destruct (search_loop_shape w idx hint meet 10
                (_try_multiple_normalizations name) [])
      as [[R' _]|(earlier & v & later & V & N & [(r & G & R')|[(recs & G & L & R')|(G & F & R')]])];
      rewrite R' in R.
    + discriminate.
    + injection R as <-. simpl. unfold batch_answer. rewrite V.
      clear V. induction earlier as [|u earlier IH]; simpl.
      * now rewrite G.
      * destruct (N u (or_introl eq_refl)) as [GN _]. rewrite GN.
        apply IH. intros x I. apply N. now right.
    + assert (I : In c (slice_to 10 (sort_by_score_desc
                                      ([] ++ exact_duplicates w hint meet recs))))
        by (rewrite R; now left).
      apply In_ranked, In_exact_duplicates in I as (_ & _ & _ & T').
      congruence.
    + assert (I : In c (slice_to 10 (sort_by_score_desc
                                      ([] ++ prefix_matches w idx v hint meet
                                                (keys_starting_with idx v)))))
        by (rewrite R; now left).
      apply In_ranked, In_prefix_matches in I as (k & _ & _ & _ & _ & T').
      congruence.
  - intros W Fd.
    destruct (Resp.found (resolve (search_loop w idx hint meet 10
                (_try_multiple_normalizations name) []))) eqn:RF;
      [reflexivity|]. exfalso.
    assert (Nil : search_loop w idx hint meet 10
                    (_try_multiple_normalizations name) [] = []).
    { destruct (search_loop w idx hint meet 10
                  (_try_multiple_normalizations name) []) as [|c l];
        [reflexivity|]. exfalso. revert RF. unfold resolve.
      destruct ((length (c :: l) =? 1) && Qltb 0.9 (score c));
        [discriminate|].
      destruct ((length (c :: l) =? 1) && Qltb 0.7 (score c)); discriminate. }
    assert (P10 : (0 < 10)%Z) by lia.
    pose proof (proj1 (search_loop_nil_iff w idx hint meet 10
                         (_try_multiple_normalizations name) P10 W) Nil)
      as Miss.
    clear Nil. rename Miss into Nil.
    revert Fd. unfold batch_answer.
    assert (B : batch_search idx (_try_multiple_normalizations name) = None).
    { revert Nil. generalize (_try_multiple_normalizations name).
      intros l. induction l as [|u l IH]; intros Nil; simpl; [reflexivity|].
      destruct (Nil u (or_introl eq_refl)) as [GN _]. rewrite GN.
      apply IH. intros x I. apply Nil. now right. }
    rewrite B. simpl. discriminate.
Qed.


(** ** Search endpoint *)

Lemma startswith_str_in (s p : string) :
  PyStr.startswith s p = true -> str_in p s = true.
Proof. lib_free.
  intros H. destruct s; cbn [str_in]; rewrite H; reflexivity.
Qed.

Lemma str_in_empty (s : string) : str_in "" s = true.
Proof. lib_free.
  destruct s; reflexivity.
Qed.

Lemma matching_names_filter (key : string) (keys : list string) :
  filter (fun indexed_name =>
            str_in key indexed_name || PyStr.startswith indexed_name key) keys
  = filter (str_in key) keys.
Proof. lib_free.
  apply filter_ext. intros k.
  destruct (str_in key k) eqn:I; [reflexivity|]. simpl.
  destruct (PyStr.startswith k key) eqn:P; [|reflexivity].
  apply startswith_str_in in P. congruence.
Qed.

Lemma insert_by_dotscore_In x l y :
  In y (insert_by_dotscore x l) <-> y = x \/ In y l.
Proof. lib_free.
  induction l as [|d l IH]; simpl; [intuition|].
  destruct (Qltb (Lifter.dotscore x) (Lifter.dotscore d)); simpl;
    [rewrite IH|]; intuition.
Qed.

Lemma insert_by_dotscore_sorted x l :
  StronglySorted by_dotscore_desc l ->
  StronglySorted by_dotscore_desc (insert_by_dotscore x l).
Proof. lib_free.
  induction l as [|d l IH]; simpl; intros S.
  - repeat constructor.
  - inversion S as [|? ? S' F]; subst. rewrite Forall_forall in F.
    destruct (Qltb (Lifter.dotscore x) (Lifter.dotscore d)) eqn:E.
    + apply Qltb_true in E. constructor; [auto|].
      apply Forall_forall. intros y I.
      apply insert_by_dotscore_In in I as [->|I]; [|auto].
      unfold by_dotscore_desc. now apply Qlt_le_weak.
    + apply Qltb_false in E. constructor; [exact S|].
      constructor; [exact E|].
      apply Forall_forall. intros y I. unfold by_dotscore_desc in *.
      eapply Qle_trans; [apply F, I|exact E].
Qed.

Lemma sort_by_dotscore_desc_sorted l :
  StronglySorted by_dotscore_desc (sort_by_dotscore_desc l).
Proof. lib_free.
  induction l as [|c l IH]; simpl; [constructor|].
  now apply insert_by_dotscore_sorted.
Qed.

Lemma insert_by_dotscore_perm x l :
  Permutation (insert_by_dotscore x l) (x :: l).
Proof. lib_free.
  induction l as [|d l IH]; simpl; [reflexivity|].
  destruct (Qltb (Lifter.dotscore x) (Lifter.dotscore d)); [|reflexivity].
  rewrite IH. apply perm_swap.
Qed.

Lemma sort_by_dotscore_desc_perm l : Permutation (sort_by_dotscore_desc l) l.
Proof. lib_free.
  induction l as [|c l IH]; simpl; [reflexivity|].
  rewrite insert_by_dotscore_perm. now constructor.
Qed.

Lemma sort_by_dotscore_desc_length l :
  length (sort_by_dotscore_desc l) = length l.
Proof. lib_free.
  apply Permutation_length, sort_by_dotscore_desc_perm.
Qed.

Lemma skipn_sorted {A} (R : A -> A -> Prop) n (l : list A) :
  StronglySorted R l -> StronglySorted R (skipn n l).
Proof. lib_free.
  revert l. induction n as [|n IH]; intros l S; simpl; [exact S|].
  destruct l as [|x l]; [constructor|].
  inversion S; subst. auto.
Qed.

Lemma In_skipn {A} (n : nat) (l : list A) x : In x (skipn n l) -> In x l.
Proof. lib_free.
  intros I. rewrite <- (firstn_skipn n l). apply in_or_app. now right.
Qed.

Lemma slice_In {A} (a b : Z) (l : list A) x : In x (slice a b l) -> In x l.
Proof. lib_free.
  unfold slice. intros I. now apply In_firstn, In_skipn in I.
Qed.

Lemma slice_sorted {A} (R : A -> A -> Prop) (a b : Z) (l : list A) :
  StronglySorted R l -> StronglySorted R (slice a b l).
Proof. lib_free.
  intros S. unfold slice. now apply firstn_sorted, skipn_sorted.
Qed.

Lemma slice_length {A} (a b : Z) (l : list A) :
  length (slice a b l)
  = Nat.min (slice_bound (length l) b - slice_bound (length l) a)
            (length l - slice_bound (length l) a).
Proof. lib_free.
  unfold slice. now rewrite length_firstn, length_skipn.
Qed.

(** A slice is never longer than the distance of its bounds, whatever
    their signs, as long as they are in order. *)
Lemma slice_length_le {A} (a n : Z) (l : list A) :
  (0 <= n)%Z -> length (slice a (a + n) l) <= Z.to_nat n.
Proof. lib_free.
  intros N. rewrite slice_length. unfold slice_bound.
  destruct (Z.ltb_spec a 0), (Z.ltb_spec (a + n) 0); lia.
Qed.

Lemma slice_nonneg {A} (a n : Z) (l : list A) :
  (0 <= a)%Z -> (0 <= n)%Z ->
  slice a (a + n) l = firstn (Z.to_nat n) (skipn (Z.to_nat a) l).
Proof. lib_free.
  intros A0 N. unfold slice, slice_bound.
  destruct (Z.ltb_spec a 0), (Z.ltb_spec (a + n) 0); try lia.
  destruct (Nat.le_gt_cases (length l) (Z.to_nat a)) as [L|L].
  - rewrite !skipn_all2 by lia. now rewrite !firstn_nil.
  - replace (Nat.min (length l) (Z.to_nat a)) with (Z.to_nat a) by lia.
    destruct (Nat.le_gt_cases (length l) (Z.to_nat (a + n))) as [L2|L2].
    + replace (Nat.min (length l) (Z.to_nat (a + n))) with (length l) by lia.
      rewrite !firstn_all2; [reflexivity| |]; rewrite length_skipn; lia.
    + f_equal. lia.
Qed.

(** What [search_lifters] answers for a name that passes its checks. *)
Lemma search_lifters_run w dm name limit offset idx :
  _name_index dm = Some idx ->
  2 <= String.length (PyStr.strip name) ->
  search_lifters w (Some dm) name limit offset
  = inr {| Search.lifters :=
             slice offset (offset + Z.min limit 100)
               (sort_by_dotscore_desc
                  (map lifter_of (records_matching idx (search_key name))));
           Search.total_count :=
             length (records_matching idx (search_key name));
           Search.search_term := name;
           Search.limit := limit;
           Search.offset := offset;
           Search.search_timestamp := clock w |}.
Proof.
  intros I L. unfold search_lifters. rewrite I.
  assert (T : PyStr.truthy name = true).
  { destruct name; [simpl in L; lia|reflexivity]. }
  rewrite T. simpl.
  destruct (Nat.ltb_spec (String.length (PyStr.strip name)) 2) as [B|_]; [lia|].
  rewrite matching_names_filter.
  rewrite sort_by_dotscore_desc_length.
  unfold records_matching, search_key.
  assert (F : forall ks,
             flat_map (fun indexed_name => map lifter_of (records_at idx indexed_name)) ks
             = map lifter_of (flat_map (records_at idx) ks)).
  { induction ks as [|k ks IH]; simpl; [reflexivity|].
    now rewrite map_app, IH. }
  rewrite F, length_map. reflexivity.
Qed.

Lemma search_lifters_inr w dm name limit offset r :
  search_lifters w (Some dm) name limit offset = inr r ->
  exists idx, _name_index dm = Some idx
              /\ 2 <= String.length (PyStr.strip name).
Proof.
  unfold search_lifters.
  destruct (PyStr.truthy name); simpl; [|discriminate].
  destruct (Nat.ltb_spec (String.length (PyStr.strip name)) 2) as [B|B];
    [discriminate|].
  destruct (_name_index dm) as [idx|]; [|discriminate].
  intros _. exists idx. auto.
Qed.


(** X17.  A search that is answered lists records of the index only: each
    lifter of the page comes from a record filed under a key that contains
    the search key of the name, the count is the number of all such
    records, and the page is in descending order of dot score and never
    longer than the count.  The test [startswith] of the source adds no
    key. *)
Theorem search_lists_the_records_of_matching_keys w dm name limit offset r :
  search_lifters w (Some dm) name limit offset = inr r ->
  exists idx,
    _name_index dm = Some idx
    /\ Search.total_count r = length (records_matching idx (search_key name))
    /\ (forall lifter, In lifter (Search.lifters r) ->
          exists k record,
            In k (PyDict.keys idx)
            /\ str_in (search_key name) k = true
            /\ In record (records_at idx k)
            /\ lifter = lifter_of record)
    /\ StronglySorted by_dotscore_desc (Search.lifters r)
    /\ length (Search.lifters r) <= Search.total_count r.
Proof.
  intros E. destruct (search_lifters_inr _ _ _ _ _ _ E) as (idx & I & L).
  rewrite (search_lifters_run w dm name limit offset idx I L) in E.
  injection E as <-. simpl. exists idx. split; [exact I|].
  split; [reflexivity|]. split; [|split].
  - intros lifter H. apply slice_In in H.
    apply (Permutation_in _ (sort_by_dotscore_desc_perm _)) in H.
    apply in_map_iff in H as (record & <- & H).
    unfold records_matching in H.
    apply in_flat_map in H as (k & K & H).
    apply filter_In in K as [K S]. exists k, record. auto.
  - apply slice_sorted, sort_by_dotscore_desc_sorted.
  - rewrite slice_length, sort_by_dotscore_desc_length, length_map. lia.
Qed.

(** X18.  For a limit that is not negative the page holds at most
    [min(limit, 100)] lifters, whatever the offset is, also a negative
    one; and the page at offset 0 holds every matching record, each as
    often as the index has it, when the count is within that bound. *)
Theorem search_page_is_capped w dm name limit offset r :
  search_lifters w (Some dm) name limit offset = inr r ->
  (0 <= limit)%Z ->
  length (Search.lifters r) <= Z.to_nat (Z.min limit 100)
  /\ length (Search.lifters r) <= 100
  /\ (offset = 0%Z ->
      (Z.of_nat (Search.total_count r) <= Z.min limit 100)%Z ->
      forall idx, _name_index dm = Some idx ->
        Permutation (Search.lifters r)
          (map lifter_of (records_matching idx (search_key name)))).
Proof.
  intros E N. destruct (search_lifters_inr _ _ _ _ _ _ E) as (idx & I & L).
  rewrite (search_lifters_run w dm name limit offset idx I L) in E.
  injection E as <-. simpl.
  assert (C : length (slice offset (offset + Z.min limit 100)
                        (sort_by_dotscore_desc
                           (map lifter_of (records_matching idx (search_key name)))))
              <= Z.to_nat (Z.min limit 100)) by (apply slice_length_le; lia).
  split; [exact C|]. split; [lia|].
  intros -> T idx' I'. rewrite I in I'. injection I' as <-.
  rewrite (slice_nonneg 0 (Z.min limit 100)) by lia. simpl.
  rewrite firstn_all2.
  - apply sort_by_dotscore_desc_perm.
  - rewrite sort_by_dotscore_desc_length, length_map. lia.
Qed.

(** X19.  Pages follow one another: for offsets and limits that are not
    negative and a joint limit of at most 100, the page of [limit] lifters
    at [offset] followed by the page of [limit'] lifters at
    [offset + limit] is the page of [limit + limit'] lifters at
    [offset]. *)
Theorem search_pages_are_consecutive w dm name limit limit' offset r1 r2 r12 :
  (0 <= offset)%Z -> (0 <= limit)%Z -> (0 <= limit')%Z ->
  (limit + limit' <= 100)%Z ->
  search_lifters w (Some dm) name limit offset = inr r1 ->
  search_lifters w (Some dm) name limit' (offset + limit) = inr r2 ->
  search_lifters w (Some dm) name (limit + limit') offset = inr r12 ->
  Search.lifters r12 = Search.lifters r1 ++ Search.lifters r2.
Proof.
  intros O N N' C E1 E2 E12.
  destruct (search_lifters_inr _ _ _ _ _ _ E1) as (idx & I & L).
  rewrite (search_lifters_run w dm name _ _ idx I L) in E1.
  rewrite (search_lifters_run w dm name _ _ idx I L) in E2.
  rewrite (search_lifters_run w dm name _ _ idx I L) in E12.
  injection E1 as <-. injection E2 as <-. injection E12 as <-. simpl.
  rewrite !Z.min_l by lia.
  rewrite !slice_nonneg by lia.
  generalize (sort_by_dotscore_desc
                (map lifter_of (records_matching idx (search_key name)))).
  intros l.
  replace (Z.to_nat (offset + limit)) with (Z.to_nat limit + Z.to_nat offset) by lia.
  rewrite <- skipn_skipn.
  replace (Z.to_nat (limit + limit')) with (Z.to_nat limit + Z.to_nat limit') by lia.
  generalize (skipn (Z.to_nat offset) l). intros m.
  generalize (Z.to_nat limit'). intros b.
  generalize (Z.to_nat limit). intros a. clear.
  revert m. induction a as [|a IH]; intros m; simpl; [reflexivity|].
  destruct m as [|x m]; simpl.
  - now rewrite firstn_nil.
  - now rewrite IH.
Qed.

(** X20.  A negative limit is not capped.  With an offset that is not
    negative and smaller than the size of the limit, the page runs from
    the offset to that many lifters before the end of the listing, so
    limit -1 at offset 0 returns all matching lifters but the last one;
    with a larger offset the page is empty. *)
Theorem search_with_negative_limit w dm name limit offset r :
  search_lifters w (Some dm) name limit offset = inr r ->
  (limit < 0)%Z -> (0 <= offset)%Z ->
  ((offset + limit < 0)%Z ->
   length (Search.lifters r)
   = Z.to_nat (Z.of_nat (Search.total_count r) + (offset + limit))
     - Z.to_nat offset)
  /\ ((0 <= offset + limit)%Z -> Search.lifters r = []).
Proof.
  intros E N O. destruct (search_lifters_inr _ _ _ _ _ _ E) as (idx & I & L).
  rewrite (search_lifters_run w dm name limit offset idx I L) in E.
  injection E as <-. simpl. rewrite Z.min_l by lia.
  set (l := sort_by_dotscore_desc
              (map lifter_of (records_matching idx (search_key name)))).
  assert (Len : length l = length (records_matching idx (search_key name))).
  { unfold l. now rewrite sort_by_dotscore_desc_length, length_map. }
  rewrite <- Len. split.
  - intros B. rewrite slice_length. unfold slice_bound.
    destruct (Z.ltb_spec offset 0), (Z.ltb_spec (offset + limit) 0); lia.
  - intros B. apply length_zero_iff_nil. rewrite slice_length.
    unfold slice_bound.
    destruct (Z.ltb_spec offset 0), (Z.ltb_spec (offset + limit) 0); lia.
Qed.

Lemma startup_success w d st :
  startup w d = (inr tt, st) ->
  exists st1, load_data w st1 = (inr tt, st).
Proof.
  unfold startup, bind.
  destruct (update_if_needed w (new_manager d)) as [[e|b] st1];
    [discriminate|].
  intros E. now exists st1.
Qed.

(** X21.  Once the start of the API has succeeded, the search is never
    answered with status 503: a name with fewer than two characters after
    stripping is rejected with status 400, and every other name is
    answered, with the name, limit and offset of the request. *)
Theorem search_after_startup w d st w2 name limit offset :
  startup w d = (inr tt, st) ->
  (String.length (PyStr.strip name) < 2 ->
   search_lifters w2 (Some st) name limit offset
   = inl (Http 400 "Name must be at least 2 characters long"))
  /\ (2 <= String.length (PyStr.strip name) ->
      exists r,
        search_lifters w2 (Some st) name limit offset = inr r
        /\ Search.search_term r = name
        /\ Search.limit r = limit
        /\ Search.offset r = offset).
Proof.
  intros S. destruct (startup_success w d st S) as (st1 & Ld).
  destruct (load_data_success w st1 st Ld) as (idx & I).
  split.
  - intros B. unfold search_lifters.
    destruct (Nat.ltb_spec (String.length (PyStr.strip name)) 2) as [_|C];
      [|lia].
    now rewrite orb_true_r.
  - intros L. rewrite (search_lifters_run w2 st name limit offset idx I L).
    eexists. split; [reflexivity|]. simpl. auto.
Qed.

(** X22.  A name whose search key is empty, which is a name of commas
    and spaces inside its surrounding white space, matches every key: the
    count of the answer is the number of records of the whole index. *)
Theorem search_for_punctuation_counts_the_whole_index w dm name limit offset r :
  search_lifters w (Some dm) name limit offset = inr r ->
  search_key name = "" ->
  forall idx, _name_index dm = Some idx ->
    Search.total_count r = length (flat_map (records_at idx) (PyDict.keys idx)).
Proof.
  intros E K idx I.
  destruct (search_lifters_inr _ _ _ _ _ _ E) as (idx' & I' & L).
  rewrite I in I'. injection I' as <-.
  rewrite (search_lifters_run w dm name limit offset idx I L) in E.
  injection E as <-. simpl. unfold records_matching. rewrite K.
  f_equal. f_equal.
  induction (PyDict.keys idx) as [|k ks IH]; simpl; [reflexivity|].
  rewrite str_in_empty. now rewrite IH.
Qed.


(** ** Roster processor: regular expressions *)

Lemma many_sound {R} (p : ascii -> bool) (s : string) :
  forall (k : string -> string -> option R) r,
  many p s k = Some r ->
  exists taken rest,
    s = (taken ++ rest)%string /\ all_chars p taken = true
    /\ k taken rest = Some r.
Proof.
  induction s as [|c s IH]; intros k r; simpl.
  - intros E. exists "", "". auto.
  - destruct (p c) eqn:P.
    + destruct (many p s (fun taken rest => k (String c taken) rest))
        as [r'|] eqn:M.
      * intros E. injection E as ->.
        destruct (IH _ _ M) as (taken & rest & -> & A & K).
        exists (String c taken), rest. simpl. rewrite P, A. auto.
      * intros E. exists "", (String c s). auto.
    + intros E. exists "", (String c s). auto.
Qed.

(** A repetition takes a whole run of its class when the text after the
    run does not go on with the class and the rest of the pattern
    matches there. *)
Lemma many_run {R} (p : ascii -> bool) (run s : string) :
  forall (k : string -> string -> option R) r,
  all_chars p run = true -> begins_with p s = false ->
  k run s = Some r ->
  many p (run ++ s) k = Some r.
Proof.
  induction run as [|c run IH]; intros k r A B K; simpl.
  - destruct s as [|d s]; simpl; [exact K|].
    simpl in B. now rewrite B.
  - simpl in A. apply andb_true_iff in A as [P A]. rewrite P.
    now rewrite (IH (fun taken rest => k (String c taken) rest) r A B K).
Qed.

Lemma concat_cons (m : string) (texts : list string) :
  String.concat "" (m :: texts) = (m ++ String.concat "" texts)%string.
Proof.
  destruct texts as [|t texts]; simpl; [|reflexivity].
  induction m as [|c m IH]; simpl; [reflexivity|]. now rewrite <- IH.
Qed.

Lemma append_assoc (a b c : string) :
  ((a ++ b) ++ c = a ++ (b ++ c))%string.
Proof.
  induction a as [|x a IH]; simpl; [reflexivity|]. now rewrite IH.
Qed.

Lemma append_nil_r (a : string) : (a ++ "")%string = a.
Proof.
  induction a as [|x a IH]; simpl; [reflexivity|]. now rewrite IH.
Qed.

Lemma append_length (a b : string) :
  String.length (a ++ b) = String.length a + String.length b.
Proof.
  induction a as [|x a IH]; simpl; [reflexivity|]. now rewrite IH.
Qed.

(** A match splits the text into what each item took and the rest. *)
Lemma re_match_sound (pattern : list Item) :
  forall s texts rest,
  re_match pattern s = Some (texts, rest) ->
  s = (String.concat "" texts ++ rest)%string
  /\ Forall2 takes pattern texts.
Proof.
  induction pattern as [|item pattern IH]; intros s texts rest.
  - simpl. intros E. injection E as <- <-. split; [reflexivity|constructor].
  - assert (Step : forall m s',
               taking m (re_match pattern s') = Some (texts, rest) ->
               takes item m ->
               (m ++ s')%string = (String.concat "" texts ++ rest)%string
               /\ Forall2 takes (item :: pattern) texts).
    { intros m s' E T.
      destruct (re_match pattern s') as [[texts' rest']|] eqn:M;
        [|discriminate].
      simpl in E. injection E as <- <-.
      destruct (IH _ _ _ M) as [-> F].
      rewrite concat_cons, append_assoc. split; [reflexivity|].
      now constructor. }
    destruct item as [p|p|p]; simpl.
    + destruct s as [|c s]; [discriminate|].
      destruct (p c) eqn:P; [|discriminate].
      intros E. apply (Step (String c "") s E). exists c. auto.
    + destruct s as [|c s].
      * intros E. apply (Step "" "" E). now left.
      * destruct (p c) eqn:P.
        -- destruct (taking (String c "") (re_match pattern s))
             as [[t r]|] eqn:W.
           ++ intros E. injection E as -> ->.
              apply (Step (String c "") s W). right. exists c. auto.
           ++ intros E. apply (Step "" (String c s) E). now left.
        -- intros E. apply (Step "" (String c s) E). now left.
    + intros E. apply many_sound in E as (taken & rest' & -> & A & K).
      apply (Step taken rest' K). exact A.
Qed.

(** A pattern that starts with a digit has no match that starts in a text
    without digits. *)
Lemma re_search_skips (pattern : list Item) (pre s : string) :
  all_chars (fun c => negb (is_digit c)) pre = true ->
  re_search (One is_digit :: pattern) (pre ++ s)
  = re_search (One is_digit :: pattern) s.
Proof.
  intros A. induction pre as [|c pre IH]; [reflexivity|].
  simpl in A. apply andb_true_iff in A as [D A].
  apply negb_true_iff in D.
  change (re_search (One is_digit :: pattern) (String c pre ++ s))
    with (match re_match (One is_digit :: pattern) (String c (pre ++ s)) with
          | Some r => Some r
          | None => re_search (One is_digit :: pattern) (pre ++ s)
          end).
  simpl re_match. rewrite D. now apply IH.
Qed.

Lemma re_search_sound (pattern : list Item) (s : string) :
  forall texts rest,
  re_search pattern s = Some (texts, rest) ->
  exists before,
    s = (before ++ String.concat "" texts ++ rest)%string
    /\ Forall2 takes pattern texts.
Proof.
  induction s as [|c s IH]; intros texts rest; simpl.
  - destruct (re_match pattern "") as [[t r]|] eqn:M; [|discriminate].
    intros E. injection E as -> ->.
    apply re_match_sound in M as [M F]. exists "". auto.
  - destruct (re_match pattern (String c s)) as [[t r]|] eqn:M.
    + intros E. injection E as -> ->.
      apply re_match_sound in M as [M F]. exists "". auto.
    + intros E. destruct (IH _ _ E) as (before & -> & F).
      exists (String c before). auto.
Qed.

Lemma isspace_not_digit (c : ascii) :
  PyStr.isspace c = true -> is_digit c = false.
Proof.
  destruct c as [[] [] [] [] [] [] [] []]; vm_compute; auto.
Qed.

Lemma isspace_not_dash (c : ascii) :
  PyStr.isspace c = true -> is_dash c = false.
Proof.
  destruct c as [[] [] [] [] [] [] [] []]; vm_compute; auto.
Qed.

Lemma digit_not_dash (c : ascii) : is_digit c = true -> is_dash c = false.
Proof.
  destruct c as [[] [] [] [] [] [] [] []]; vm_compute; auto.
Qed.

Lemma lstrip_length (p : ascii -> bool) (s : string) :
  String.length (PyStr.lstrip_with p s) <= String.length s.
Proof.
  induction s as [|c s IH]; simpl; [lia|].
  destruct (p c); simpl; lia.
Qed.

Lemma rstrip_length (p : ascii -> bool) (s : string) :
  String.length (PyStr.rstrip_with p s) <= String.length s.
Proof.
  induction s as [|c s IH]; simpl; [lia|].
  destruct (PyStr.rstrip_with p s) as [|e r]; simpl in *.
  - destruct (p c); simpl; lia.
  - lia.
Qed.

(** A text that stripping leaves alone does not begin with white space. *)
Lemma stripped_begins (s : string) :
  PyStr.strip s = s -> begins_with PyStr.isspace s = false.
Proof.
  destruct s as [|c s]; [reflexivity|]. simpl. intros E.
  destruct (PyStr.isspace c) eqn:W; [|reflexivity]. exfalso.
  assert (L : String.length (PyStr.strip (String c s)) <= String.length s).
  { unfold PyStr.strip, PyStr.strip_with. simpl. rewrite W.
    etransitivity; [apply rstrip_length|apply lstrip_length]. }
  rewrite E in L. simpl in L. lia.
Qed.

Lemma begins_with_append (p : ascii -> bool) (a b : string) :
  begins_with p (a ++ b)
  = match a with EmptyString => begins_with p b | _ => begins_with p a end.
Proof. destruct a; reflexivity. Qed.

(** After a run of one class comes a text that does not begin with a
    second class, when the two classes exclude each other. *)
Lemma run_then (p q : ascii -> bool) (run s : string) :
  (forall c, p c = true -> q c = false) ->
  all_chars p run = true -> begins_with q s = false ->
  begins_with q (run ++ s) = false.
Proof.
  intros X A B. destruct run as [|c run]; [exact B|].
  simpl in *. apply andb_true_iff in A as [P _]. now apply X.
Qed.

Lemma contains_append (c : ascii) (a b : string) :
  PyStr.contains c (a ++ b) = PyStr.contains c a || PyStr.contains c b.
Proof.
  induction a as [|x a IH]; simpl; [reflexivity|].
  now rewrite IH, orb_assoc.
Qed.

(** What the pattern of a numbered name takes from a number, a hyphen
    and a name on one line. *)
Lemma numbered_name_match (number ws1 ws2 name : string) :
  number <> "" ->
  all_chars is_digit number = true ->
  all_chars PyStr.isspace ws1 = true ->
  all_chars PyStr.isspace ws2 = true ->
  all_chars is_dot name = true ->
  begins_with PyStr.isspace name = false ->
  name <> "" ->
  exists texts,
    re_match numbered_name_pattern (number ++ ws1 ++ "-" ++ ws2 ++ name)
    = Some (texts, "")
    /\ group_1 texts = name.
Proof.
  intros N D W1 W2 L B E.
  destruct number as [|d number]; [congruence|].
  destruct name as [|n0 name]; [congruence|].
  simpl in D. apply andb_true_iff in D as [D0 D].
  simpl in L. apply andb_true_iff in L as [L0 L].
  simpl in B.
  exists [String d ""; number; ws1; "-"; ws2; String n0 ""; name].
  split; [|unfold group_1; simpl; reflexivity].
  unfold numbered_name_pattern.
  change ((String d number ++ ws1 ++ "-" ++ ws2 ++ String n0 name)%string)
    with (String d (number ++ ws1 ++ "-" ++ ws2 ++ String n0 name)%string).
  cbn [re_match]. rewrite D0.
  rewrite (many_run is_digit number _ _
             ([number; ws1; "-"; ws2; String n0 ""; name], "")); 
    [reflexivity|exact D| |].
  - apply (run_then PyStr.isspace is_digit); 
      [exact isspace_not_digit|exact W1|reflexivity].
  - rewrite (many_run PyStr.isspace ws1 _ _
               ([ws1; "-"; ws2; String n0 ""; name], ""));
      [reflexivity|exact W1|reflexivity|].
    change (("-" ++ ws2 ++ String n0 name)%string)
      with (String "-" (ws2 ++ String n0 name)%string).
    cbn [re_match]. change (is_dash "-") with true. cbv iota.
    rewrite (many_run PyStr.isspace ws2 _ _
               ([ws2; String n0 ""; name], ""));
      [reflexivity|exact W2|exact B|].
    cbn [re_match]. rewrite L0.
    rewrite <- (append_nil_r name) at 1.
    rewrite (many_run is_dot name "" _ ([name], ""));
      [reflexivity|exact L|reflexivity|reflexivity].
Qed.

Lemma re_search_match (pattern : list Item) (s : string) r :
  re_match pattern s = Some r -> re_search pattern s = Some r.
Proof.
  intros M. destruct s; simpl; now rewrite M.
Qed.

(** X23.  The documented format is read back: from a text made of a
    number, optional white space, a hyphen, optional white space and a
    name, the clean name is the name, when the name is on one line, has
    no white space around it and has at least two characters.  Whatever
    stands in front of the number and holds no digit is dropped. *)
Theorem numbered_name_is_extracted (pre number ws1 ws2 name : string) :
  all_chars (fun c => negb (is_digit c)) pre = true ->
  number <> "" ->
  all_chars is_digit number = true ->
  all_chars PyStr.isspace ws1 = true ->
  all_chars PyStr.isspace ws2 = true ->
  all_chars is_dot name = true ->
  PyStr.strip name = name ->
  2 <= String.length name ->
  _extract_clean_name (pre ++ number ++ ws1 ++ "-" ++ ws2 ++ name)
  = Some name.
Proof.
  intros P N D W1 W2 L S Len.
  assert (E : name <> "") by (destruct name; [simpl in Len; lia|discriminate]).
  destruct (numbered_name_match number ws1 ws2 name N D W1 W2 L
              (stripped_begins name S) E) as (texts & M & G).
  unfold _extract_clean_name, numbered_name_pattern.
  rewrite re_search_skips by exact P.
  fold numbered_name_pattern.
  rewrite (re_search_match _ _ _ M), G, S.
  destruct (Nat.leb_spec 2 (String.length name)); [reflexivity|lia].
Qed.

Lemma all_chars_contains (p : ascii -> bool) (c : ascii) (s : string) :
  (forall d, p d = true -> Ascii.eqb d c = false) ->
  all_chars p s = true -> PyStr.contains c s = false.
Proof.
  intros X. induction s as [|d s IH]; simpl; [reflexivity|].
  intros A. apply andb_true_iff in A as [P A].
  now rewrite (X d P), IH.
Qed.

(** The pattern of a numbered name only matches in a text with a
    hyphen. *)
Lemma numbered_name_needs_hyphen (s : string) r :
  re_search numbered_name_pattern s = Some r ->
  PyStr.contains "-" s = true.
Proof.
  destruct r as [texts rest]. intros E.
  apply re_search_sound in E as (before & -> & F).
  unfold numbered_name_pattern in F.
  inversion F as [|? t1 ? l1 _ F1]; subst.
  inversion F1 as [|? t2 ? l2 _ F2]; subst.
  inversion F2 as [|? t3 ? l3 _ F3]; subst.
  inversion F3 as [|? t4 ? l4 T4 F4]; subst.
  destruct T4 as (c & -> & C). unfold is_dash in C.
  apply Ascii.eqb_eq in C. subst c.
  rewrite !contains_append, !concat_cons, !contains_append. simpl.
  now rewrite !orb_true_r.
Qed.

(** What the pattern of a number prefix takes from a number and a name
    without a hyphen in between. *)
Lemma number_prefix_match (number ws name : string) :
  number <> "" ->
  all_chars is_digit number = true ->
  all_chars PyStr.isspace ws = true ->
  begins_with is_digit name = false ->
  begins_with is_dash name = false ->
  begins_with PyStr.isspace name = false ->
  re_sub_at_start number_prefix_pattern (number ++ ws ++ name) = name.
Proof.
  intros N D W B1 B2 B3.
  destruct number as [|d number]; [congruence|].
  simpl in D. apply andb_true_iff in D as [D0 D].
  unfold re_sub_at_start, number_prefix_pattern.
  change ((String d number ++ ws ++ name)%string)
    with (String d (number ++ ws ++ name)%string).
  cbn [re_match]. rewrite D0.
  rewrite (many_run is_digit number _ _ ([number; ws; ""; ""], name));
    [reflexivity|exact D| |].
  - apply (run_then PyStr.isspace is_digit);
      [exact isspace_not_digit|exact W|exact B1].
  - rewrite (many_run PyStr.isspace ws _ _ ([ws; ""; ""], name));
      [reflexivity|exact W|exact B3|].
    destruct name as [|n0 name]; [reflexivity|].
    simpl in B2, B3. rewrite B2. simpl. now rewrite B3.
Qed.

(** X24.  Without a dash there is no numbered name, and the number in
    front is dropped: from a number, optional white space and a name
    written in ASCII that holds no hyphen and does not begin with a
    digit, the clean name is the name, when it has no white space around
    it and has at least two characters.  A name in ASCII holds no en
    dash, the other character that the pattern takes for a dash. *)
Theorem number_without_hyphen_is_dropped (number ws name : string) :
  number <> "" ->
  all_chars is_digit number = true ->
  all_chars PyStr.isspace ws = true ->
  all_chars is_ascii name = true ->
  PyStr.contains "-" name = false ->
  begins_with is_digit name = false ->
  PyStr.strip name = name ->
  2 <= String.length name ->
  _extract_clean_name (number ++ ws ++ name) = Some name.
Proof.
  intros N D W _ H B S Len.
  assert (NoH : PyStr.contains "-" (number ++ ws ++ name) = false).
  { rewrite !contains_append, H.
    rewrite (all_chars_contains is_digit "-" number digit_not_dash D).
    now rewrite (all_chars_contains PyStr.isspace "-" ws isspace_not_dash W). }
  unfold _extract_clean_name.
  destruct (re_search numbered_name_pattern (number ++ ws ++ name))
    as [r|] eqn:R.
  - apply numbered_name_needs_hyphen in R. congruence.
  - rewrite number_prefix_match; auto.
    + rewrite S.
      destruct (Nat.leb_spec 2 (String.length name)); [reflexivity|lia].
    + destruct name as [|c name]; [reflexivity|]. simpl in *.
      apply orb_false_iff in H as [H _]. exact H.
    + now apply stripped_begins.
Qed.

(** ** Roster processor: the roster *)

Lemma begins_lstrip (p : ascii -> bool) (s : string) :
  begins_with p (PyStr.lstrip_with p s) = false.
Proof.
  induction s as [|c s IH]; simpl; [reflexivity|].
  destruct (p c) eqn:P; [exact IH|]. simpl. exact P.
Qed.

Lemma begins_rstrip (p : ascii -> bool) (s : string) :
  begins_with p s = false ->
  begins_with p (PyStr.rstrip_with p s) = false.
Proof.
  destruct s as [|c s]; simpl; [reflexivity|]. intros P.
  destruct (PyStr.rstrip_with p s); [rewrite P|]; simpl; auto.
Qed.

Lemma lstrip_fixed (p : ascii -> bool) (s : string) :
  begins_with p s = false -> PyStr.lstrip_with p s = s.
Proof.
  destruct s as [|c s]; simpl; [reflexivity|]. now intros ->.
Qed.

Lemma rstrip_idem (p : ascii -> bool) (s : string) :
  PyStr.rstrip_with p (PyStr.rstrip_with p s) = PyStr.rstrip_with p s.
Proof.
  induction s as [|c s IH]; simpl; [reflexivity|].
  destruct (PyStr.rstrip_with p s) as [|e r] eqn:R.
  - destruct (p c) eqn:P; simpl; [reflexivity|]. now rewrite P.
  - change (PyStr.rstrip_with p (String c (String e r)))
      with (match PyStr.rstrip_with p (String e r) with
            | EmptyString => if p c then EmptyString else String c EmptyString
            | t => String c t
            end).
    now rewrite IH.
Qed.

Lemma strip_idem (s : string) : PyStr.strip (PyStr.strip s) = PyStr.strip s.
Proof.
  unfold PyStr.strip, PyStr.strip_with.
  rewrite (lstrip_fixed PyStr.isspace
             (PyStr.rstrip_with PyStr.isspace
                (PyStr.lstrip_with PyStr.isspace s))).
  - apply rstrip_idem.
  - apply begins_rstrip, begins_lstrip.
Qed.

Lemma extract_clean_name_shape (s clean : string) :
  _extract_clean_name s = Some clean ->
  2 <= String.length clean /\ PyStr.strip clean = clean.
Proof.
  unfold _extract_clean_name.
  set (c := match re_search numbered_name_pattern s with
            | Some (texts, _) => PyStr.strip (group_1 texts)
            | None => PyStr.strip (re_sub_at_start number_prefix_pattern s)
            end).
  assert (S : PyStr.strip c = c).
  { unfold c. destruct (re_search numbered_name_pattern s) as [[texts rest]|];
      apply strip_idem. }
  destruct (Nat.leb_spec 2 (String.length c)); [|discriminate].
  intros E. injection E as <-. auto.
Qed.

Lemma parse_link_entry link seen division d :
  _parse_lifter_link_with_division link seen division = Some d ->
  entry_of division link d /\ ~ In (href link) seen.
Proof.
  unfold _parse_lifter_link_with_division.
  destruct (_is_valid_lifter_link (href link) (PyStr.strip (text link)))
    eqn:V; simpl; [|discriminate].
  destruct (existsb (String.eqb (href link)) seen) eqn:S; [discriminate|].
  destruct (_extract_clean_name (PyStr.strip (text link))) as [clean|] eqn:X;
    [|discriminate].
  intros E. injection E as <-. split.
  - unfold entry_of. simpl. repeat split; auto.
  - intros I. assert (T : existsb (String.eqb (href link)) seen = true).
    { apply existsb_exists. exists (href link). split; [exact I|].
      apply String.eqb_refl. }
    congruence.
Qed.

Lemma parse_link_none link seen division :
  _parse_lifter_link_with_division link seen division = None ->
  listable link -> In (href link) seen.
Proof.
  unfold _parse_lifter_link_with_division, listable. intros E [V X].
  rewrite V in E. simpl in E.
  destruct (existsb (String.eqb (href link)) seen) eqn:S.
  - apply existsb_exists in S as (u & I & U).
    apply String.eqb_eq in U. now subst u.
  - destruct (_extract_clean_name (PyStr.strip (text link)));
      [discriminate|congruence].
Qed.

Lemma parse_links_spec division links :
  forall state,
  coherent state ->
  coherent (parse_links division links state)
  /\ (forall d, In d (fst state) ->
                In d (fst (parse_links division links state)))
  /\ (forall d, In d (fst (parse_links division links state)) ->
        In d (fst state)
        \/ exists link, In link links /\ entry_of division link d)
  /\ (forall link, In link links -> listable link ->
        In (href link)
           (map lifter_profile_url (fst (parse_links division links state)))).
Proof. lib_free.
  induction links as [|link links IH]; intros [listed seen] C.
  - simpl. split; [exact C|]. split; [auto|]. split; [auto|].
    intros link [].
  - cbn [parse_links].
    destruct (_parse_lifter_link_with_division link seen division)
      as [d|] eqn:P.
    + destruct (parse_link_entry _ _ _ _ P) as [En Fresh].
      destruct C as [ND Seen]. simpl in ND, Seen.
      assert (U : lifter_profile_url d = href link)
        by (destruct En as (_ & _ & _ & _ & U & _); exact U).
      assert (C' : coherent (listed ++ [d], lifter_profile_url d :: seen)).
      { split; simpl.
        - rewrite map_app. simpl.
          apply NoDup_app; [exact ND|repeat constructor; intros []|].
          intros u I [<-|[]]. apply Fresh. rewrite <- U. now apply Seen.
        - intros u. rewrite map_app, in_app_iff, Seen. simpl. tauto. }
      destruct (IH _ C') as (C2 & Keep & From & All).
      split; [exact C2|]. split; [|split].
      * intros x I. apply Keep. simpl. apply in_or_app. now left.
      * intros x I. destruct (From x I) as [I'|(l & Il & El)].
        -- simpl in I'. apply in_app_iff in I' as [I'|[<-|[]]].
           ++ now left.
           ++ right. exists link. split; [now left|exact En].
        -- right. exists l. split; [now right|exact El].
      * intros l [<-|Il] Li.
        -- apply in_map_iff. exists d. split; [exact U|].
           apply Keep. simpl. apply in_or_app. right. now left.
        -- now apply All.
    + destruct (IH _ C) as (C2 & Keep & From & All).
      split; [exact C2|]. split; [exact Keep|]. split.
      * intros x I. destruct (From x I) as [I'|(l & Il & El)]; [now left|].
        right. exists l. split; [now right|exact El].
      * intros l [<-|Il] Li; [|now apply All].
        pose proof (parse_link_none _ _ _ P Li) as S.
        destruct C as [_ Seen]. simpl in Seen. apply Seen in S.
        apply in_map_iff in S as (x & Ux & Ix).
        apply in_map_iff. exists x. split; [exact Ux|]. now apply Keep.
Qed.

Lemma parse_sessions_spec sessions :
  forall state,
  coherent state ->
  coherent (parse_sessions sessions state)
  /\ (forall d, In d (fst state) -> In d (fst (parse_sessions sessions state)))
  /\ (forall d, In d (fst (parse_sessions sessions state)) ->
        In d (fst state)
        \/ exists session link,
             In session sessions /\ In link (lifter_links session)
             /\ entry_of (division_of session) link d)
  /\ (forall session link,
        In session sessions -> In link (lifter_links session) ->
        listable link ->
        In (href link)
           (map lifter_profile_url (fst (parse_sessions sessions state)))).
Proof.
  induction sessions as [|session sessions IH]; intros state C.
  - simpl. split; [exact C|]. split; [auto|]. split; [auto|].
    intros session link [].
  - cbn [parse_sessions]. fold (division_of session).
    destruct (parse_links_spec (division_of session) (lifter_links session)
                state C) as (C1 & Keep1 & From1 & All1).
    destruct (IH _ C1) as (C2 & Keep2 & From2 & All2).
    split; [exact C2|]. split; [auto|]. split.
    + intros d I. destruct (From2 d I) as [I'|(s & l & Is & Il & E)].
      * destruct (From1 d I') as [I0|(l & Il & E)]; [now left|].
        right. exists session, l. split; [now left|auto].
      * right. exists s, l. split; [now right|auto].
    + intros s l [<-|Is] Il Li.
      * specialize (All1 l Il Li).
        apply in_map_iff in All1 as (x & Ux & Ix).
        apply in_map_iff. exists x. auto.
      * now apply (All2 s l).
Qed.

(** X25.  The roster lists every profile once.  No two entries have the
    same profile link; each entry is made of a valid lifter link of a
    session, with the division of that session, a clean name of at least
    two characters without white space around it, and a lookup name
    without spaces and commas; and the profile of every valid lifter link
    with a clean name is in the roster. *)
Theorem roster_lists_every_profile_once (session_containers : list Session) :
  NoDup (map lifter_profile_url
           (_parse_lifters_with_divisions session_containers))
  /\ (forall d, In d (_parse_lifters_with_divisions session_containers) ->
        (exists session link,
           In session session_containers
           /\ In link (lifter_links session)
           /\ entry_of (division_of session) link d)
        /\ 2 <= String.length (clean_lifter_name d)
        /\ PyStr.strip (clean_lifter_name d) = clean_lifter_name d
        /\ PyStr.contains " " (lifter_name_for_url d) = false
        /\ PyStr.contains "," (lifter_name_for_url d) = false)
  /\ (forall session link,
        In session session_containers -> In link (lifter_links session) ->
        listable link ->
        In (href link)
           (map lifter_profile_url
              (_parse_lifters_with_divisions session_containers))).
Proof. lib_free.
  unfold _parse_lifters_with_divisions.
  assert (C : coherent (@nil LifterData, @nil string)).
  { split; simpl; [constructor|tauto]. }
  destruct (parse_sessions_spec session_containers _ C)
    as ([ND _] & _ & From & All).
  split; [exact ND|]. split; [|exact All].
  intros d I. destruct (From d I) as [[]|(s & l & Is & Il & E)].
  split; [exists s, l; auto|].
  destruct E as (_ & X & _ & U & _).
  destruct (extract_clean_name_shape _ _ X) as [Len St].
  split; [exact Len|]. split; [exact St|]. rewrite U. split.
  - rewrite contains_remove_other by discriminate.
    apply contains_remove_same.
  - apply contains_remove_same.
Qed.


(** ** Roster processor: the lookup of one lifter *)

Lemma plain_name_search_names (name : string) :
  PyStr.contains "," name = false -> PyStr.contains " " name = false ->
  _try_multiple_normalizations name = [PyStr.lower name].
Proof.
  intros C S. unfold _try_multiple_normalizations.
  rewrite (remove_absent " " name S), (remove_absent "," name C).
  simpl. repeat (rewrite String.eqb_refl; simpl). reflexivity.
Qed.

Lemma prefix_refl (s : string) : String.prefix s s = true.
Proof.
  induction s as [|c s IH]; simpl; [reflexivity|].
  destruct (Ascii.ascii_dec c c); [exact IH|congruence].
Qed.

Lemma process_single_lifter_run py_float w d st st1 :
  ensure_loaded w st = (inr tt, st1) ->
  _process_single_lifter py_float w d st
  = (inr (LifterInfo__init__ py_float
            (lifter_name_for_url d) (lifter_profile_url d)
            (Resp.squat_kg (resolve (search_loop w (index_of st1) 0 "" 10
               (_try_multiple_normalizations (lifter_name_for_url d)) [])))
            (Resp.bench_kg (resolve (search_loop w (index_of st1) 0 "" 10
               (_try_multiple_normalizations (lifter_name_for_url d)) [])))
            (Resp.deadlift_kg (resolve (search_loop w (index_of st1) 0 "" 10
               (_try_multiple_normalizations (lifter_name_for_url d)) [])))
            (Resp.total (resolve (search_loop w (index_of st1) 0 "" 10
               (_try_multiple_normalizations (lifter_name_for_url d)) [])))
            (Resp.dotscore (resolve (search_loop w (index_of st1) 0 "" 10
               (_try_multiple_normalizations (lifter_name_for_url d)) [])))
            (lifter_division d)),
     st1).
Proof.
  intros E. unfold _process_single_lifter, bind, ret.
  now rewrite (get_lifter_stats_robust_run w (lifter_name_for_url d) 0 ""
                 st st1 E).
Qed.

(** X26.  The processor looks a roster entry up under one search name,
    the clean name in lower case without spaces and commas: every
    candidate is a record of a key that starts with that name, so a key
    with a comma or a space is only reached as the longer key of a prefix
    match; the answer never has confidence medium; and the processed
    lifter carries the lookup name, the profile link, the division and
    the lift fields of the answer. *)
Theorem roster_lookup_uses_one_search_name py_float w st st1 d :
  ensure_loaded w st = (inr tt, st1) ->
  lifter_name_for_url d
  = PyStr.remove "," (PyStr.remove " " (clean_lifter_name d)) ->
  _try_multiple_normalizations (lifter_name_for_url d)
  = [variant1 (clean_lifter_name d)]
  /\ exists candidates response info,
       find_lifter_candidates w (lifter_name_for_url d) 0 "" 10 st
       = (inr candidates, st1)
       /\ get_lifter_stats_robust w (lifter_name_for_url d) 0 "" st
          = (inr response, st1)
       /\ _process_single_lifter py_float w d st = (inr info, st1)
       /\ Resp.confidence response <> Some "medium"
       /\ (forall c, In c candidates ->
             exists k,
               In k (PyDict.keys (index_of st1))
               /\ In (record c) (records_at (index_of st1) k)
               /\ PyStr.startswith k (variant1 (clean_lifter_name d)) = true
               /\ (match_type c = "prefix_match"
                   \/ k = variant1 (clean_lifter_name d)))
       /\ LifterInfo.name info = lifter_name_for_url d
       /\ LifterInfo.link info = lifter_profile_url d
       /\ LifterInfo.division info = lifter_division d
       /\ LifterInfo.squat_kg info = Resp.squat_kg response
       /\ LifterInfo.bench_kg info = Resp.bench_kg response
       /\ LifterInfo.deadlift_kg info = Resp.deadlift_kg response
       /\ LifterInfo.total info = Resp.total response
       /\ LifterInfo.dotscore info = Resp.dotscore response.
Proof.
  intros E U.
  assert (V : _try_multiple_normalizations (lifter_name_for_url d)
              = [variant1 (clean_lifter_name d)]).
  { rewrite plain_name_search_names.
    - unfold variant1. now rewrite U.
    - rewrite U. apply contains_remove_same.
    - rewrite U. rewrite contains_remove_other by discriminate.
      apply contains_remove_same. }
  split; [exact V|].
  rewrite (find_lifter_candidates_run w _ 0 "" 10 st st1 E).
  rewrite (get_lifter_stats_robust_run w _ 0 "" st st1 E).
  rewrite (process_single_lifter_run py_float w d st st1 E).
  eexists. eexists. eexists.
  split; [reflexivity|]. split; [reflexivity|]. split; [reflexivity|].
  split; [apply search_without_hint; discriminate|].
  split; [|simpl; repeat split; reflexivity].
  rewrite V. set (v := variant1 (clean_lifter_name d)).
  set (idx := index_of st1).
  intros c I.
  destruct (search_loop_shape w idx 0 "" 10 [v] [])
    as [[R _]|(earlier & u & later & Eq & _ & Hit)].
  { rewrite R in I. destruct I. }
  assert (u = v) as ->.
  { destruct earlier as [|e earlier]; simpl in Eq.
    - now injection Eq.
    - injection Eq as _ Eq. destruct earlier; discriminate. }
  destruct Hit as [(r & G & R)|[(recs & G & L & R)|(G & F & R)]];
    rewrite R in I.
  - destruct I as [<-|[]]. exists v. simpl.
    split; [exact (get_Some_key idx v [r] G)|].
    split; [rewrite (records_at_get idx v [r] G); now left|].
    split; [apply prefix_refl|now right].
  - apply In_ranked, In_exact_duplicates in I as (Ir & _ & _ & _).
    exists v. split; [exact (get_Some_key idx v recs G)|].
    split; [now rewrite (records_at_get idx v recs G)|].
    split; [apply prefix_refl|now right].
  - apply In_ranked, In_prefix_matches in I as (k & Ik & Ir & _ & _ & T).
    apply keys_starting_with_In in Ik as [Ik P].
    exists k. auto.
Qed.

(** X27.  Pounds of a processed lifter.  When [float] reads back what
    [str] writes for the three lifts of a record, a lifter whose lookup
    is answered from that record gets each lift in pounds as the lift of
    the record times 2.2046; and a lifter that is not found gets the lift
    fields "0" and, in pounds, [str(float("0") * 2.2046)]. *)
Theorem processed_lifter_pounds py_float w st st1 d :
  ensure_loaded w st = (inr tt, st1) ->
  exists response info,
    get_lifter_stats_robust w (lifter_name_for_url d) 0 "" st
    = (inr response, st1)
    /\ _process_single_lifter py_float w d st = (inr info, st1)
    /\ (forall record,
          carries response record ->
          py_float (str_of_float (squat record)) = Some (squat record) ->
          py_float (str_of_float (bench record)) = Some (bench record) ->
          py_float (str_of_float (deadlift record)) = Some (deadlift record) ->
          LifterInfo.squat_lbs info = str_of_float (squat record * 2.2046)%Q
          /\ LifterInfo.bench_lbs info = str_of_float (bench record * 2.2046)%Q
          /\ LifterInfo.deadlift_lbs info
             = str_of_float (deadlift record * 2.2046)%Q)
    /\ (Resp.found response = false ->
        LifterInfo.squat_kg info = "0"
        /\ LifterInfo.bench_kg info = "0"
        /\ LifterInfo.deadlift_kg info = "0"
        /\ LifterInfo.squat_lbs info = to_lbs py_float "0"
        /\ LifterInfo.bench_lbs info = to_lbs py_float "0"
        /\ LifterInfo.deadlift_lbs info = to_lbs py_float "0").
Proof.
  intros E.
  rewrite (get_lifter_stats_robust_run w _ 0 "" st st1 E).
  rewrite (process_single_lifter_run py_float w d st st1 E).
  eexists. eexists. split; [reflexivity|]. split; [reflexivity|].
  set (l := search_loop w (index_of st1) 0 "" 10
              (_try_multiple_normalizations (lifter_name_for_url d)) []).
  split.
  - intros record (_ & S & B & D & _) FS FB FD. simpl.
    unfold to_lbs. now rewrite S, B, D, FS, FB, FD.
  - intros NF. simpl.
    assert (Z : l = []).
    { destruct l as [|c rest]; [reflexivity|]. exfalso. revert NF.
      unfold resolve.
      destruct ((length (c :: rest) =? 1) && Qltb 0.9 (score c));
        [discriminate|].
      destruct ((length (c :: rest) =? 1) && Qltb 0.7 (score c)); discriminate. }
    rewrite Z. simpl. repeat split; reflexivity.
Qed.

(** ** Scorer: monotonicity *)

Lemma recency_term_fades w w' r :
  (clock w <= clock w')%Z -> (recency_term w' r <= recency_term w r)%Q.
Proof.
  intros C. unfold recency_term.
  destruct (date r) as [d|]; [|qlra].
  destruct (PyStr.truthy d); [|qlra].
  destruct (strptime d) as [t|]; [|qlra].
  assert (A : (age_in_days (clock w) t <= age_in_days (clock w') t)%Z).
  { unfold age_in_days, DAY. apply Z.div_le_mono; lia. }
  destruct (Z.ltb_spec (age_in_days (clock w) t) 365),
           (Z.ltb_spec (age_in_days (clock w') t) 365); try lia; try qlra;
    destruct (Z.ltb_spec (age_in_days (clock w) t) 1095),
             (Z.ltb_spec (age_in_days (clock w') t) 1095); try lia; qlra.
Qed.

Lemma weight_class_term_closer (a hint hint' : Q) :
  (0 < hint)%Q -> (0 < hint')%Q ->
  (Qabs (a - hint) <= Qabs (a - hint'))%Q ->
  (weight_class_term a hint' <= weight_class_term a hint)%Q.
Proof.
  intros H H' D. unfold weight_class_term.
  apply Qltb_true in H, H'. rewrite H, H', !andb_true_r.
  destruct (Qltb 0 a); [|qlra].
  assert (M : (Qmax 0 (1 - Qabs (a - hint') / 20)
               <= Qmax 0 (1 - Qabs (a - hint) / 20))%Q).
  { apply Q.max_le_compat; [qlra|].
    revert D. generalize (Qabs (a - hint)), (Qabs (a - hint')).
    intros x y D. qlra. }
  revert M. generalize (Qmax 0 (1 - Qabs (a - hint') / 20)),
                       (Qmax 0 (1 - Qabs (a - hint) / 20)).
  intros x y M. qlra.
Qed.

(** X28.  The score never falls when the name similarity rises, never
    rises as time passes, and never falls when the weight-class hint
    moves closer to the weight class of the record; the meet name has no
    effect on it. *)
Theorem score_is_monotone w w' r s s' hint meet meet' :
  (s <= s')%Q ->
  (clock w <= clock w')%Z ->
  (_calculate_comprehensive_match_score w r s hint meet
   <= _calculate_comprehensive_match_score w r s' hint meet)%Q
  /\ (_calculate_comprehensive_match_score w' r s hint meet
      <= _calculate_comprehensive_match_score w r s hint meet)%Q
  /\ (forall hint',
        (0 < hint)%Q -> (0 < hint')%Q ->
        (Qabs (weight_class r - hint) <= Qabs (weight_class r - hint'))%Q ->
        (_calculate_comprehensive_match_score w r s hint' meet
         <= _calculate_comprehensive_match_score w r s hint meet)%Q)
  /\ _calculate_comprehensive_match_score w r s hint meet'
     = _calculate_comprehensive_match_score w r s hint meet.
Proof.
  intros S C. split; [|split; [|split]].
  - rewrite !score_decomposition. qlra.
  - rewrite !score_decomposition.
    pose proof (recency_term_fades w w' r C). qlra.
  - intros hint' H H' D. rewrite !score_decomposition.
    pose proof (weight_class_term_closer (weight_class r) hint hint' H H' D).
    qlra.
  - reflexivity.
Qed.

(** ** Conversion of table cells *)

Lemma rstrip_keeps_front (p : ascii -> bool) (a b : string) (c : ascii) :
  p c = false ->
  exists t, PyStr.rstrip_with p (a ++ String c b) = (a ++ String c t)%string.
Proof.
  intros P. induction a as [|x a [t IH]].
  - simpl. destruct (PyStr.rstrip_with p b) as [|e r].
    + rewrite P. now exists "".
    + now exists (String e r).
  - exists t.
    change (PyStr.rstrip_with p (String x a ++ String c b))
      with (match PyStr.rstrip_with p (a ++ String c b) with
            | EmptyString => if p x then EmptyString else String x EmptyString
            | r => String x r
            end).
    rewrite IH. destruct a; reflexivity.
Qed.

Lemma lower_char_dash (c : ascii) :
  Ascii.eqb (PyStr.lower_char c) "-" = Ascii.eqb c "-".
Proof.
  destruct c as [[] [] [] [] [] [] [] []]; vm_compute; reflexivity.
Qed.

Lemma contains_lower_dash (s : string) :
  PyStr.contains "-" (PyStr.lower s) = PyStr.contains "-" s.
Proof.
  induction s as [|c s IH]; simpl; [reflexivity|].
  now rewrite lower_char_dash, IH.
Qed.

Lemma remove_append (c : ascii) (a b : string) :
  PyStr.remove c (a ++ b) = (PyStr.remove c a ++ PyStr.remove c b)%string.
Proof.
  induction a as [|x a IH]; simpl; [reflexivity|].
  destruct (Ascii.eqb x c); simpl; now rewrite IH.
Qed.

Lemma before_first_append (c : ascii) (a b : string) :
  PyStr.contains c a = false ->
  before_first c (a ++ String c b) = a.
Proof.
  induction a as [|x a IH]; simpl.
  - now rewrite Ascii.eqb_refl.
  - intros H. apply orb_false_iff in H as [X H].
    now rewrite X, IH.
Qed.

Lemma startswith_char (c x : ascii) (s : string) :
  PyStr.startswith (String x s) (String c "") = Ascii.eqb x c.
Proof.
  unfold PyStr.startswith. cbn [String.prefix].
  destruct (Ascii.ascii_dec c x) as [->|N].
  - rewrite Ascii.eqb_refl. now destruct s.
  - symmetry. apply Ascii.eqb_neq. congruence.
Qed.

(** A text with a hyphen is none of the special texts. *)
Lemma hyphen_is_not_special (s : string) :
  PyStr.contains "-" s = true ->
  existsb (String.eqb (PyStr.lower s)) ["nan"; "none"; "null"] = false.
Proof.
  intros H. rewrite <- contains_lower_dash in H. simpl.
  destruct (String.eqb_spec (PyStr.lower s) "nan") as [E|_];
    [rewrite E in H; discriminate|].
  destruct (String.eqb_spec (PyStr.lower s) "none") as [E|_];
    [rewrite E in H; discriminate|].
  destruct (String.eqb_spec (PyStr.lower s) "null") as [E|_];
    [rewrite E in H; discriminate|].
  reflexivity.
Qed.

(** X29.  A range is converted to its lower bound: for a text [a-b]
    whose first part is not empty and has no hyphen, no plus sign and no
    white space around it, the conversion is [float(a)], or the default
    when that raises, whatever the second part is.  A text that begins
    with a hyphen is not cut: without a plus sign it is handed to [float]
    as it is. *)
Theorem range_converts_to_its_lower_bound
    (py_float : string -> option Q) (a b : string) (default : Q) :
  a <> "" ->
  PyStr.strip a = a ->
  PyStr.contains "-" a = false ->
  PyStr.contains "+" a = false ->
  _safe_float_conversion py_float (Some (a ++ "-" ++ b)%string) default
  = match py_float a with Some x => x | None => default end
  /\ forall v,
       PyStr.strip v = v -> PyStr.startswith v "-" = true ->
       PyStr.contains "+" v = false ->
       _safe_float_conversion py_float (Some v) default
       = match py_float v with Some x => x | None => default end.
Proof.
  intros N S H P. split.
  - destruct a as [|x a]; [congruence|].
    assert (X : Ascii.eqb x "-" = false).
    { simpl in H. now apply orb_false_iff in H as [X _]. }
    assert (W : PyStr.isspace x = false) by exact (stripped_begins _ S).
    unfold _safe_float_conversion.
    change ((String x a ++ "-" ++ b)%string =? "")%string with false.
    cbv iota.
    assert (T : exists t, PyStr.strip (String x a ++ "-" ++ b)%string
                          = (String x a ++ String "-" t)%string).
    { unfold PyStr.strip, PyStr.strip_with.
      rewrite (lstrip_fixed PyStr.isspace) by exact W.
      apply (rstrip_keeps_front PyStr.isspace (String x a) b "-").
      reflexivity. }
    destruct T as [t ->].
    assert (C : forall u,
               PyStr.contains "-" (String x a ++ String "-" u)%string = true).
    { intros u. rewrite contains_append. simpl. apply orb_true_r. }
    change ((String x a ++ String "-" t)%string =? "")%string with false.
    rewrite (hyphen_is_not_special _ (C t)). simpl orb. cbv iota.
    assert (Cut : forall u,
               (if PyStr.contains "-" (String x a ++ String "-" u)%string
                   && negb (PyStr.startswith
                              (String x a ++ String "-" u)%string "-")
                then before_first "-" (String x a ++ String "-" u)%string
                else (String x a ++ String "-" u)%string)
               = String x a).
    { intros u. rewrite (C u).
      assert (St : PyStr.startswith (String x a ++ String "-" u)%string "-"
                   = false).
      { change ((String x a ++ String "-" u)%string)
          with (String x (a ++ String "-" u)%string).
        now rewrite startswith_char. }
      rewrite St. simpl andb. cbv iota.
      now apply before_first_append. }
    destruct (PyStr.contains "+" (String x a ++ String "-" t)%string).
    + rewrite remove_append, (remove_absent "+" (String x a) P).
      change (PyStr.remove "+" (String "-" t))
        with (String "-" (PyStr.remove "+" t)).
      now rewrite Cut.
    + now rewrite Cut.
  - intros v Sv B Pv. unfold _safe_float_conversion.
    destruct v as [|c v]; [discriminate|].
    assert (Cd : c = "-"%char).
    { rewrite startswith_char in B. now apply Ascii.eqb_eq in B. }
    subst c.
    change ((String "-" v =? "")%string) with false. cbv iota.
    rewrite Sv.
    change ((String "-" v =? "")%string) with false.
    rewrite (hyphen_is_not_special (String "-" v)) by reflexivity.
    simpl orb. cbv iota. rewrite Pv, B. simpl.
    reflexivity.
Qed.

(** ** Lookups and the cache directory *)

Lemma ensure_loaded_empty w st :
  index_truthy (_name_index st) = false -> ensure_loaded w st = load_data w st.
Proof.
  intros T. unfold ensure_loaded, bind, get_state. simpl. now rewrite T.
Qed.

(** X30.  A lookup touches the cache directory only through [load_data],
    and only while the index in memory is empty.  With a non-empty index
    a lookup of any kind leaves the manager, memory and disk, as it is.
    With an empty index it leaves the manager as [load_data] does, which
    may write the index file, and an exception of [load_data] is the
    outcome of the lookup. *)
Theorem lookups_load_only_an_empty_index w st name hint meet max names :
  (index_truthy (_name_index st) = true ->
   snd (find_lifter_candidates w name hint meet max st) = st
   /\ snd (get_lifter_stats_robust w name hint meet st) = st
   /\ snd (get_lifter_stats_batch w names st) = st)
  /\ (index_truthy (_name_index st) = false ->
      snd (find_lifter_candidates w name hint meet max st)
      = snd (load_data w st)
      /\ snd (get_lifter_stats_robust w name hint meet st)
         = snd (load_data w st)
      /\ snd (get_lifter_stats_batch w names st) = snd (load_data w st)
      /\ forall e, fst (load_data w st) = inl e ->
           fst (find_lifter_candidates w name hint meet max st) = inl e
           /\ fst (get_lifter_stats_robust w name hint meet st) = inl e
           /\ fst (get_lifter_stats_batch w names st) = inl e).
Proof.
  split.
  - intros T. pose proof (ensure_loaded_ready w st T) as E.
    rewrite (find_lifter_candidates_run w name hint meet max st st E).
    rewrite (get_lifter_stats_robust_run w name hint meet st st E).
    rewrite (get_lifter_stats_batch_run w names st st E).
    auto.
  - intros T. pose proof (ensure_loaded_empty w st T) as E.
    destruct (load_data w st) as [[e|[]] st1] eqn:L.
    + assert (F : find_lifter_candidates w name hint meet max st = (inl e, st1)).
      { unfold find_lifter_candidates, bind at 1. now rewrite E. }
      assert (F10 : find_lifter_candidates w name hint meet 10 st = (inl e, st1)).
      { unfold find_lifter_candidates, bind at 1. now rewrite E. }
      assert (R : get_lifter_stats_robust w name hint meet st = (inl e, st1)).
      { unfold get_lifter_stats_robust, bind at 1. now rewrite F10. }
      assert (B : get_lifter_stats_batch w names st = (inl e, st1)).
      { unfold get_lifter_stats_batch, bind at 1. now rewrite E. }
      rewrite F, R, B. simpl.
      split; [reflexivity|]. split; [reflexivity|]. split; [reflexivity|].
      intros e' X. injection X as <-. auto.
    + rewrite (find_lifter_candidates_run w name hint meet max st st1 E).
      rewrite (get_lifter_stats_robust_run w name hint meet st st1 E).
      rewrite (get_lifter_stats_batch_run w names st st1 E).
      simpl.
      split; [reflexivity|]. split; [reflexivity|]. split; [reflexivity|].
      intros e X. discriminate.
Qed.

End Lookups.


(** * The model on the reference data *)

Example sample_index_is_built :
  build_index Sample.iso_date (Sample.noon 2026 11 4) Sample.table
  = Sample.name_index.
Proof. vm_compute. reflexivity. Qed.

Example newer_index_is_built :
  build_index Sample.iso_date (Sample.noon 2026 11 4) Sample.newer_table
  = Sample.newer_index.
Proof. vm_compute. reflexivity. Qed.

Example sample_index_keys :
  PyDict.keys Sample.name_index = ["johnsmith"; "smith,john"; "smithjohnson"].
Proof. vm_compute. reflexivity. Qed.

Example sample_days_old :
  map (fun e => map days_old (snd e)) Sample.name_index
  = [[248%Z; 886%Z]; [2374%Z]; [9999%Z]].
Proof. vm_compute. reflexivity. Qed.

Example scenario_weight_class_90_hint_83 :
  (weight_class_term 90 83 == 0.195)%Q.
Proof. vm_compute. reflexivity. Qed.

(** ** C1 *)


Example two_candidates_give_low_confidence :
  exists response,
    get_lifter_stats_robust Sample.whole_float Sample.iso_date Sample.iso_date
      Sample.calm "John Smith" 90 "" Sample.loaded
    = (inr response, Sample.loaded)
    /\ Resp.confidence response = Some "low"
    /\ Resp.warning response = Some "Multiple matches found (2 candidates)"
    /\ option_map (@length Alt.t) (Resp.alternatives response) = Some 1.
Proof. eexists. split; [vm_compute; reflexivity|]. vm_compute. auto. Qed.

(** ** C2 *)

Lemma single_exact_hit_short_circuits_witness :
  _try_multiple_normalizations "Doe, Jane" = ["doejane"] ++ "doe,jane" :: ["doe jane"]
  /\ (forall u, In u ["doejane"] -> no_hit (index_of Sample.newer_loaded) u)
  /\ exists r,
       PyDict.get (index_of Sample.newer_loaded) "doe,jane" = Some [r]
       /\ find_lifter_candidates Sample.iso_date Sample.iso_date Sample.calm
            "Doe, Jane" 63 "" 10 Sample.newer_loaded
          = (inr [exact_candidate r], Sample.newer_loaded).
Proof.
  assert (V : _try_multiple_normalizations "Doe, Jane"
              = ["doejane"] ++ "doe,jane" :: ["doe jane"])
    by (vm_compute; reflexivity).
  assert (N : forall u, In u ["doejane"] -> no_hit (index_of Sample.newer_loaded) u).
  { intros u [<-|[]]. split; [vm_compute; reflexivity|].
    intros k I. vm_compute in I. destruct I as [<-|[]].
    vm_compute. reflexivity. }
  split; [exact V|]. split; [exact N|].
  eexists. split; [vm_compute; reflexivity|].
  apply (single_exact_hit_short_circuits Sample.iso_date Sample.iso_date
           Sample.calm Sample.newer_loaded "Doe, Jane" 63 "" 10
           ["doejane"] "doe,jane" ["doe jane"] _ V N).
  vm_compute. reflexivity.
Defined.

(** The variant "smith,john" of "Smith, John" is a key that holds exactly
    one record, yet the candidates are those of the key "smithjohnson",
    of which the first variant "smithjohn" is a prefix. *)
Lemma prefix_hit_shadows_single_exact_key :
  In "smith,john" (_try_multiple_normalizations "Smith, John")
  /\ (exists r, PyDict.get (index_of Sample.loaded) "smith,john" = Some [r]
                /\ original_name r = "Smith, John")
  /\ exists c,
       find_lifter_candidates Sample.iso_date Sample.iso_date Sample.calm
         "Smith, John" 0 "" 10 Sample.loaded = (inr [c], Sample.loaded)
       /\ match_type c = "prefix_match"
       /\ original_name (record c) = "Smith Johnson"
       /\ (score c == 0.405)%Q.
Proof.
  split; [vm_compute; tauto|]. split.
  - eexists. split; vm_compute; reflexivity.
  - eexists. split; [vm_compute; reflexivity|]. vm_compute. auto.
Qed.

(** ** C3 *)

(** C3.  A record dated after now gets the full recency term.  The date
    2031-06-01 parses and lies more than 1095 days after the clock, so it
    is within neither 365 nor 1095 days of now, and the age of the record
    in whole days, [(datetime.now() - date).days], is -1670.  The code
    only asks that this age be below 365, so it adds 0.1: with name
    similarity 1 and hint 83 the score is 0.895, where the sum with the
    recency term 0 is 0.795. *)
Theorem postdated_record_scores_as_recent :
  Sample.iso_date "2031-06-01" = Some (Sample.midnight 2031 6 1)
  /\ (clock Sample.calm + 1095 * DAY < Sample.midnight 2031 6 1)%Z
  /\ age_in_days (clock Sample.calm) (Sample.midnight 2031 6 1) = (-1670)%Z
  /\ date (make_record Sample.iso_date (clock Sample.calm)
             (0%nat, Sample.postdated))
     = Some "2031-06-01"
  /\ (recency_term Sample.iso_date Sample.calm
        (make_record Sample.iso_date (clock Sample.calm) (0%nat, Sample.postdated))
      == 0.1)%Q
  /\ (_calculate_comprehensive_match_score Sample.iso_date Sample.calm
        (make_record Sample.iso_date (clock Sample.calm) (0%nat, Sample.postdated))
        1 83 ""
      == 0.895)%Q
  /\ (0.5 * 1 + weight_class_term 90 83 + 0
      + 0.1 * completeness
                (make_record Sample.iso_date (clock Sample.calm)
                   (0%nat, Sample.postdated))
      == 0.795)%Q.
Proof.
  split; [vm_compute; reflexivity|].
  split; [vm_compute; reflexivity|].
  split; [vm_compute; reflexivity|].
  split; [reflexivity|].
  split; [vm_compute; reflexivity|].
  split; vm_compute; reflexivity.
Qed.

Lemma composite_score_is_weighted_sum_witness :
  (0 <= 1 <= 1)%Q
  /\ (0 <= _calculate_comprehensive_match_score Sample.iso_date Sample.calm
             (Sample.entry 0 Sample.john 248) 1 83 "" <= 1)%Q.
Proof.
  assert (B : (0 <= 1 <= 1)%Q) by (split; vm_compute; discriminate).
  split; [exact B|].
  exact (proj2 (proj2 (proj2
           (composite_score_is_weighted_sum Sample.iso_date Sample.calm
              (Sample.entry 0 Sample.john 248) 1 83 ""))) B).
Defined.

Example john_smith_scores :
  (_calculate_comprehensive_match_score Sample.iso_date Sample.calm
     (Sample.entry 0 Sample.john 248) 1 83 "" == 0.895)%Q
  /\ (_calculate_comprehensive_match_score Sample.iso_date Sample.calm
        (Sample.entry 0 Sample.john 248) 1 90 "" == 1)%Q.
Proof. split; vm_compute; reflexivity. Qed.

(** ** C4 *)

Lemma batch_lookup_exact_or_zero_witness :
  ensure_loaded Sample.iso_date Sample.calm Sample.loaded
  = (inr tt, Sample.loaded)
  /\ exists results,
       get_lifter_stats_batch Sample.whole_float Sample.iso_date Sample.calm
         ["Smith, John"; "Nobody"] Sample.loaded = (inr results, Sample.loaded)
       /\ (exists record,
             PyDict.get results "Smith, John"
             = Some (exact_answer Sample.whole_float record)
             /\ original_name record = "Smith, John")
       /\ PyDict.get results "Nobody" = Some _get_default_response.
Proof.
  assert (E : ensure_loaded Sample.iso_date Sample.calm Sample.loaded
              = (inr tt, Sample.loaded)) by (vm_compute; reflexivity).
  split; [exact E|].
  destruct (batch_lookup_exact_or_zero Sample.whole_float Sample.iso_date
              Sample.calm Sample.loaded Sample.loaded
              ["Smith, John"; "Nobody"] E) as (results & R & P).
  exists results. split; [exact R|]. split.
  - destruct (P "Smith, John" (or_introl eq_refl)) as [Found _].
    eexists. split.
    + eapply (Found "smith,john"); vm_compute; reflexivity.
    + reflexivity.
  - destruct (P "Nobody" (or_intror (or_introl eq_refl))) as [_ Missing].
    destruct Missing as (response & G & _ & _ & D).
    + vm_compute. reflexivity.
    + rewrite G, D. reflexivity.
Defined.

(** ** C5 *)

Lemma load_data_rebuilds_only_without_index_witness :
  data_file (disk (Sample.fresh Sample.cache)) = Some (Intact Sample.table)
  /\ index_pkl (disk (Sample.fresh Sample.cache)) = None
  /\ index_json (disk (Sample.fresh Sample.cache)) = None
  /\ pickle_write Sample.calm = Written
  /\ pickle_write Sample.index_locked <> Written
  /\ (exists st',
        load_data Sample.iso_date Sample.calm (Sample.fresh Sample.cache)
        = (inr tt, st')
        /\ _name_index st' = Some Sample.name_index
        /\ index_pkl (disk st') = Some (Intact Sample.name_index))
  /\ (exists st',
        load_data Sample.iso_date Sample.index_locked
          (Sample.fresh Sample.cache)
        = (inl OSError, st')
        /\ _name_index st' = Some Sample.name_index
        /\ index_pkl (disk st') <> Some (Intact Sample.name_index)).
Proof.
  assert (D : data_file (disk (Sample.fresh Sample.cache))
              = Some (Intact Sample.table)) by reflexivity.
  assert (P : index_pkl (disk (Sample.fresh Sample.cache)) = None)
    by reflexivity.
  assert (J : index_json (disk (Sample.fresh Sample.cache)) = None)
    by reflexivity.
  assert (W : pickle_write Sample.calm = Written) by reflexivity.
  assert (N : pickle_write Sample.index_locked <> Written) by discriminate.
  split; [exact D|]. split; [exact P|]. split; [exact J|].
  split; [exact W|]. split; [exact N|]. split.
  - destruct (proj1 (load_data_rebuilds_only_without_index Sample.iso_date
                       Sample.calm (Sample.fresh Sample.cache) Sample.table
                       D) P J)
      as (st' & _ & _ & I & _ & Ok & _).
    destruct (Ok W) as [L X].
    exists st'. split; [exact L|]. split; [exact I|exact X].
  - destruct (proj1 (load_data_rebuilds_only_without_index Sample.iso_date
                       Sample.index_locked (Sample.fresh Sample.cache)
                       Sample.table D) P J)
      as (st' & _ & _ & I & _ & _ & Bad).
    destruct (Bad N) as [L X].
    exists st'. split; [exact L|]. split; [exact I|exact X].
Defined.

(** The dataset cache exists and the persisted index does not
    deserialize: loading raises, and no index is built. *)
Lemma corrupt_index_makes_load_data_raise :
  data_file (disk (Sample.fresh Sample.cache_with_bad_index))
  = Some (Intact Sample.table)
  /\ index_pkl (disk (Sample.fresh Sample.cache_with_bad_index)) = Some Corrupt
  /\ fst (load_data Sample.iso_date Sample.calm
            (Sample.fresh Sample.cache_with_bad_index))
     = inl UnpicklingError
  /\ _name_index (snd (load_data Sample.iso_date Sample.calm
                         (Sample.fresh Sample.cache_with_bad_index)))
     = Some []
  /\ index_pkl (disk (snd (load_data Sample.iso_date Sample.calm
                             (Sample.fresh Sample.cache_with_bad_index))))
     = Some Corrupt.
Proof. repeat split; vm_compute; reflexivity. Qed.

(** ** C6 *)

Lemma failed_refresh_keeps_metadata_witness :
  fst (download_data Sample.offline (Sample.fresh Sample.cache)) = false
  /\ snd (download_data Sample.offline (Sample.fresh Sample.cache))
     = Sample.fresh Sample.cache.
Proof.
  assert (F : fst (download_data Sample.offline (Sample.fresh Sample.cache))
              = false) by reflexivity.
  split; [exact F|].
  apply (proj2 (failed_refresh_keeps_metadata Sample.offline
                  (Sample.fresh Sample.cache) F)).
  discriminate.
Defined.

(** A write of the dataset file that breaks off midway makes the refresh
    return false with the cached table gone; a metadata file that cannot
    be written makes it return true with the new table beside the old
    metadata. *)
Lemma refresh_is_not_all_or_nothing :
  (fst (download_data Sample.disk_full (Sample.fresh Sample.cache)) = false
   /\ data_file (disk (Sample.fresh Sample.cache)) = Some (Intact Sample.table)
   /\ data_file (disk (snd (download_data Sample.disk_full
                              (Sample.fresh Sample.cache))))
      = Some Corrupt)
  /\ (fst (download_data Sample.metadata_locked (Sample.fresh Sample.cache))
      = true
      /\ data_file (disk (snd (download_data Sample.metadata_locked
                                 (Sample.fresh Sample.cache))))
         = Some (Intact Sample.newer_table)
      /\ metadata_file (disk (snd (download_data Sample.metadata_locked
                                     (Sample.fresh Sample.cache))))
         = Some (Intact Sample.metadata)
      /\ rows Sample.metadata = Some 5
      /\ length (rows_of Sample.newer_table) = 1).
Proof. repeat split; vm_compute; reflexivity. Qed.

(** ** C7 *)

Lemma needs_update_decides_staleness_witness :
  (clock Sample.calm - Sample.noon 2026 11 3 <= HOURS_24)%Z
  /\ needs_update Sample.calm (Sample.fresh Sample.cache) = false
  /\ needs_update (Sample.later (Sample.noon 2026 11 5))
                  (Sample.fresh Sample.cache) = true
  /\ needs_update Sample.offline (Sample.fresh Sample.cache) = true.
Proof.
  assert (L : (clock Sample.calm - Sample.noon 2026 11 3 <= HOURS_24)%Z)
    by (vm_compute; discriminate).
  split; [exact L|]. split; [|split].
  - apply (proj2 (proj2 (proj2
             (needs_update_decides_staleness Sample.calm
                (Sample.fresh Sample.cache))))
             (Sample.noon 2026 11 3));
      [discriminate|reflexivity|exact L|reflexivity].
  - apply (proj1 (proj2
             (needs_update_decides_staleness
                (Sample.later (Sample.noon 2026 11 5))
                (Sample.fresh Sample.cache)))
             (Sample.noon 2026 11 3));
      [reflexivity|vm_compute; reflexivity].
  - apply (proj1 (proj2 (proj2
             (needs_update_decides_staleness Sample.offline
                (Sample.fresh Sample.cache))))).
    vm_compute. discriminate.
Defined.

(** ** C8 *)

Lemma index_records_have_key_in_source_order_witness :
  In ("johnsmith", records_at Sample.name_index "johnsmith") Sample.name_index
  /\ (forall r, In r (records_at Sample.name_index "johnsmith") ->
                normalized_name (original_name r) = "johnsmith")
  /\ StronglySorted lt (map index (records_at Sample.name_index "johnsmith"))
  /\ map index (records_at Sample.name_index "johnsmith") = [0; 2].
Proof.
  assert (I : In ("johnsmith", records_at Sample.name_index "johnsmith") Sample.name_index)
    by (vm_compute; left; reflexivity).
  split; [exact I|].
  destruct (index_records_have_key_in_source_order Sample.iso_date
              (Sample.noon 2026 11 4) Sample.table "johnsmith"
              (records_at Sample.name_index "johnsmith") I) as (N & _ & S).
  split; [exact N|]. split; [exact S|]. vm_compute. reflexivity.
Defined.

(** ** C9 *)

Lemma days_old_is_stored_and_scoring_reads_the_clock_witness :
  In ("johnsmith", records_at Sample.name_index "johnsmith") Sample.name_index
  /\ In (Sample.entry 0 Sample.john 248) (records_at Sample.name_index "johnsmith")
  /\ (exists row,
        nth_error (rows_of Sample.table) (index (Sample.entry 0 Sample.john 248)) = Some row
        /\ date (Sample.entry 0 Sample.john 248) = Date row
        /\ days_old (Sample.entry 0 Sample.john 248)
           = match Date row with
             | Some d =>
                 match Sample.iso_date d with
                 | Some t => age_in_days (Sample.noon 2026 11 4) t
                 | None => 9999%Z
                 end
             | None => 9999%Z
             end)
  /\ days_old (Sample.entry 0 Sample.john 248) = 248%Z.
Proof.
  assert (I : In ("johnsmith", records_at Sample.name_index "johnsmith") Sample.name_index)
    by (vm_compute; left; reflexivity).
  assert (Ir : In (Sample.entry 0 Sample.john 248) (records_at Sample.name_index "johnsmith"))
    by (vm_compute; left; reflexivity).
  split; [exact I|]. split; [exact Ir|]. split.
  - exact (proj1 (days_old_is_stored_and_scoring_reads_the_clock
                    Sample.iso_date Sample.iso_date (Sample.noon 2026 11 4)
                    Sample.table "johnsmith"
                    (records_at Sample.name_index "johnsmith") (Sample.entry 0 Sample.john 248) I Ir)).
  - vm_compute. reflexivity.
Defined.

(** The index was built on 4 November 2026, when the record was 248 days
    old.  Scored on that day the record gets the recency bonus of a date
    within the year; scored on 1 January 2028 from the same index it gets
    the bonus of a date within three years; on 1 January 2030, none. *)
Lemma recency_follows_the_lookup_clock :
  In (Sample.entry 0 Sample.john 248) (records_at Sample.name_index "johnsmith")
  /\ days_old (Sample.entry 0 Sample.john 248) = 248%Z
  /\ (_calculate_comprehensive_match_score Sample.iso_date
        (Sample.later (Sample.noon 2026 11 4)) (Sample.entry 0 Sample.john 248) 1 0 "" == 0.7)%Q
  /\ (_calculate_comprehensive_match_score Sample.iso_date
        (Sample.later (Sample.noon 2028 1 1)) (Sample.entry 0 Sample.john 248) 1 0 "" == 0.65)%Q
  /\ (_calculate_comprehensive_match_score Sample.iso_date
        (Sample.later (Sample.noon 2030 1 1)) (Sample.entry 0 Sample.john 248) 1 0 "" == 0.6)%Q
  /\ ~ (_calculate_comprehensive_match_score Sample.iso_date
          (Sample.later (Sample.noon 2028 1 1)) (Sample.entry 0 Sample.john 248) 1 0 ""
        == _calculate_comprehensive_match_score Sample.iso_date
             (Sample.later (Sample.noon 2026 11 4)) (Sample.entry 0 Sample.john 248) 1 0 "")%Q.
Proof.
  split; [vm_compute; left; reflexivity|].
  split; [vm_compute; reflexivity|].
  split; [vm_compute; reflexivity|].
  split; [vm_compute; reflexivity|].
  split; [vm_compute; reflexivity|].
  vm_compute. discriminate.
Qed.

(** ** C10 *)

Lemma index_key_keeps_commas_witness :
  nth_error (rows_of Sample.table) 1
  = Some Sample.smith_john
  /\ PyStr.contains "," "Smith, John" = true
  /\ PyStr.strip "Smith, John" = PyStr.strip_blanks "Smith, John"
  /\ normalized_name "Smith, John" = "smith,john"
  /\ (exists recs,
        PyDict.get Sample.name_index (normalized_name "Smith, John") = Some recs
        /\ In (make_record Sample.iso_date (Sample.noon 2026 11 4)
                 (1, Sample.smith_john)) recs)
  /\ variant1 "Smith, John" <> normalized_name "Smith, John"
  /\ variant2 "Smith, John" = normalized_name "Smith, John".
Proof.
  assert (N : nth_error (rows_of Sample.table) 1
              = Some Sample.smith_john) by reflexivity.
  assert (C : PyStr.contains "," "Smith, John" = true) by reflexivity.
  assert (S : PyStr.strip "Smith, John" = PyStr.strip_blanks "Smith, John")
    by reflexivity.
  destruct (index_key_keeps_commas Sample.iso_date (Sample.noon 2026 11 4)
              Sample.table 1 _ "Smith, John" N eq_refl) as (F & _ & K).
  destruct (K C) as (_ & V1 & V2).
  split; [exact N|]. split; [exact C|]. split; [exact S|].
  split; [reflexivity|]. split; [exact F|].
  split; [exact V1|exact (proj2 V2 S)].
Defined.

(** A display name with a tab in front of it contains a comma and is
    filed under "smith,john"; its variant 2 keeps the tab, so it is not
    the key, and no variant of the name is. *)
Lemma tab_padded_name_misses_its_key :
  PyStr.contains "," Sample.tab_padded = true
  /\ normalized_name Sample.tab_padded = "smith,john"
  /\ variant2 Sample.tab_padded = String (ascii_of_nat 9) "smith,john"
  /\ variant2 Sample.tab_padded <> normalized_name Sample.tab_padded
  /\ ~ In (normalized_name Sample.tab_padded) (_try_multiple_normalizations Sample.tab_padded).
Proof.
  split; [reflexivity|]. split; [reflexivity|]. split; [reflexivity|].
  split; [vm_compute; discriminate|].
  vm_compute. intros [H|[H|[H|[]]]]; discriminate.
Qed.

(** * The further properties on the reference data *)

(** ** Normalizer *)

Lemma search_names_of_plain_name_witness :
  PyStr.contains "," "JohnSmith" = false
  /\ PyStr.contains " " "JohnSmith" = false
  /\ length (_try_multiple_normalizations "JohnSmith") <= 2
  /\ _try_multiple_normalizations "JohnSmith" = ["johnsmith"].
Proof.
  assert (C : PyStr.contains "," "JohnSmith" = false) by reflexivity.
  assert (S : PyStr.contains " " "JohnSmith" = false) by reflexivity.
  split; [exact C|]. split; [exact S|].
  destruct (search_names_of_plain_name "JohnSmith" C) as [L O].
  split; [exact L|exact (O S)].
Defined.

(** ** Index builder and loader *)

Lemma persisted_index_reloads_witness :
  preprocess_data Sample.iso_date Sample.calm (Sample.fresh Sample.cache)
  = (inr tt, snd (preprocess_data Sample.iso_date Sample.calm
                    (Sample.fresh Sample.cache)))
  /\ exists idx,
       _name_index (snd (preprocess_data Sample.iso_date Sample.calm
                           (Sample.fresh Sample.cache))) = Some idx
       /\ index_pkl (disk (snd (preprocess_data Sample.iso_date Sample.calm
                                  (Sample.fresh Sample.cache))))
          = Some (Intact idx).
Proof.
  assert (E : preprocess_data Sample.iso_date Sample.calm (Sample.fresh Sample.cache)
              = (inr tt, snd (preprocess_data Sample.iso_date Sample.calm
                                (Sample.fresh Sample.cache))))
    by (vm_compute; reflexivity).
  split; [exact E|].
  destruct (persisted_index_reloads Sample.iso_date Sample.iso_date
              Sample.calm (Sample.fresh Sample.cache) _ E) as (idx & I & P & _).
  exists idx. split; [exact I|exact P].
Defined.

Lemma load_data_leaves_memory_and_disk_coherent_witness :
  load_data Sample.iso_date Sample.calm (Sample.fresh Sample.cache)
  = (inr tt, snd (load_data Sample.iso_date Sample.calm
                    (Sample.fresh Sample.cache)))
  /\ exists df idx,
       data_file (disk (Sample.fresh Sample.cache)) = Some (Intact df)
       /\ _data (snd (load_data Sample.iso_date Sample.calm
                        (Sample.fresh Sample.cache))) = Some df
       /\ _name_index (snd (load_data Sample.iso_date Sample.calm
                              (Sample.fresh Sample.cache))) = Some idx.
Proof.
  assert (E : load_data Sample.iso_date Sample.calm (Sample.fresh Sample.cache)
              = (inr tt, snd (load_data Sample.iso_date Sample.calm
                                (Sample.fresh Sample.cache))))
    by (vm_compute; reflexivity).
  split; [exact E|].
  destruct (load_data_leaves_memory_and_disk_coherent Sample.iso_date
              Sample.calm (Sample.fresh Sample.cache) _ E)
    as (df & idx & D & M & I & _).
  exists df, idx. split; [exact D|]. split; [exact M|exact I].
Defined.

(** ** Refresh, update and start *)

Lemma refreshed_cache_is_up_to_date_witness :
  download_data Sample.calm (Sample.fresh Sample.empty_cache)
  = (true, snd (download_data Sample.calm (Sample.fresh Sample.empty_cache)))
  /\ metadata_write Sample.calm = Written
  /\ head_reply (Sample.later (Sample.noon 2026 11 5)) = head_reply Sample.calm
  /\ (clock (Sample.later (Sample.noon 2026 11 5)) - clock Sample.calm
      <= HOURS_24)%Z
  /\ needs_update (Sample.later (Sample.noon 2026 11 5))
       (snd (download_data Sample.calm (Sample.fresh Sample.empty_cache)))
     = false.
Proof.
  assert (E : download_data Sample.calm (Sample.fresh Sample.empty_cache)
              = (true, snd (download_data Sample.calm
                              (Sample.fresh Sample.empty_cache))))
    by (vm_compute; reflexivity).
  assert (W : metadata_write Sample.calm = Written) by reflexivity.
  assert (H : head_reply (Sample.later (Sample.noon 2026 11 5))
              = head_reply Sample.calm) by reflexivity.
  assert (T : (clock (Sample.later (Sample.noon 2026 11 5)) - clock Sample.calm
               <= HOURS_24)%Z) by (vm_compute; discriminate).
  split; [exact E|]. split; [exact W|]. split; [exact H|]. split; [exact T|].
  exact (proj2 (refreshed_cache_is_up_to_date Sample.calm
                  (Sample.fresh Sample.empty_cache) _
                  (Sample.later (Sample.noon 2026 11 5)) E W H T)).
Defined.

Lemma update_if_needed_outcomes_witness :
  needs_update Sample.calm (Sample.fresh Sample.cache) = false
  /\ update_if_needed Sample.iso_date Sample.calm (Sample.fresh Sample.cache)
     = (inr false, Sample.fresh Sample.cache)
  /\ update_if_needed Sample.iso_date Sample.calm
       (Sample.fresh Sample.empty_cache)
     = (inr true, snd (update_if_needed Sample.iso_date Sample.calm
                         (Sample.fresh Sample.empty_cache)))
  /\ exists df,
       data_file (disk (snd (update_if_needed Sample.iso_date Sample.calm
                               (Sample.fresh Sample.empty_cache))))
       = Some (Intact df)
       /\ _name_index (snd (update_if_needed Sample.iso_date Sample.calm
                              (Sample.fresh Sample.empty_cache)))
          = Some (build_index Sample.iso_date (clock Sample.calm) df).
Proof.
  assert (N : needs_update Sample.calm (Sample.fresh Sample.cache) = false)
    by (vm_compute; reflexivity).
  assert (E : update_if_needed Sample.iso_date Sample.calm
                (Sample.fresh Sample.empty_cache)
              = (inr true, snd (update_if_needed Sample.iso_date Sample.calm
                                  (Sample.fresh Sample.empty_cache))))
    by (vm_compute; reflexivity).
  split; [exact N|]. split; [|split; [exact E|]].
  - exact (proj1 (update_if_needed_outcomes Sample.iso_date Sample.calm
                    (Sample.fresh Sample.cache)) N).
  - destruct (proj2 (proj2 (update_if_needed_outcomes Sample.iso_date
                              Sample.calm (Sample.fresh Sample.empty_cache)))
                _ E) as (df & F & _ & I & _).
    exists df. split; [exact F|exact I].
Defined.

Lemma startup_after_refresh_witness :
  update_if_needed Sample.iso_date Sample.calm (new_manager Sample.empty_cache)
  = (inr true, snd (startup Sample.iso_date Sample.calm Sample.empty_cache))
  /\ startup Sample.iso_date Sample.calm Sample.empty_cache
     = (inr tt, snd (startup Sample.iso_date Sample.calm Sample.empty_cache)).
Proof.
  assert (E : update_if_needed Sample.iso_date Sample.calm
                (new_manager Sample.empty_cache)
              = (inr true, snd (startup Sample.iso_date Sample.calm
                                  Sample.empty_cache)))
    by (vm_compute; reflexivity).
  split; [exact E|].
  exact (proj1 (proj1 (startup_after_refresh Sample.iso_date Sample.calm
                         Sample.empty_cache) _ E)).
Defined.

Lemma first_start_without_download_fails_witness :
  data_file Sample.empty_cache = None
  /\ download_data Sample.offline (new_manager Sample.empty_cache)
     = (false, new_manager Sample.empty_cache)
  /\ startup Sample.iso_date Sample.offline Sample.empty_cache
     = (inl FileNotFoundError, new_manager Sample.empty_cache).
Proof.
  assert (F : data_file Sample.empty_cache = None) by reflexivity.
  assert (D : download_data Sample.offline (new_manager Sample.empty_cache)
              = (false, new_manager Sample.empty_cache))
    by (vm_compute; reflexivity).
  split; [exact F|]. split; [exact D|].
  exact (first_start_without_download_fails Sample.iso_date Sample.offline
           Sample.empty_cache F D).
Defined.

(** ** Lookups *)

Lemma candidates_are_bounded_witness :
  ensure_loaded Sample.iso_date Sample.calm Sample.loaded
  = (inr tt, Sample.loaded)
  /\ (0 <= 1)%Z
  /\ exists candidates,
       find_lifter_candidates Sample.iso_date Sample.iso_date Sample.calm
         "John Smith" 90 "" 1 Sample.loaded = (inr candidates, Sample.loaded)
       /\ (length candidates <= Z.to_nat 1
           \/ exists r, candidates = [exact_candidate r]).
Proof.
  assert (E : ensure_loaded Sample.iso_date Sample.calm Sample.loaded
              = (inr tt, Sample.loaded)) by (vm_compute; reflexivity).
  assert (M : (0 <= 1)%Z) by lia.
  split; [exact E|]. split; [exact M|].
  destruct (candidates_are_bounded Sample.iso_date Sample.iso_date
              Sample.calm Sample.loaded Sample.loaded "John Smith" 90 "" 1
              E M) as (candidates & F & B & _).
  exists candidates. split; [exact F|exact B].
Defined.

Lemma candidates_come_from_the_index_witness :
  ensure_loaded Sample.iso_date Sample.calm Sample.loaded
  = (inr tt, Sample.loaded)
  /\ exists candidates,
       find_lifter_candidates Sample.iso_date Sample.iso_date Sample.calm
         "Smith, John" 0 "" 10 Sample.loaded = (inr candidates, Sample.loaded)
       /\ (candidates = []
           \/ exists v, In v (_try_multiple_normalizations "Smith, John")).
Proof.
  assert (E : ensure_loaded Sample.iso_date Sample.calm Sample.loaded
              = (inr tt, Sample.loaded)) by (vm_compute; reflexivity).
  split; [exact E|].
  destruct (candidates_come_from_the_index Sample.iso_date Sample.iso_date
              Sample.calm Sample.loaded Sample.loaded "Smith, John" 0 "" 10 E)
    as (candidates & F & [N|(v & V & _)]).
  - exists candidates. split; [exact F|]. left. exact N.
  - exists candidates. split; [exact F|]. right. exists v. exact V.
Defined.

Lemma lookup_without_hint_is_never_medium_witness :
  ensure_loaded Sample.iso_date Sample.calm Sample.loaded
  = (inr tt, Sample.loaded)
  /\ (0 <= 0)%Q
  /\ exists response,
       get_lifter_stats_robust Sample.whole_float Sample.iso_date
         Sample.iso_date Sample.calm "John Smith" 0 "" Sample.loaded
       = (inr response, Sample.loaded)
       /\ Resp.confidence response <> Some "medium".
Proof.
  assert (E : ensure_loaded Sample.iso_date Sample.calm Sample.loaded
              = (inr tt, Sample.loaded)) by (vm_compute; reflexivity).
  assert (H : (0 <= 0)%Q) by (vm_compute; discriminate).
  split; [exact E|]. split; [exact H|].
  destruct (lookup_without_hint_is_never_medium Sample.whole_float
              Sample.iso_date Sample.iso_date Sample.calm Sample.loaded
              Sample.loaded "John Smith" 0 "" E H)
    as (candidates & response & _ & G & M & _).
  exists response. split; [exact G|exact M].
Defined.

Lemma sample_index_has_no_empty_entry :
  no_empty_entry (index_of Sample.loaded).
Proof.
  intros k recs I. vm_compute in I.
  destruct I as [I|[I|[I|[]]]]; injection I as _ <-; discriminate.
Defined.

Lemma not_found_iff_no_search_name_hits_witness :
  ensure_loaded Sample.iso_date Sample.calm Sample.loaded
  = (inr tt, Sample.loaded)
  /\ no_empty_entry (index_of Sample.loaded)
  /\ exists response,
       get_lifter_stats_robust Sample.whole_float Sample.iso_date
         Sample.iso_date Sample.calm "Nobody" 0 "" Sample.loaded
       = (inr response, Sample.loaded)
       /\ (Resp.found response = false
           <-> forall v, In v (_try_multiple_normalizations "Nobody") ->
                         no_hit (index_of Sample.loaded) v).
Proof.
  assert (E : ensure_loaded Sample.iso_date Sample.calm Sample.loaded
              = (inr tt, Sample.loaded)) by (vm_compute; reflexivity).
  split; [exact E|]. split; [exact sample_index_has_no_empty_entry|].
  exact (not_found_iff_no_search_name_hits Sample.whole_float Sample.iso_date
           Sample.iso_date Sample.calm Sample.loaded Sample.loaded
           "Nobody" 0 "" E sample_index_has_no_empty_entry).
Defined.

Lemma batch_agrees_with_single_lookup_witness :
  ensure_loaded Sample.iso_date Sample.calm Sample.newer_loaded
  = (inr tt, Sample.newer_loaded)
  /\ exists candidates results answer,
       find_lifter_candidates Sample.iso_date Sample.iso_date Sample.calm
         "Doe, Jane" 0 "" 10 Sample.newer_loaded
       = (inr candidates, Sample.newer_loaded)
       /\ get_lifter_stats_batch Sample.whole_float Sample.iso_date
            Sample.calm ["Doe, Jane"] Sample.newer_loaded
          = (inr results, Sample.newer_loaded)
       /\ PyDict.get results "Doe, Jane" = Some answer
       /\ (forall c, candidates = [c] -> match_type c = "exact" ->
                     answer = exact_answer Sample.whole_float (record c)).
Proof.
  assert (E : ensure_loaded Sample.iso_date Sample.calm Sample.newer_loaded
              = (inr tt, Sample.newer_loaded)) by (vm_compute; reflexivity).
  split; [exact E|].
  destruct (batch_agrees_with_single_lookup Sample.whole_float Sample.iso_date
              Sample.iso_date Sample.calm Sample.newer_loaded
              Sample.newer_loaded "Doe, Jane" 0 "" E)
    as (candidates & response & results & answer & F & _ & B & G & X & _).
  exists candidates, results, answer.
  split; [exact F|]. split; [exact B|]. split; [exact G|exact X].
Defined.

(** ** Search endpoint *)

Example search_for_smith :
  exists r,
    search_lifters Sample.whole_float Sample.calm (Some Sample.loaded)
      " Smith " 2 1 = inr r
    /\ Search.total_count r = 4
    /\ map Lifter.name (Search.lifters r) = ["John  Smith"; "Smith, John"].
Proof. eexists. split; [vm_compute; reflexivity|]. vm_compute. auto. Qed.

Lemma search_lists_the_records_of_matching_keys_witness :
  exists r,
    search_lifters Sample.whole_float Sample.calm (Some Sample.loaded)
      " Smith " 2 1 = inr r
    /\ Search.total_count r
       = length (records_matching Sample.name_index (search_key " Smith "))
    /\ length (Search.lifters r) <= Search.total_count r.
Proof.
  assert (E : { r | search_lifters Sample.whole_float Sample.calm
                      (Some Sample.loaded) " Smith " 2 1 = inr r })
    by (eexists; vm_compute; reflexivity).
  destruct E as [r E]. exists r. split; [exact E|].
  destruct (search_lists_the_records_of_matching_keys Sample.whole_float
              Sample.calm Sample.loaded " Smith " 2 1 r E)
    as (idx & I & T & _ & _ & L).
  injection I as <-. split; [exact T|exact L].
Defined.

Lemma search_page_is_capped_witness :
  (0 <= 500)%Z
  /\ exists r,
       search_lifters Sample.whole_float Sample.calm (Some Sample.loaded)
         "smith" 500 (-2) = inr r
       /\ length (Search.lifters r) <= 100.
Proof.
  assert (N : (0 <= 500)%Z) by lia.
  split; [exact N|].
  assert (E : { r | search_lifters Sample.whole_float Sample.calm
                      (Some Sample.loaded) "smith" 500 (-2) = inr r })
    by (eexists; vm_compute; reflexivity).
  destruct E as [r E]. exists r. split; [exact E|].
  exact (proj1 (proj2 (search_page_is_capped Sample.whole_float Sample.calm
                         Sample.loaded "smith" 500 (-2) r E N))).
Defined.

Lemma search_pages_are_consecutive_witness :
  (0 <= 1)%Z /\ (0 <= 2)%Z /\ (2 + 1 <= 100)%Z
  /\ exists r1 r2 r12,
       search_lifters Sample.whole_float Sample.calm (Some Sample.loaded)
         "smith" 2 1 = inr r1
       /\ search_lifters Sample.whole_float Sample.calm (Some Sample.loaded)
            "smith" 1 (1 + 2) = inr r2
       /\ search_lifters Sample.whole_float Sample.calm (Some Sample.loaded)
            "smith" (2 + 1) 1 = inr r12
       /\ Search.lifters r12 = Search.lifters r1 ++ Search.lifters r2.
Proof.
  assert (O : (0 <= 1)%Z) by lia.
  assert (N : (0 <= 2)%Z) by lia.
  assert (C : (2 + 1 <= 100)%Z) by lia.
  split; [exact O|]. split; [exact N|]. split; [exact C|].
  assert (E1 : { r | search_lifters Sample.whole_float Sample.calm
                       (Some Sample.loaded) "smith" 2 1 = inr r })
    by (eexists; vm_compute; reflexivity).
  assert (E2 : { r | search_lifters Sample.whole_float Sample.calm
                       (Some Sample.loaded) "smith" 1 (1 + 2) = inr r })
    by (eexists; vm_compute; reflexivity).
  assert (E12 : { r | search_lifters Sample.whole_float Sample.calm
                        (Some Sample.loaded) "smith" (2 + 1) 1 = inr r })
    by (eexists; vm_compute; reflexivity).
  destruct E1 as [r1 E1], E2 as [r2 E2], E12 as [r12 E12].
  exists r1, r2, r12.
  split; [exact E1|]. split; [exact E2|]. split; [exact E12|].
  exact (search_pages_are_consecutive Sample.whole_float Sample.calm
           Sample.loaded "smith" 2 1 1 r1 r2 r12 O N O C E1 E2 E12).
Defined.

Lemma search_with_negative_limit_witness :
  (-1 < 0)%Z /\ (0 <= 0)%Z /\ (0 + -1 < 0)%Z
  /\ exists r,
       search_lifters Sample.whole_float Sample.calm (Some Sample.loaded)
         "smith" (-1) 0 = inr r
       /\ length (Search.lifters r)
          = Z.to_nat (Z.of_nat (Search.total_count r) + (0 + -1)) - Z.to_nat 0.
Proof.
  assert (N : (-1 < 0)%Z) by lia.
  assert (O : (0 <= 0)%Z) by lia.
  assert (B : (0 + -1 < 0)%Z) by lia.
  split; [exact N|]. split; [exact O|]. split; [exact B|].
  assert (E : { r | search_lifters Sample.whole_float Sample.calm
                      (Some Sample.loaded) "smith" (-1) 0 = inr r })
    by (eexists; vm_compute; reflexivity).
  destruct E as [r E]. exists r. split; [exact E|].
  exact (proj1 (search_with_negative_limit Sample.whole_float Sample.calm
                  Sample.loaded "smith" (-1) 0 r E N O) B).
Defined.

Example negative_limit_returns_all_but_the_last :
  exists r,
    search_lifters Sample.whole_float Sample.calm (Some Sample.loaded)
      "smith" (-1) 0 = inr r
    /\ Search.total_count r = 4
    /\ length (Search.lifters r) = 3.
Proof. eexists. split; [vm_compute; reflexivity|]. vm_compute. auto. Qed.

Lemma search_after_startup_witness :
  startup Sample.iso_date Sample.calm Sample.cache
  = (inr tt, snd (startup Sample.iso_date Sample.calm Sample.cache))
  /\ String.length (PyStr.strip " J ") < 2
  /\ search_lifters Sample.whole_float Sample.calm
       (Some (snd (startup Sample.iso_date Sample.calm Sample.cache)))
       " J " 20 0
     = inl (Http 400 "Name must be at least 2 characters long").
Proof.
  assert (S : startup Sample.iso_date Sample.calm Sample.cache
              = (inr tt, snd (startup Sample.iso_date Sample.calm Sample.cache)))
    by (vm_compute; reflexivity).
  assert (B : String.length (PyStr.strip " J ") < 2) by (vm_compute; lia).
  split; [exact S|]. split; [exact B|].
  exact (proj1 (search_after_startup Sample.whole_float Sample.iso_date
                  Sample.calm Sample.cache _ Sample.calm " J " 20 0 S) B).
Defined.

Lemma search_for_punctuation_counts_the_whole_index_witness :
  search_key ", ," = ""
  /\ exists r,
       search_lifters Sample.whole_float Sample.calm (Some Sample.loaded)
         ", ," 20 0 = inr r
       /\ Search.total_count r
          = length (flat_map (records_at Sample.name_index)
                      (PyDict.keys Sample.name_index)).
Proof.
  assert (K : search_key ", ," = "") by reflexivity.
  split; [exact K|].
  assert (E : { r | search_lifters Sample.whole_float Sample.calm
                      (Some Sample.loaded) ", ," 20 0 = inr r })
    by (eexists; vm_compute; reflexivity).
  destruct E as [r E]. exists r. split; [exact E|].
  exact (search_for_punctuation_counts_the_whole_index Sample.whole_float
           Sample.calm Sample.loaded ", ," 20 0 r E K Sample.name_index
           eq_refl).
Defined.

(** ** Roster processor *)

Example sample_roster_is_parsed :
  _parse_lifters_with_divisions Sample.roster
  = [ Sample.first_entry;
      {| lifter_name_with_number := "3 Doe, Jane";
         clean_lifter_name := "Doe, Jane";
         lifter_name_for_url := "DoeJane";
         lifter_profile_url := "/lifter/3";
         lifter_division := "Division not found" |} ].
Proof. vm_compute. reflexivity. Qed.

Example clean_names :
  map _extract_clean_name
      ["1 - John Doe"; "12 John Doe"; "7 Jean-Luc 2-Picard"; "John Doe 12";
       "1 -"; "12-A"]
  = [Some "John Doe"; Some "John Doe"; Some "Picard"; Some "John Doe 12";
     None; None].
Proof. vm_compute. reflexivity. Qed.

Example decimal_floats_read_back :
  map Sample.decimal_float [200%Q; (200 * 2.2046)%Q; 82.5%Q; 0%Q]
  = ["200.0"; "440.92"; "82.5"; "0.0"]
  /\ map Sample.float_of_decimal ["200.0"; "440.92"; "0"; "abc"]
     = [Some 200%Q; Some (Qred 440.92); Some 0%Q; None].
Proof. split; vm_compute; reflexivity. Qed.

Lemma numbered_name_is_extracted_witness :
  all_chars (fun c => negb (is_digit c)) "No. " = true
  /\ "12" <> ""
  /\ all_chars is_digit "12" = true
  /\ all_chars PyStr.isspace " " = true
  /\ all_chars PyStr.isspace "  " = true
  /\ all_chars is_dot "Anne-Marie O'Neil" = true
  /\ PyStr.strip "Anne-Marie O'Neil" = "Anne-Marie O'Neil"
  /\ 2 <= String.length "Anne-Marie O'Neil"
  /\ _extract_clean_name "No. 12 -  Anne-Marie O'Neil"
     = Some "Anne-Marie O'Neil".
Proof.
  assert (P : all_chars (fun c => negb (is_digit c)) "No. " = true)
    by reflexivity.
  assert (N : "12" <> "") by discriminate.
  assert (D : all_chars is_digit "12" = true) by reflexivity.
  assert (W1 : all_chars PyStr.isspace " " = true) by reflexivity.
  assert (W2 : all_chars PyStr.isspace "  " = true) by reflexivity.
  assert (L : all_chars is_dot "Anne-Marie O'Neil" = true) by reflexivity.
  assert (S : PyStr.strip "Anne-Marie O'Neil" = "Anne-Marie O'Neil")
    by reflexivity.
  assert (Len : 2 <= String.length "Anne-Marie O'Neil") by (simpl; lia).
  repeat (split; [assumption|]).
  exact (numbered_name_is_extracted "No. " "12" " " "  " "Anne-Marie O'Neil"
           P N D W1 W2 L S Len).
Defined.

Lemma number_without_hyphen_is_dropped_witness :
  "3" <> ""
  /\ all_chars is_digit "3" = true
  /\ all_chars PyStr.isspace " " = true
  /\ all_chars is_ascii "Doe, Jane" = true
  /\ PyStr.contains "-" "Doe, Jane" = false
  /\ begins_with is_digit "Doe, Jane" = false
  /\ PyStr.strip "Doe, Jane" = "Doe, Jane"
  /\ 2 <= String.length "Doe, Jane"
  /\ _extract_clean_name "3 Doe, Jane" = Some "Doe, Jane".
Proof.
  assert (N : "3" <> "") by discriminate.
  assert (D : all_chars is_digit "3" = true) by reflexivity.
  assert (W : all_chars PyStr.isspace " " = true) by reflexivity.
  assert (A : all_chars is_ascii "Doe, Jane" = true) by reflexivity.
  assert (H : PyStr.contains "-" "Doe, Jane" = false) by reflexivity.
  assert (B : begins_with is_digit "Doe, Jane" = false) by reflexivity.
  assert (S : PyStr.strip "Doe, Jane" = "Doe, Jane") by reflexivity.
  assert (Len : 2 <= String.length "Doe, Jane") by (simpl; lia).
  repeat (split; [assumption|]).
  exact (number_without_hyphen_is_dropped "3" " " "Doe, Jane"
           N D W A H B S Len).
Defined.

Lemma roster_lookup_uses_one_search_name_witness :
  ensure_loaded Sample.iso_date Sample.calm Sample.loaded
  = (inr tt, Sample.loaded)
  /\ lifter_name_for_url Sample.first_entry
     = PyStr.remove "," (PyStr.remove " " (clean_lifter_name Sample.first_entry))
  /\ _try_multiple_normalizations (lifter_name_for_url Sample.first_entry)
     = [variant1 (clean_lifter_name Sample.first_entry)].
Proof.
  assert (E : ensure_loaded Sample.iso_date Sample.calm Sample.loaded
              = (inr tt, Sample.loaded)) by (vm_compute; reflexivity).
  assert (U : lifter_name_for_url Sample.first_entry
              = PyStr.remove "," (PyStr.remove " "
                  (clean_lifter_name Sample.first_entry))) by reflexivity.
  split; [exact E|]. split; [exact U|].
  exact (proj1 (roster_lookup_uses_one_search_name Sample.decimal_float
                  Sample.iso_date Sample.iso_date Sample.float_of_decimal
                  Sample.calm Sample.loaded Sample.loaded Sample.first_entry
                  E U)).
Defined.

Lemma processed_lifter_pounds_witness :
  ensure_loaded Sample.iso_date Sample.calm Sample.loaded
  = (inr tt, Sample.loaded)
  /\ exists response info,
       get_lifter_stats_robust Sample.decimal_float Sample.iso_date
         Sample.iso_date Sample.calm
         (lifter_name_for_url Sample.first_entry) 0 "" Sample.loaded
       = (inr response, Sample.loaded)
       /\ _process_single_lifter Sample.decimal_float Sample.iso_date
            Sample.iso_date Sample.float_of_decimal Sample.calm
            Sample.first_entry Sample.loaded
          = (inr info, Sample.loaded)
       /\ carries Sample.decimal_float response (Sample.entry 0 Sample.john 248)
       /\ LifterInfo.squat_lbs info
          = Sample.decimal_float (squat (Sample.entry 0 Sample.john 248) * 2.2046)%Q.
Proof.
  assert (E : ensure_loaded Sample.iso_date Sample.calm Sample.loaded
              = (inr tt, Sample.loaded)) by (vm_compute; reflexivity).
  split; [exact E|].
  destruct (processed_lifter_pounds Sample.decimal_float Sample.iso_date
              Sample.iso_date Sample.float_of_decimal Sample.calm
              Sample.loaded Sample.loaded Sample.first_entry E)
    as (response & info & G & P & Lbs & _).
  exists response, info. split; [exact G|]. split; [exact P|].
  assert (C : carries Sample.decimal_float response
                (Sample.entry 0 Sample.john 248)).
  { vm_compute in G. injection G as <-. vm_compute. repeat split. }
  split; [exact C|].
  apply (Lbs (Sample.entry 0 Sample.john 248) C);
    vm_compute; reflexivity.
Defined.

Example processed_sample_lifters :
  exists known unknown,
    _process_single_lifter Sample.decimal_float Sample.iso_date
      Sample.iso_date Sample.float_of_decimal Sample.calm
      Sample.first_entry Sample.loaded = (inr known, Sample.loaded)
    /\ _process_single_lifter Sample.decimal_float Sample.iso_date
         Sample.iso_date Sample.float_of_decimal Sample.calm
         Sample.unknown_entry Sample.loaded = (inr unknown, Sample.loaded)
    /\ (LifterInfo.squat_kg known, LifterInfo.squat_lbs known)
       = ("200.0", "440.92")
    /\ (LifterInfo.squat_kg unknown, LifterInfo.squat_lbs unknown)
       = ("0", "0.0").
Proof.
  eexists. eexists. split; [vm_compute; reflexivity|].
  split; [vm_compute; reflexivity|]. split; vm_compute; reflexivity.
Qed.

(** ** Scorer *)

Lemma score_is_monotone_witness :
  (0.5 <= 1)%Q
  /\ (clock Sample.calm <= clock (Sample.later (Sample.noon 2027 6 1)))%Z
  /\ (_calculate_comprehensive_match_score Sample.iso_date Sample.calm
        (Sample.entry 0 Sample.john 248) 0.5 83 ""
      <= _calculate_comprehensive_match_score Sample.iso_date Sample.calm
           (Sample.entry 0 Sample.john 248) 1 83 "")%Q
  /\ (_calculate_comprehensive_match_score Sample.iso_date
        (Sample.later (Sample.noon 2027 6 1))
        (Sample.entry 0 Sample.john 248) 0.5 83 ""
      <= _calculate_comprehensive_match_score Sample.iso_date Sample.calm
           (Sample.entry 0 Sample.john 248) 0.5 83 "")%Q.
Proof.
  assert (S : (0.5 <= 1)%Q) by (vm_compute; discriminate).
  assert (C : (clock Sample.calm
               <= clock (Sample.later (Sample.noon 2027 6 1)))%Z)
    by (vm_compute; discriminate).
  split; [exact S|]. split; [exact C|].
  destruct (score_is_monotone Sample.iso_date Sample.calm
              (Sample.later (Sample.noon 2027 6 1))
              (Sample.entry 0 Sample.john 248) 0.5 1 83 "" "" S C)
    as (A & B & _).
  split; [exact A|exact B].
Defined.

Example score_fades_with_time :
  (_calculate_comprehensive_match_score Sample.iso_date Sample.calm
     (Sample.entry 0 Sample.john 248) 1 83 "" == 0.895)%Q
  /\ (_calculate_comprehensive_match_score Sample.iso_date
        (Sample.later (Sample.noon 2027 6 1))
        (Sample.entry 0 Sample.john 248) 1 83 "" == 0.845)%Q.
Proof. split; vm_compute; reflexivity. Qed.

(** ** Conversion of table cells *)

Lemma range_converts_to_its_lower_bound_witness :
  "100" <> ""
  /\ PyStr.strip "100" = "100"
  /\ PyStr.contains "-" "100" = false
  /\ PyStr.contains "+" "100" = false
  /\ _safe_float_conversion Sample.float_of_decimal (Some "100-110 ") 0
     = match Sample.float_of_decimal "100" with Some x => x | None => 0%Q end.
Proof.
  assert (N : "100" <> "") by discriminate.
  assert (S : PyStr.strip "100" = "100") by reflexivity.
  assert (H : PyStr.contains "-" "100" = false) by reflexivity.
  assert (P : PyStr.contains "+" "100" = false) by reflexivity.
  repeat (split; [assumption|]).
  exact (proj1 (range_converts_to_its_lower_bound Sample.float_of_decimal
                  "100" "110 " 0 N S H P)).
Defined.

Example converted_cells :
  map (fun v => _safe_float_conversion Sample.float_of_decimal v (-1))
      [None; Some ""; Some " NaN "; Some "100+"; Some "100-110"; Some "82.5";
       Some "-5-3"; Some "abc"]
  = [(-1)%Q; (-1)%Q; (-1)%Q; 100%Q; 100%Q; Qred 82.5; (-1)%Q; (-1)%Q].
Proof. vm_compute. reflexivity. Qed.

(** ** Lookups and the cache directory *)

Lemma lookups_load_only_an_empty_index_witness :
  index_truthy (_name_index Sample.loaded) = true
  /\ snd (get_lifter_stats_robust Sample.whole_float Sample.iso_date
            Sample.iso_date Sample.calm "John Smith" 0 "" Sample.loaded)
     = Sample.loaded
  /\ index_truthy (_name_index (Sample.fresh Sample.cache)) = false
  /\ snd (get_lifter_stats_robust Sample.whole_float Sample.iso_date
            Sample.iso_date Sample.calm "John Smith" 0 ""
            (Sample.fresh Sample.cache))
     = snd (load_data Sample.iso_date Sample.calm (Sample.fresh Sample.cache)).
Proof.
  assert (T : index_truthy (_name_index Sample.loaded) = true) by reflexivity.
  assert (F : index_truthy (_name_index (Sample.fresh Sample.cache)) = false)
    by reflexivity.
  split; [exact T|]. split; [|split; [exact F|]].
  - exact (proj1 (proj2 (proj1 (lookups_load_only_an_empty_index
             Sample.whole_float Sample.iso_date Sample.iso_date Sample.calm
             Sample.loaded "John Smith" 0 "" 10 []) T))).
  - exact (proj1 (proj2 (proj2 (lookups_load_only_an_empty_index
             Sample.whole_float Sample.iso_date Sample.iso_date Sample.calm
             (Sample.fresh Sample.cache) "John Smith" 0 "" 10 []) F))).
Defined.

Example first_lookup_writes_the_index_file :
  index_pkl (disk (Sample.fresh Sample.cache)) = None
  /\ index_pkl (disk (snd (get_lifter_stats_robust Sample.whole_float
                             Sample.iso_date Sample.iso_date Sample.calm
                             "John Smith" 0 "" (Sample.fresh Sample.cache))))
     = Some (Intact Sample.name_index).
Proof. split; vm_compute; reflexivity. Qed.
